(** * TokenWise Solana dashboard: a shallow embedding of the monitoring core

    The development follows the Python sources of the backend:
    - [services/solana_rpc.py]      : [SolanaRpc]  (retrying JSON-RPC client)
    - [services/db_service.py]      : [DbService]  (document store gateway)
    - [services/wallet_discovery.py]: [WalletDiscovery] (holder aggregation)
    - [api/websocket_manager.py]    : [WebsocketManager] (registry, broadcast,
                                       monitoring lifecycle, mock feed)

    Modelling conventions.
    - A Python [float] is an exact rational ([Q]); binary64 rounding is not
      modelled.  A Python [int] is a [Z].
    - A Python [dict] whose iteration order is observed by the code is an
      association list in insertion order; the Mongo collections, which are
      only read and written by key, are [gmap]s.
    - [await]ed calls run to completion: a call of the manager is one step
      of the history of the event loop.  A call made by the monitoring loop
      runs with the task of that loop as the current task.  Effects of the
      environment (HTTP responses, failing sockets, random draws, the clock)
      are explicit arguments.
    - Exceptions are values of type [exn], which stands for the subclasses
      of [Exception]; a computation that may raise returns a sum.  The
      cancellation of a task is part of the state, not an [exn]. *)

From stdpp Require Import gmap strings list.
From Stdlib Require Import ZArith QArith Qround Lia Lqa Permutation Sorted.
Import ListNotations.

Close Scope Q_scope.
Local Open Scope string_scope.
Local Open Scope list_scope.

(** ** Exceptions and logging shared by the services *)

(** The exception classes the sources distinguish.  [HTTPException] is
    FastAPI's; it derives from [Exception] and from neither
    [aiohttp.ClientError] nor [asyncio.TimeoutError].  Its [detail] is an
    f-string in the source; the constructors of [http_detail] are the five
    f-strings of [solana_rpc.py] with their holes. *)
Inductive exn : Type :=
| ClientError (msg : string)
| TimeoutError
| RuntimeError (msg : string)
| OtherException (msg : string)
| HTTPException (status_code : Z) (detail : http_detail)
with http_detail : Type :=
| DetailRpcError (code : option Z) (message : string)
| DetailConnect (e : exn)
| DetailTimeout
| DetailUnexpected (e : exn)
| DetailExhausted (method : string) (retries : Z).

Inductive log_level := INFO | WARNING | ERROR.

(** * models/pydantic_models.py

    The Mongo [_id] alias of the three stored models is filled by a default
    factory on the driver side and is left out. Timestamps are seconds. *)

Record TokenHolder := {
  owner : string;
  address : string;
  balance : Q;
  ui_amount : Q;
  percentage : option Q;
  decimals : Z }.

Record RealtimeTransaction := {
  signature : string;
  timestamp : Z;
  wallet : string;
  tx_token_address : string;
  amount : Q;
  action_type : string;
  protocol : string;
  block_time : Z;
  slot : Z;
  from_address : option string;
  to_address : option string;
  pre_balance : option Q;
  post_balance : option Q }.

Record WalletTracker := {
  wt_address : string;
  tracked_since : Z;
  active : bool;
  wt_balance : option Q;
  token_amount : option Q;
  last_transaction : option Z;
  total_buys : Z;
  total_sells : Z;
  profit_loss : option Q }.

Record TokenHolderSnapshot := {
  token_address : string;
  holders : list TokenHolder;
  total_supply : Q;
  holder_count : Z;
  last_updated : Z }.

(** * The process state

    [database] is the content of the three Mongo collections;
    [WalletManager] is the singleton of [websocket_manager.py]. *)

Record database := {
  realtime_transactions : list RealtimeTransaction;
  token_holders : gmap string TokenHolderSnapshot;
  wallets : gmap string WalletTracker }.

(** A [WebSocket] is compared by identity ([ws == websocket] on Starlette
    connections); a handle is that identity.  A [Task] is the identity of an
    [asyncio.Task]. *)
Definition WebSocket := nat.
Definition Task := nat.

(** A client id is the identity of a [uuid.uuid4()]; its string form is
    never empty, hence always truthy. *)
Definition client_id := nat.

(** The payloads handed to [send_text], before [json.dumps]. *)
Inductive message :=
| NewTransaction (data : RealtimeTransaction) (ts : Z)
| Text (s : string).

(** What the manager does to its sockets and its registry, in order. *)
Inductive event :=
| Delivered (ws : WebSocket) (msg : message)
| SendFailed (ws : WebSocket) (e : exn)
| Unregistered (cid : client_id) (ws : WebSocket).

Record WalletManager := {
  active_connections : list (client_id * WebSocket);
  tracked_wallets : list (string * WalletTracker);
  is_monitoring : bool;
  monitor_task : option Task;
  last_discovery_run : option Z;
  discovery_interval_seconds : Z;
  last_processed_slot : Z;
  TOKEN_CONTRACT : string }.

(** [logs] is what went to the logger, [trace] the history of sends and
    removals, [running] the monitor tasks alive in the event loop and
    [spawned] the number of tasks created so far.  [current_task] is
    [asyncio.current_task()] when the code runs inside a monitor task, and
    [None] when it runs in a request handler or a connection endpoint. *)
Record world := {
  db : database;
  manager : WalletManager;
  logs : list (log_level * string);
  trace : list event;
  running : list Task;
  spawned : nat;
  current_task : option Task }.

Definition with_db (f : database -> database) (w : world) : world :=
  {| db := f (db w); manager := manager w; logs := logs w; trace := trace w;
     running := running w; spawned := spawned w; current_task := current_task w |}.

Definition with_manager (f : WalletManager -> WalletManager) (w : world) : world :=
  {| db := db w; manager := f (manager w); logs := logs w; trace := trace w;
     running := running w; spawned := spawned w; current_task := current_task w |}.

Definition with_logs (f : list (log_level * string) -> list (log_level * string))
    (w : world) : world :=
  {| db := db w; manager := manager w; logs := f (logs w); trace := trace w;
     running := running w; spawned := spawned w; current_task := current_task w |}.

Definition with_trace (f : list event -> list event) (w : world) : world :=
  {| db := db w; manager := manager w; logs := logs w; trace := f (trace w);
     running := running w; spawned := spawned w; current_task := current_task w |}.

Definition with_running (f : list Task -> list Task) (w : world) : world :=
  {| db := db w; manager := manager w; logs := logs w; trace := trace w;
     running := f (running w); spawned := spawned w; current_task := current_task w |}.

Definition with_spawned (f : nat -> nat) (w : world) : world :=
  {| db := db w; manager := manager w; logs := logs w; trace := trace w;
     running := running w; spawned := f (spawned w); current_task := current_task w |}.

Definition with_current_task (t : option Task) (w : world) : world :=
  {| db := db w; manager := manager w; logs := logs w; trace := trace w;
     running := running w; spawned := spawned w; current_task := t |}.

(** ** Coroutines: state and exceptions *)

Definition M (A : Type) : Type := world -> (exn + A) * world.

Definition ret {A} (a : A) : M A := fun w => (inr a, w).

Definition bind {A B} (m : M A) (k : A -> M B) : M B :=
  fun w => match m w with
           | (inr a, w') => k a w'
           | (inl e, w') => (inl e, w')
           end.

Definition raise {A} (e : exn) : M A := fun w => (inl e, w).

(** [try: m except ...: h e]; a handler that does not match re-raises. *)
Definition try_except {A} (m : M A) (h : exn -> M A) : M A :=
  fun w => match m w with
           | (inl e, w') => h e w'
           | r => r
           end.

Definition gets {A} (f : world -> A) : M A := fun w => (inr (f w), w).
Definition modify (f : world -> world) : M unit := fun w => (inr tt, f w).

(** The instances give [x ← m; k] and [m;; k] their meaning on [M]. *)
#[global] Instance M_ret : MRet M := @ret.
#[global] Instance M_bind : MBind M := fun A B k m => bind m k.

Definition log (lvl : log_level) (msg : string) : M unit :=
  modify (with_logs (fun l => (l ++ [(lvl, msg)])%list)).

(** [for x in l: body x] *)
Fixpoint for_each {A} (body : A -> M unit) (l : list A) : M unit :=
  match l with
  | [] => ret tt
  | x :: l' => body x ;; for_each body l'
  end.

Definition when (b : bool) (m : M unit) : M unit := if b then m else ret tt.

(** * services/db_service.py

    Every gateway function wraps its driver call in
    [try ... except Exception: logger.error(...); return False]; [ok] says
    whether the driver call goes through.  When it does, [update_one] with
    [upsert=True] and a [$set] of the whole model is an insertion at the
    key. *)
Module DbService.

Definition insert_realtime_transaction (ok : bool) (tx : RealtimeTransaction) : M bool :=
  if ok then
    modify (with_db (fun d =>
      {| realtime_transactions := (realtime_transactions d ++ [tx])%list;
         token_holders := token_holders d; wallets := wallets d |})) ;;
    ret true
  else log ERROR "Error inserting transaction" ;; ret false.

Definition get_token_holder_snapshot (token : string) : M (option TokenHolderSnapshot) :=
  gets (fun w => token_holders (db w) !! token).

Definition update_token_holder_snapshot (ok : bool) (snapshot : TokenHolderSnapshot) : M bool :=
  if ok then
    modify (with_db (fun d =>
      {| realtime_transactions := realtime_transactions d;
         token_holders := <[token_address snapshot := snapshot]> (token_holders d);
         wallets := wallets d |})) ;;
    ret true
  else log ERROR "Error updating token holder snapshot" ;; ret false.

Definition update_or_insert_wallet_tracker (ok : bool) (w : WalletTracker) : M bool :=
  if ok then
    modify (with_db (fun d =>
      {| realtime_transactions := realtime_transactions d;
         token_holders := token_holders d;
         wallets := <[wt_address w := w]> (wallets d) |})) ;;
    ret true
  else log ERROR "Error updating/inserting wallet tracker" ;; ret false.

End DbService.

(** * services/solana_rpc.py *)
Module SolanaRpc.

(** The [error] member of a JSON-RPC reply; both fields are read with
    [.get] and a default. *)
Record rpc_error := { err_code : option Z; err_message : option string }.

(** What one HTTP round trip of [call_solana_rpc] can observe.
    [Raises e] stands for any exception raised inside the [try] block by the
    session, by [raise_for_status] (a [ClientError]), by [response.json()],
    or by the lookup [result['result']]. *)
Inductive response (R : Type) : Type :=
| Status429
| Raises (e : exn)
| JsonError (err : rpc_error)
| JsonResult (r : R).
Arguments Status429 {R}.
Arguments Raises {R} e.
Arguments JsonError {R} err.
Arguments JsonResult {R} r.

(** What the caller can observe of a call besides its result. *)
Inductive rpc_event := Posted (attempt : nat) | Slept (delay : Q).

Definition delays_of (tr : list rpc_event) : list Q :=
  flat_map (fun ev => match ev with Slept d => [d] | Posted _ => [] end) tr.

Definition attempts_of (tr : list rpc_event) : nat :=
  List.length (List.filter (fun ev => match ev with Posted _ => true | Slept _ => false end) tr).

Section Call.
Context {R : Type}.
(** [net k] is the reply to the request of attempt [k] (counted from 0). *)
Variable net : nat -> response R.
Variable method : string.
Variable retries : Z.
Variable initial_delay : Q.

(** [delay = initial_delay * (2 ** attempt)] *)
Definition backoff (attempt : nat) : Q :=
  (initial_delay * inject_Z (2 ^ Z.of_nat attempt))%Q.

(** The exception raised in the [else] branch of the three handlers. *)
Definition terminal_failure (e : exn) : exn :=
  match e with
  | ClientError _ => HTTPException 503 (DetailConnect e)
  | TimeoutError => HTTPException 504 DetailTimeout
  | _ => HTTPException 500 (DetailUnexpected e)
  end.

(** [raise HTTPException(status_code=500, detail=f"RPC Error (...)")] *)
Definition rpc_error_exception (err : rpc_error) : exn :=
  HTTPException 500
    (DetailRpcError (err_code err)
                    (default "Unknown RPC error" (err_message err))).

(** The body of [for attempt in range(retries)], [remaining] iterations
    being left.  Falling out of the loop raises the final 500. *)
Fixpoint rpc_loop (remaining attempt : nat) : (exn + R) * list rpc_event :=
  match remaining with
  | O => (inl (HTTPException 500 (DetailExhausted method retries)), [])
  | S remaining' =>
      let again :=
        let '(res, tr) := rpc_loop remaining' (S attempt) in
        (res, Posted attempt :: Slept (backoff attempt) :: tr) in
      let handler (e : exn) :=
        if (Z.of_nat attempt <? retries - 1)%Z then again
        else (inl (terminal_failure e), [Posted attempt]) in
      match net attempt with
      | Status429 => again
      | Raises e => handler e
      | JsonError err => handler (rpc_error_exception err)
      | JsonResult r => (inr r, [Posted attempt])
      end
  end.

Definition call_solana_rpc : (exn + R) * list rpc_event :=
  rpc_loop (Z.to_nat retries) 0.
End Call.

(** Replies given as a finite script, followed by timeouts. *)
Definition script {R} (l : list (response R)) : nat -> response R :=
  fun k => nth k l (Raises TimeoutError).

(** [10**decimals] is an [int] for a non-negative exponent and a [float]
    otherwise; the quotient is a float in both cases. *)
Definition py_pow10 (d : Z) : Q :=
  if (0 <=? d)%Z then inject_Z (10 ^ d) else (/ inject_Z (10 ^ (- d)))%Q.

(** [float(raw) / (10**decimals)] *)
Definition ui_of (raw decimals : Z) : Q := (inject_Z raw / py_pow10 decimals)%Q.

(** A coroutine awaiting [call_solana_rpc] sees its result or exception. *)
Definition await_rpc {R} (run : (exn + R) * list rpc_event) : M R :=
  match fst run with
  | inl e => raise e
  | inr r => ret r
  end.

(** [mint_info["value"]["data"]["parsed"]["info"]] of a [getAccountInfo]
    reply; a field that is missing or does not parse is [None] and raises
    when read. The reply itself is [None] when [value] or [data] is falsy. *)
Record mint_info := { mint_supply : option Z; mint_decimals : option Z }.

(** [{"value": {"uiAmount": ..., "decimals": ...}}] *)
Record supply_info := { uiAmount : Q; si_decimals : Z }.

Definition lookup_key {A} (key : string) (o : option A) : M A :=
  match o with
  | Some a => ret a
  | None => raise (OtherException key)
  end.

Definition get_token_supply (net : nat -> response (option mint_info))
    (token : string) : M (option supply_info) :=
  try_except
    (mint ← await_rpc (call_solana_rpc net "getAccountInfo" 3 5);
     match mint with
     | Some info =>
         supply ← lookup_key "supply" (mint_supply info);
         decimals ← lookup_key "decimals" (mint_decimals info);
         ret (Some {| uiAmount := ui_of supply decimals; si_decimals := decimals |})
     | None => ret None
     end)
    (fun e => log ERROR "Error getting token supply";; ret None).

End SolanaRpc.


(** * Python built-ins used by the discovery *)

(** A [dict], in insertion order. *)
Definition dict (K V : Type) := list (K * V).

Fixpoint dict_get {K V} `{EqDecision K} (k : K) (d : dict K V) : option V :=
  match d with
  | [] => None
  | (k', v) :: d' => if decide (k = k') then Some v else dict_get k d'
  end.

(** [d[k] = v]: a present key keeps its position, a new key goes last. *)
Fixpoint dict_set {K V} `{EqDecision K} (k : K) (v : V) (d : dict K V) : dict K V :=
  match d with
  | [] => [(k, v)]
  | (k', v') :: d' =>
      if decide (k = k') then (k', v) :: d' else (k', v') :: dict_set k v d'
  end.

(** [del d[k]] for a key that is present. *)
Fixpoint dict_del {K V} `{EqDecision K} (k : K) (d : dict K V) : dict K V :=
  match d with
  | [] => []
  | (k', v') :: d' =>
      if decide (k = k') then d' else (k', v') :: dict_del k d'
  end.

Definition dict_keys {K V} (d : dict K V) : list K := map fst d.
Definition dict_values {K V} (d : dict K V) : list V := map snd d.

(** [x < y] on floats. *)
Definition Qltb (x y : Q) : bool := negb (Qle_bool y x).

(** [sorted(l, key=key, reverse=True)]: descending by key, elements with
    equal keys staying in their original order.  Only [<] on keys is used. *)
Fixpoint insert_reverse {A} (key : A -> Q) (x : A) (l : list A) : list A :=
  match l with
  | [] => [x]
  | y :: l' =>
      if Qltb (key x) (key y) then y :: insert_reverse key x l'
      else x :: y :: l'
  end.

Definition sorted_reverse {A} (key : A -> Q) (l : list A) : list A :=
  fold_right (insert_reverse key) [] l.

(** [l[:n]]: a negative bound counts from the end. *)
Definition py_slice_to {A} (n : Z) (l : list A) : list A :=
  if (0 <=? n)%Z then firstn (Z.to_nat n) l
  else firstn (Z.to_nat (Z.of_nat (List.length l) + n)) l.


(** Truth value of a [str]. *)
Definition truthy (s : string) : bool := negb (String.eqb s "").

(** * services/wallet_discovery.py *)
Module WalletDiscovery.
Import SolanaRpc.

(** One element of the [getProgramAccounts] reply: [account['pubkey']],
    [info['owner']] and [int(info['tokenAmount']['amount'])].  [None] is a
    member that is missing or does not parse: reading it raises.  An owner
    that is JSON [null] is the empty string (both are falsy). *)
Record raw_account := {
  pubkey : option string;
  acc_owner : option string;
  acc_amount : option Z }.

(** Outcome of the driver calls of one run. *)
Record db_faults := {
  snapshot_write_ok : bool;
  wallet_write_ok : string -> bool }.

Definition no_faults : db_faults :=
  {| snapshot_write_ok := true; wallet_write_ok := fun _ => true |}.

(** The two dictionaries of the aggregation loop. *)
Definition aggregation : Type := dict string Q * dict string string.

(** Body of [for account in accounts_data]. *)
Definition account_step (token_decimals : Z) (st : aggregation)
    (account : raw_account) : exn + aggregation :=
  match pubkey account, acc_owner account, acc_amount account with
  | Some pk, Some own, Some token_amount_raw =>
      let ui := ui_of token_amount_raw token_decimals in
      if truthy own && Qltb 0 ui then
        let owner_balances :=
          dict_set own (default 0%Q (dict_get own (fst st)) + ui)%Q (fst st) in
        let owner_token_accounts :=
          match dict_get own (snd st) with
          | Some _ => snd st
          | None => dict_set own pk (snd st)
          end in
        inr (owner_balances, owner_token_accounts)
      else inr st
  | None, _, _ => inl (OtherException "KeyError: 'pubkey'")
  | _, None, _ => inl (OtherException "KeyError: 'owner'")
  | _, _, None => inl (OtherException "ValueError: 'amount'")
  end.

Fixpoint aggregate (token_decimals : Z) (st : aggregation)
    (accounts : list raw_account) : exn + aggregation :=
  match accounts with
  | [] => inr st
  | account :: rest =>
      match account_step token_decimals st account with
      | inl e => inl e
      | inr st' => aggregate token_decimals st' rest
      end
  end.

(** [for owner, balance in owner_balances.items(): if balance > 0: ...] *)
Definition aggregated_holders (token_decimals : Z) (st : aggregation) : list TokenHolder :=
  flat_map (fun '(own, bal) =>
    if Qltb 0 bal then
      [ {| owner := own;
           address := default own (dict_get own (snd st));
           balance := bal;
           ui_amount := bal;
           percentage := None;
           decimals := token_decimals |} ]
    else []) (fst st).

Definition tracker_of (now : Z) (h : TokenHolder) : WalletTracker :=
  {| wt_address := owner h;
     tracked_since := now;
     active := true;
     wt_balance := Some (balance h);
     token_amount := Some (balance h);
     last_transaction := None;
     total_buys := 0;
     total_sells := 0;
     profit_loss := None |}.

Definition lift_result {A} (r : exn + A) : M A :=
  match r with
  | inl e => raise e
  | inr a => ret a
  end.

(** The holders a run ranks, before truncation. *)
Definition ranked_holders (token_decimals : Z) (st : aggregation) : list TokenHolder :=
  sorted_reverse balance (aggregated_holders token_decimals st).

Definition snapshot_of (now : Z) (mint_address : string)
    (supply : option supply_info) (top_n_holders : list TokenHolder) : TokenHolderSnapshot :=
  {| token_address := mint_address;
     holders := top_n_holders;
     total_supply := match supply with Some si => uiAmount si | None => 0%Q end;
     holder_count := Z.of_nat (List.length top_n_holders);
     last_updated := now |}.

(** Body of [for holder_model in top_n_holders]. *)
Definition track_holder (faults : db_faults) (now : Z) (holder_model : TokenHolder) : M unit :=
  DbService.update_or_insert_wallet_tracker
    (wallet_write_ok faults (owner holder_model))
    (tracker_of now holder_model);;
  ret tt.

(** The [try] block. *)
Definition discover_body (net_accounts : nat -> response (option (list raw_account)))
    (net_mint : nat -> response (option mint_info)) (faults : db_faults) (now : Z)
    (mint_address : string) (top_n : Z) : M unit :=
  accounts_data ← await_rpc (call_solana_rpc net_accounts "getProgramAccounts" 3 5);
  match accounts_data with
  | None | Some [] => log WARNING "No token accounts found for mint from RPC"
  | Some accounts =>
      supply ← get_token_supply net_mint mint_address;
      let token_decimals :=
        match supply with Some si => si_decimals si | None => 0%Z end in
      st ← lift_result (aggregate token_decimals ([], []) accounts);
      let top_n_holders := py_slice_to top_n (ranked_holders token_decimals st) in
      DbService.update_token_holder_snapshot (snapshot_write_ok faults)
        (snapshot_of now mint_address supply top_n_holders);;
      for_each (track_holder faults now) top_n_holders;;
      log INFO "Discovered and tracking wallets using getProgramAccounts"
  end.

Definition discover_top_wallets (net_accounts : nat -> response (option (list raw_account)))
    (net_mint : nat -> response (option mint_info)) (faults : db_faults) (now : Z)
    (mint_address : string) (top_n : Z) : M unit :=
  log INFO "Discovering top wallets for mint";;
  try_except
    (discover_body net_accounts net_mint faults now mint_address top_n)
    (fun e =>
       match e with
       | HTTPException _ _ =>
           log ERROR "Failed to discover top wallets (HTTPException)"
       | _ => log ERROR "An unexpected error occurred during top wallet discovery"
       end).

End WalletDiscovery.

(** [round(x, ndigits)] on a float: the nearest multiple of [10**-ndigits],
    ties going to the even one. *)
Definition round_half_even (x : Q) : Z :=
  let f := Qfloor x in
  let r := (x - inject_Z f)%Q in
  if Qltb r (1 # 2) then f
  else if Qltb (1 # 2) r then (f + 1)%Z
  else if Z.even f then f else (f + 1)%Z.

Definition py_round (x : Q) (ndigits : nat) : Q :=
  let scale := (10 ^ Z.of_nat ndigits)%Z in
  (inject_Z (round_half_even (x * inject_Z scale)) / inject_Z scale)%Q.

(** * api/websocket_manager.py *)
Module WebsocketManager.

Definition PROTOCOL_PROGRAM_IDS : dict string string :=
  [ ("JUP4Fb2cqiRUcaTHdrPC8h2gNsA2ETXiPDD33WcGuJB", "Jupiter");
    ("JUP6LkbZbjS1jKKwapdHNy74zcZ3tLUZoi5QNyVTaV4", "Jupiter");
    ("675kPX9MHTjS2zt1qfr1NYHuzeLXfQM9H24wFSUt1Mp8", "Raydium");
    ("5quBtoiQqxF9Jv6KYKctB59NT3gtJD2Y65kdnB1Uev3h", "Raydium");
    ("27haf8L6oxUeXrHrgEgsexjSY5hbVUWEmvv9Nyxg8vQv", "Raydium");
    ("9W959DqEETiGZocYWCQPaJ6sBmUzgfxXfqGeTEdp3aQP", "Orca");
    ("whirLbMiicVdio4qvUfM5KAg6Ct8VwpYzGff3uctyCc", "Orca");
    ("DjVE6JNiYqPL2QXyCUUh8rNjHrbz9hXHNYt99MQ59qw1", "Orca");
    ("SwaPpA9LAaLfeLi3a68M4DjnLqgtticKg6CnyNwgAC8", "Saber");
    ("22Y43yTVxuUkoRKdm9thyRhQ3SdgQS7c7kB6UNCiaczD", "Serum");
    ("9xQeWvG816bUx9EPjHmaT23yvVM2ZWbrrpZb9PusVFin", "Serum") ].

(** [WalletManager.__init__] *)
Definition init (token_contract : string) : WalletManager :=
  {| active_connections := [];
     tracked_wallets := [];
     is_monitoring := false;
     monitor_task := None;
     last_discovery_run := None;
     discovery_interval_seconds := 21600;
     last_processed_slot := 0;
     TOKEN_CONTRACT := token_contract |}.

Definition set_active_connections (c : dict client_id WebSocket) (m : WalletManager) :=
  {| active_connections := c;
     tracked_wallets := tracked_wallets m;
     is_monitoring := is_monitoring m;
     monitor_task := monitor_task m;
     last_discovery_run := last_discovery_run m;
     discovery_interval_seconds := discovery_interval_seconds m;
     last_processed_slot := last_processed_slot m;
     TOKEN_CONTRACT := TOKEN_CONTRACT m |}.

Definition set_is_monitoring (b : bool) (m : WalletManager) :=
  {| active_connections := active_connections m;
     tracked_wallets := tracked_wallets m;
     is_monitoring := b;
     monitor_task := monitor_task m;
     last_discovery_run := last_discovery_run m;
     discovery_interval_seconds := discovery_interval_seconds m;
     last_processed_slot := last_processed_slot m;
     TOKEN_CONTRACT := TOKEN_CONTRACT m |}.

Definition set_monitor_task (t : option Task) (m : WalletManager) :=
  {| active_connections := active_connections m;
     tracked_wallets := tracked_wallets m;
     is_monitoring := is_monitoring m;
     monitor_task := t;
     last_discovery_run := last_discovery_run m;
     discovery_interval_seconds := discovery_interval_seconds m;
     last_processed_slot := last_processed_slot m;
     TOKEN_CONTRACT := TOKEN_CONTRACT m |}.

(** The sockets of the environment: [sockets ws] is the exception that
    [ws.send_text] raises, if any. *)
Definition sockets := WebSocket -> option exn.

Definition send_text (net : sockets) (ws : WebSocket) (msg : message) : M unit :=
  match net ws with
  | None => modify (with_trace (fun t => (t ++ [Delivered ws msg])%list))
  | Some e => modify (with_trace (fun t => (t ++ [SendFailed ws e])%list));; raise e
  end.

(** [asyncio.create_task(self._monitor_wallets_periodically())] *)
Definition create_task : M Task :=
  t ← gets spawned;
  modify (with_spawned S);;
  modify (with_running (fun r => (r ++ [t])%list));;
  ret t.

(** [task.cancel()] followed by [await task].
    - From another task: the monitor task gets the [CancelledError] at the
      await it is suspended on and leaves the event loop; the
      [CancelledError] that the await of a cancelled task raises is logged.
    - From the monitor task itself (the loop reaches [stop_monitoring]
      through [broadcast] and [disconnect]): [cancel()] only marks the
      running task, and awaiting oneself makes the event loop throw into the
      task at that very await; the mark turns what is thrown into the
      [CancelledError], which [except asyncio.CancelledError] catches there.
      The cancellation is used up and the task goes on running. *)
Definition cancel_and_await (t : Task) : M unit :=
  me ← gets current_task;
  if bool_decide (me = Some t) then
    log INFO "Wallet monitoring task explicitly cancelled."
  else
    alive ← gets (fun w => bool_decide (t ∈ running w));
    modify (with_running (List.filter (fun t' => negb (Nat.eqb t t'))));;
    when alive (log INFO "Wallet monitoring task explicitly cancelled.").

Definition start_monitoring : M unit :=
  monitoring ← gets (fun w => is_monitoring (manager w));
  if negb monitoring then
    modify (with_manager (set_is_monitoring true));;
    log INFO "Starting wallet monitoring.";;
    t ← create_task;
    modify (with_manager (set_monitor_task (Some t)))
  else log INFO "Wallet monitoring is already running.".

Definition stop_monitoring : M unit :=
  monitoring ← gets (fun w => is_monitoring (manager w));
  if (monitoring : bool) then
    modify (with_manager (set_is_monitoring false));;
    task ← gets (fun w => monitor_task (manager w));
    match task return M unit with
    | Some t =>
        cancel_and_await t;;
        modify (with_manager (set_monitor_task None))
    | None => ret tt
    end;;
    log INFO "Wallet monitoring stopped."
  else log INFO "Wallet monitoring is not active.".

(** [websocket.accept()] is taken to succeed. *)
Definition connect (uuid4 : client_id) (websocket : WebSocket) : M client_id :=
  modify (with_manager (fun m =>
    set_active_connections (dict_set uuid4 websocket (active_connections m)) m));;
  log INFO "New WebSocket connection.";;
  ret uuid4.

(** The [for cid, ws in self.active_connections.items()] search. *)
Fixpoint find_client (websocket : WebSocket) (conns : dict client_id WebSocket)
    : option client_id :=
  match conns with
  | [] => None
  | (cid, ws) :: rest =>
      if Nat.eqb ws websocket then Some cid else find_client websocket rest
  end.

Definition disconnect (websocket : WebSocket) : M unit :=
  client_id_to_remove ← gets (fun w => find_client websocket (active_connections (manager w)));
  match client_id_to_remove return M unit with
  | Some cid =>
      modify (with_manager (fun m =>
        set_active_connections (dict_del cid (active_connections m)) m));;
      modify (with_trace (fun t => (t ++ [Unregistered cid websocket])%list))
  | None => ret tt
  end;;
  log INFO "WebSocket client disconnected.";;
  conns ← gets (fun w => active_connections (manager w));
  monitoring ← gets (fun w => is_monitoring (manager w));
  match conns with
  | [] => when monitoring stop_monitoring
  | _ :: _ => ret tt
  end.

(** [try: await websocket.send_text(message) except RuntimeError: ...];
    the result tells whether the handler ran. *)
Definition guarded_send (net : sockets) (ws : WebSocket) (msg : message) : M bool :=
  try_except (send_text net ws msg;; ret false)
    (fun e =>
       match e with
       | RuntimeError _ =>
           log WARNING "Could not send to WebSocket (likely closed)";; ret true
       | _ => raise e
       end).

Definition send_personal_message (net : sockets) (msg : message) (websocket : WebSocket) : M unit :=
  failed ← guarded_send net websocket msg;
  when failed (disconnect websocket).

(** The first loop of [broadcast], over the copy of the values; it returns
    the list [disconnected]. *)
Fixpoint send_all (net : sockets) (msg : message) (snapshot : list WebSocket)
    : M (list WebSocket) :=
  match snapshot with
  | [] => ret []
  | websocket :: rest =>
      failed ← guarded_send net websocket msg;
      disconnected ← send_all net msg rest;
      ret (if (failed : bool) then websocket :: disconnected else disconnected)
  end.

Definition broadcast (net : sockets) (msg : message) : M unit :=
  snapshot ← gets (fun w => dict_values (active_connections (manager w)));
  disconnected ← send_all net msg snapshot;
  for_each disconnect disconnected;;
  match disconnected return M unit with
  | [] => ret tt
  | _ :: _ => log INFO "Disconnected stale WebSocket clients."
  end.

(** The draws of one call of the feed generator: the three indices of
    [random.choice], the [random.random()] behind [random.uniform], the
    [random.randint] slot, the signature string and the clock. *)
Record draws := {
  wallet_draw : nat;
  action_draw : nat;
  uniform_draw : Q;
  protocol_draw : nat;
  slot_draw : Z;
  signature_draw : string;
  clock : Z }.

(** [random.choice(seq)] is [seq[randbelow(len(seq))]]. *)
Definition random_choice {A} (draw : nat) (seq : list A) : option A :=
  nth_error seq (draw mod List.length seq).

(** [random.uniform(a, b)] is [a + (b - a) * random()]. *)
Definition random_uniform (a b : Q) (random : Q) : Q := (a + (b - a) * random)%Q.

(** [random.randint(a, b)] *)
Definition random_randint (a b : Z) (draw : Z) : Z := (a + draw mod (b - a + 1))%Z.

(** The [RealtimeTransaction(...)] built by the generator. *)
Definition mock_transaction (rnd : draws) (m : WalletManager) : option RealtimeTransaction :=
  wallet_address ← random_choice (wallet_draw rnd) (dict_keys (tracked_wallets m));
  action ← random_choice (action_draw rnd) ["buy"; "sell"];
  let amount := py_round (random_uniform 10 1000 (uniform_draw rnd)) 4 in
  protocol ← random_choice (protocol_draw rnd) (dict_values PROTOCOL_PROGRAM_IDS);
  Some {| signature := signature_draw rnd;
          timestamp := clock rnd;
          wallet := wallet_address;
          tx_token_address := TOKEN_CONTRACT m;
          amount := amount;
          action_type := action;
          protocol := protocol;
          block_time := clock rnd;
          slot := random_randint 100000000 200000000 (slot_draw rnd);
          from_address := None;
          to_address := None;
          pre_balance := None;
          post_balance := None |}.

Definition generate_and_broadcast_mock_transaction (rnd : draws) (insert_ok : bool)
    (net : sockets) : M unit :=
  m ← gets manager;
  match tracked_wallets m with
  | [] => log WARNING "No tracked wallets available to generate mock transactions."
  | _ :: _ =>
      match mock_transaction rnd m with
      | None => raise (OtherException "IndexError")
      | Some mock_tx =>
          try_except
            (DbService.insert_realtime_transaction insert_ok mock_tx;;
             log INFO "Generated and saved mock transaction";;
             broadcast net (NewTransaction mock_tx (clock rnd)))
            (fun e => log ERROR "Error generating or saving mock transaction")
      end
  end.

(** [while self.is_monitoring:] evaluated by a monitor task: the task
    returns when the flag is off. *)
Definition loop_check (t : Task) : M unit :=
  monitoring ← gets (fun w => is_monitoring (manager w));
  if (monitoring : bool) then ret tt
  else modify (with_running (List.filter (fun t' => negb (Nat.eqb t t')))).

(** A step of the monitor task [t]: it runs only while [t] is alive, and
    with [t] as the current task. *)
Definition in_task (t : Task) (step : M unit) : M unit :=
  fun w =>
    if bool_decide (t ∈ running w) then
      let '(r, w') := step (with_current_task (Some t) w) in
      (r, with_current_task None w')
    else (inr tt, w).

(** The calls that reach the manager.  The connection endpoint connects,
    disconnects and sends personal messages; the routers and the start-up
    hook start and stop monitoring; [broadcast] is called by the monitoring
    loop only (for the mock transaction and for the dashboard), and the
    loop tests the flag between iterations. *)
Inductive op :=
| Connect (uuid4 : client_id) (websocket : WebSocket)
| Disconnect (websocket : WebSocket)
| SendPersonal (net : sockets) (msg : message) (websocket : WebSocket)
| StartMonitoring
| StopMonitoring
| LoopBroadcast (t : Task) (net : sockets) (msg : message)
| LoopCheck (t : Task).

Definition call (o : op) : M unit :=
  match o with
  | Connect uuid4 ws => connect uuid4 ws;; ret tt
  | Disconnect ws => disconnect ws
  | SendPersonal net msg ws => send_personal_message net msg ws
  | StartMonitoring => start_monitoring
  | StopMonitoring => stop_monitoring
  | LoopBroadcast t net msg => in_task t (broadcast net msg)
  | LoopCheck t => in_task t (loop_check t)
  end.

(** The world after a sequence of calls; an exception of a call goes to
    its caller and the next call finds the world the failed one left. *)
Definition run (ops : list op) (w : world) : world :=
  fold_left (fun w o => snd (call o w)) ops w.

Definition initial_world (token_contract : string) : world :=
  {| db := {| realtime_transactions := []; token_holders := ∅; wallets := ∅ |};
     manager := init token_contract;
     logs := [];
     trace := [];
     running := [];
     spawned := 0;
     current_task := None |}.

End WebsocketManager.

(** * Vocabulary of the statements *)

Module RpcSpec.
Import SolanaRpc.

(** Whether the reply of attempt [attempt] makes the loop sleep and go on:
    a 429 always does, an exception only before the last attempt. *)
Definition retried {R} (retries : Z) (attempt : nat) (reply : response R) : bool :=
  match reply with
  | Status429 => true
  | JsonResult _ => false
  | Raises _ | JsonError _ => (Z.of_nat attempt <? retries - 1)%Z
  end.

(** The events of [k] retried attempts starting with attempt [a]. *)
Definition retry_trace (initial_delay : Q) (a k : nat) : list rpc_event :=
  flat_map (fun i => [Posted i; Slept (backoff initial_delay i)]) (seq a k).

(** The exception a reply raises inside the [try] block, if it raises. *)
Definition raised {R} (reply : response R) : option exn :=
  match reply with
  | Raises e => Some e
  | JsonError err => Some (rpc_error_exception err)
  | Status429 | JsonResult _ => None
  end.

End RpcSpec.


Module DiscoverySpec.
Import SolanaRpc WalletDiscovery.

(** An account record with a member missing. *)
Definition malformed (a : raw_account) : bool :=
  match pubkey a, acc_owner a, acc_amount a with
  | Some _, Some _, Some _ => false
  | _, _, _ => true
  end.

(** The UI amount an account adds to [own]: it has that owner, a non-empty
    one, and a positive amount. *)
Definition contribution (token_decimals : Z) (own : string) (a : raw_account)
    : option (string * Q) :=
  match pubkey a, acc_owner a, acc_amount a with
  | Some pk, Some o, Some raw =>
      if bool_decide (o = own) && truthy o && Qltb 0 (ui_of raw token_decimals)
      then Some (pk, ui_of raw token_decimals) else None
  | _, _, _ => None
  end.

(** The positive UI amounts of the accounts of [own], in reply order, and
    the addresses of these accounts. *)
Definition owner_amounts (token_decimals : Z) (own : string)
    (accounts : list raw_account) : list Q :=
  omap (fun a => snd <$> contribution token_decimals own a) accounts.






(** What [get_token_supply] returns for a given outcome of its call. *)
Definition supply_of_reply (reply : exn + option mint_info) : option supply_info :=
  match reply with
  | inr (Some info) =>
      match mint_supply info, mint_decimals info with
      | Some supply, Some decimals =>
          Some {| uiAmount := ui_of supply decimals; si_decimals := decimals |}
      | _, _ => None
      end
  | _ => None
  end.

Definition supply_seen (net_mint : nat -> response (option mint_info)) : option supply_info :=
  supply_of_reply (fst (call_solana_rpc net_mint "getAccountInfo" 3 5)).

Definition decimals_seen (supply : option supply_info) : Z :=
  match supply with Some si => si_decimals si | None => 0%Z end.

(** The wallet collection after the upserts of a run. *)
Definition upsert_trackers (faults : db_faults) (now : Z) (hs : list TokenHolder)
    (m : gmap string WalletTracker) : gmap string WalletTracker :=
  fold_left (fun m h =>
      if wallet_write_ok faults (owner h) then <[owner h := tracker_of now h]> m else m)
    hs m.

(** The database a run leaves when it reaches its writes with the
    aggregation [st]. *)
Definition persisted (faults : db_faults) (now : Z) (mint_address : string) (top_n : Z)
    (supply : option supply_info) (st : aggregation) (d : database) : database :=
  let top_n_holders := py_slice_to top_n (ranked_holders (decimals_seen supply) st) in
  {| realtime_transactions := realtime_transactions d;
     token_holders :=
       if snapshot_write_ok faults
       then <[mint_address := snapshot_of now mint_address supply top_n_holders]> (token_holders d)
       else token_holders d;
     wallets := upsert_trackers faults now top_n_holders (wallets d) |}.

(** The world differs from [w] by its database and by new log entries. *)
Definition writes_and_logs (w : world) (d : database) (entries : list (log_level * string))
    : world :=
  {| db := d; manager := manager w; logs := logs w ++ entries; trace := trace w;
     running := running w; spawned := spawned w; current_task := current_task w |}.

(** An entry of the given level was logged. *)
Definition logged (lvl : log_level) (l : list (log_level * string)) : Prop :=
  exists msg, In (lvl, msg) l.

End DiscoverySpec.

(** * Concrete inputs used by the examples *)
Module Examples.
Import SolanaRpc WalletDiscovery.

Definition account (pk own : string) (raw : Z) : raw_account :=
  {| pubkey := Some pk; acc_owner := Some own; acc_amount := Some raw |}.

(** Owner A holds 100 and 50 in two accounts, owner B holds 30. *)
Definition three_accounts : list raw_account :=
  [account "a1" "A" 100; account "a2" "A" 50; account "b1" "B" 30].

Definition accounts_reply (accounts : list raw_account)
    : nat -> response (option (list raw_account)) :=
  script [JsonResult (Some accounts)].

Definition mint_reply (supply decimals : Z) : nat -> response (option mint_info) :=
  script [JsonResult (Some {| mint_supply := Some supply; mint_decimals := Some decimals |})].

(** Every request fails in the transport. *)
Definition network_down {R} : nat -> response R :=
  fun _ => Raises (ClientError "Cannot connect to host").

Definition holder (own pk : string) (bal : Q) : TokenHolder :=
  {| owner := own; address := pk; balance := bal; ui_amount := bal;
     percentage := None; decimals := 0 |}.

Definition world0 : world := WebsocketManager.initial_world "M".

End Examples.

Module ManagerSpec.
Import WebsocketManager.

(** How a socket answers a send: it takes the frame, it raises the
    [RuntimeError] of a closed connection, or it raises something else. *)
Definition delivers (net : sockets) (ws : WebSocket) : bool :=
  match net ws with None => true | Some _ => false end.

Definition closed (net : sockets) (ws : WebSocket) : bool :=
  match net ws with Some (RuntimeError _) => true | _ => false end.

Definition breaks (net : sockets) (ws : WebSocket) : bool :=
  match net ws with
  | None | Some (RuntimeError _) => false
  | Some _ => true
  end.

(** The event a send to [ws] leaves in the trace. *)
Definition send_event (net : sockets) (msg : message) (ws : WebSocket) : event :=
  match net ws with
  | None => Delivered ws msg
  | Some e => SendFailed ws e
  end.

(** The sockets of a snapshot that the send pass reaches: all of them,
    unless a send raises something that is not a [RuntimeError]. *)
Fixpoint attempted (net : sockets) (snapshot : list WebSocket) : list WebSocket :=
  match snapshot with
  | [] => []
  | ws :: rest => if breaks net ws then [ws] else ws :: attempted net rest
  end.

(** The sockets that a list of events sent to, the frames delivered and
    the registry entries removed. *)
Definition targets (evs : list event) : list WebSocket :=
  flat_map (fun ev => match ev with
                      | Delivered ws _ | SendFailed ws _ => [ws]
                      | Unregistered _ _ => []
                      end) evs.

Definition delivered (evs : list event) : list (WebSocket * message) :=
  flat_map (fun ev => match ev with
                      | Delivered ws msg => [(ws, msg)]
                      | _ => []
                      end) evs.

Definition removed (evs : list event) : list (client_id * WebSocket) :=
  flat_map (fun ev => match ev with
                      | Unregistered cid ws => [(cid, ws)]
                      | _ => []
                      end) evs.

Definition unregistered (entry : client_id * WebSocket) : event :=
  Unregistered (fst entry) (snd entry).

(** The registry without its first entry for [ws]. *)
Fixpoint without_socket (ws : WebSocket) (conns : dict client_id WebSocket)
    : dict client_id WebSocket :=
  match conns with
  | [] => []
  | (cid, ws') :: rest =>
      if Nat.eqb ws' ws then rest else (cid, ws') :: without_socket ws rest
  end.

(** The first entry for [ws]. *)
Fixpoint entry_of (ws : WebSocket) (conns : dict client_id WebSocket)
    : option (client_id * WebSocket) :=
  match conns with
  | [] => None
  | (cid, ws') :: rest =>
      if Nat.eqb ws' ws then Some (cid, ws') else entry_of ws rest
  end.

(** Removing the first entry of each socket of [gone] in turn: the entries
    removed, in order, and the registry left. *)
Fixpoint prune (gone : list WebSocket) (conns : dict client_id WebSocket)
    : list (client_id * WebSocket) * dict client_id WebSocket :=
  match gone with
  | [] => ([], conns)
  | ws :: gone' =>
      let '(out, kept) := prune gone' (without_socket ws conns) in
      (match entry_of ws conns with Some e => e :: out | None => out end, kept)
  end.

(** What every call but [start_monitoring] guarantees: monitoring is not
    switched on, no task is created, the database is not written. *)
Definition settled (w w' : world) : Prop :=
  (is_monitoring (manager w') = true -> is_monitoring (manager w) = true) /\
  spawned w' = spawned w /\
  db w' = db w.

(** A coroutine relates every world to the world it leaves. *)
Definition preserves {A} (P : world -> world -> Prop) (m : M A) : Prop :=
  forall w, P w (snd (m w)).

(** The monitoring state of a world. *)
Definition monitoring_state (w : world) : bool * option Task * list Task * nat :=
  (is_monitoring (manager w), monitor_task (manager w), running w, spawned w).

End ManagerSpec.

Module BroadcastSpec.
Import WebsocketManager ManagerSpec.

(** The registry after [disconnect websocket]. *)
Definition drop (websocket : WebSocket) (conns : dict client_id WebSocket)
    : dict client_id WebSocket :=
  match find_client websocket conns with
  | Some cid => dict_del cid conns
  | None => conns
  end.

(** What the first loop of [broadcast] returns on a snapshot. *)
Fixpoint send_all_result (net : sockets) (snapshot : list WebSocket) : exn + list WebSocket :=
  match snapshot with
  | [] => inr []
  | ws :: rest =>
      match net ws with
      | None => send_all_result net rest
      | Some (RuntimeError _) =>
          match send_all_result net rest with
          | inr disconnected => inr (ws :: disconnected)
          | inl e => inl e
          end
      | Some e => inl e
      end
  end.

(** The world after sends and removals that left [evs] in the trace. *)
Definition after_events (evs : list event) (entries : list (log_level * string))
    (w : world) : world :=
  {| db := db w; manager := manager w; logs := logs w ++ entries;
     trace := trace w ++ evs; running := running w; spawned := spawned w;
     current_task := current_task w |}.

(** The trace grew by removals only. *)
Definition only_removals (w w' : world) : Prop :=
  exists evs, trace w' = trace w ++ evs /\ targets evs = [].

End BroadcastSpec.

Module ManagerExamples.
Import WebsocketManager.

(** Two and three clients on a fresh manager; in the second world
    monitoring was started first. *)
Definition two_clients : world :=
  run [Connect 1 10; Connect 2 11] (initial_world "M").

Definition three_clients_monitored : world :=
  run [StartMonitoring; Connect 1 10; Connect 2 11; Connect 3 12] (initial_world "M").

(** Monitoring is started, one client connects, and its socket is closed
    when the loop (task 0) broadcasts. *)
Definition socket_10_closed : sockets :=
  fun ws => if Nat.eqb ws 10 then Some (RuntimeError "Cannot call send once a close message has been sent.") else None.

Definition loop_prunes_last_client : list op :=
  [StartMonitoring; Connect 1 10; LoopBroadcast 0 socket_10_closed (Text "dashboard_update")].

(** Socket 10 raises on send: the disconnect exception of the framework
    in the first case, the [RuntimeError] of a closed connection in the
    second.  The other sockets take the frame. *)
Definition socket_10_disconnects : sockets :=
  fun ws => if Nat.eqb ws 10 then Some (OtherException "WebSocketDisconnect") else None.

Definition socket_11_closed : sockets :=
  fun ws => if Nat.eqb ws 11 then Some (RuntimeError "Cannot call send once a close message has been sent.") else None.

(** A manager that tracks the single wallet W1. *)
Definition tracks_W1 : WalletManager :=
  {| active_connections := [];
     tracked_wallets :=
       [("W1", {| wt_address := "W1"; tracked_since := 0; active := true;
                  wt_balance := Some 150%Q; token_amount := Some 150%Q;
                  last_transaction := None; total_buys := 0; total_sells := 0;
                  profit_loss := None |})];
     is_monitoring := false;
     monitor_task := None;
     last_discovery_run := None;
     discovery_interval_seconds := 21600;
     last_processed_slot := 0;
     TOKEN_CONTRACT := "M" |}.

(** Draws whose [random.random()] is the largest float below 1. *)
Definition draws_near_one : draws :=
  {| wallet_draw := 0; action_draw := 1;
     uniform_draw := (9007199254740991 # 9007199254740992)%Q;
     protocol_draw := 8; slot_draw := 5; signature_draw := "5dc1"; clock := 1700000000 |}.

Definition draws_half : draws :=
  {| wallet_draw := 3; action_draw := 0; uniform_draw := (1 # 2)%Q;
     protocol_draw := 2; slot_draw := 77; signature_draw := "a0f3"; clock := 1700000000 |}.

End ManagerExamples.

(** * services/solana_rpc.py: the query helpers *)
Module RpcQueries.
Import SolanaRpc.

(** [result or []] *)
Definition or_empty {A} (result : option (list A)) : list A :=
  match result with
  | Some (x :: l) => x :: l
  | Some [] | None => []
  end.

(** The result is the list of the reply, [[]] for a reply that is [null]
    or empty, and [None] when the call raised. *)
Definition get_signatures_for_address {S} (net : nat -> response (option (list S)))
    (address : string) (limit : Z) : M (option (list S)) :=
  try_except
    (result ← await_rpc (call_solana_rpc net "getSignaturesForAddress" 3 5);
     ret (Some (or_empty result)))
    (fun e => log ERROR "Error getting signatures";; ret None).

(** A [null] result and a failed call both come out as [None]. *)
Definition get_transaction {T} (net : nat -> response (option T))
    (signature : string) : M (option T) :=
  try_except
    (await_rpc (call_solana_rpc net "getTransaction" 3 5))
    (fun e => log ERROR "Error getting transaction";; ret None).

(** The result of the reply, or the integer [0] when the call raised. *)
Definition get_account_balance {B} (net : nat -> response B)
    (address : string) : M (B + Z) :=
  try_except
    (result ← await_rpc (call_solana_rpc net "getBalance" 3 5);
     ret (inl result))
    (fun e => log ERROR "Error getting SOL balance";; ret (inr 0%Z)).

End RpcQueries.

Module RpcTiming.
Import SolanaRpc.

(** The time a call spends in [asyncio.sleep]. *)
Definition total_sleep (tr : list rpc_event) : Q :=
  fold_right Qplus 0%Q (delays_of tr).

(** The requests made before the one of attempt [k], none of which got a
    result. *)
Definition no_result_before {R} (net : nat -> response R) (k : nat) : Prop :=
  forall i r, (i < k)%nat -> net i <> JsonResult r.

End RpcTiming.

(** * Vocabulary for the totals of a discovery run *)
Module DiscoveryTotals.
Import SolanaRpc WalletDiscovery DiscoverySpec.



(** The holders that a run stores and tracks: [sorted_holders[:top_n]]. *)
Definition top_holders (token_decimals top_n : Z) (st : aggregation) : list TokenHolder :=
  py_slice_to top_n (ranked_holders token_decimals st).

End DiscoveryTotals.

(** * Vocabulary for the histories of the manager *)
Module WorldOrder.

(** The log of [w'] is the log of [w] with entries added. *)
Definition logs_grow (w w' : world) : Prop :=
  exists entries, logs w' = logs w ++ entries.

(** How often a socket is registered. *)
Definition registrations (ws : WebSocket) (conns : dict client_id WebSocket) : nat :=
  count_occ Nat.eq_dec (dict_values conns) ws.

End WorldOrder.

(** * services/db_service.py: the reads

    As for the writes, every function wraps its driver call in
    [try ... except Exception: logger.error(...); return <default>].  The
    lookups by key and the counts are answered from the content of the
    collections, [ok] saying whether the driver call goes through.  The
    cursor pipelines (a sort with a limit, a [$group] with a [$sort]) are
    answered by the driver: their reply is an argument. *)
Module DbQueries.

(** [collection.count_documents(filter)] *)
Definition count_documents {A} (filter : A -> bool) (coll : list A) : Z :=
  Z.of_nat (List.length (List.filter filter coll)).

(** The documents of the wallet collection, in an order of no meaning. *)
Definition documents (m : gmap string WalletTracker) : list WalletTracker :=
  (map_to_list m).*2.


Definition count_total_transactions (ok : bool) : M Z :=
  if ok then gets (fun w => count_documents (fun _ => true) (realtime_transactions (db w)))
  else log ERROR "Error counting total transactions";; ret 0%Z.

Definition count_buy_transactions (ok : bool) : M Z :=
  if ok then
    gets (fun w => count_documents (fun tx => String.eqb (action_type tx) "buy")
                     (realtime_transactions (db w)))
  else log ERROR "Error counting buy transactions";; ret 0%Z.

Definition count_sell_transactions (ok : bool) : M Z :=
  if ok then
    gets (fun w => count_documents (fun tx => String.eqb (action_type tx) "sell")
                     (realtime_transactions (db w)))
  else log ERROR "Error counting sell transactions";; ret 0%Z.

(** [find_one({"token_address": token_address})], with the outcome of the
    driver call; [DbService.get_token_holder_snapshot] is the call that
    goes through. *)
Definition get_token_holder_snapshot (ok : bool) (token_address : string)
    : M (option TokenHolderSnapshot) :=
  if ok then DbService.get_token_holder_snapshot token_address
  else log ERROR "Error fetching token holder snapshot";; ret None.

(** [find({"active": True}).to_list(limit)].  [natural_order] is the order
    in which the driver returns the documents of the collection; a negative
    length is refused by [to_list]. *)
Definition get_tracked_wallets_from_db (ok : bool)
    (natural_order : gmap string WalletTracker -> list WalletTracker) (limit : Z)
    : M (list WalletTracker) :=
  if ok && (0 <=? limit)%Z then
    gets (fun w => take (Z.to_nat limit)
                     (List.filter active (natural_order (wallets (db w)))))
  else log ERROR "Error loading tracked wallets from DB";; ret [].

(** A document of a cursor reply that does not validate against its
    pydantic model is [None]: building the model from it raises. *)
Fixpoint validate_all {A} (docs : list (option A)) : exn + list A :=
  match docs with
  | [] => inr []
  | None :: _ => inl (OtherException "ValidationError")
  | Some a :: rest =>
      match validate_all rest with
      | inr l => inr (a :: l)
      | inl e => inl e
      end
  end.

Definition lift {A} (r : exn + A) : M A :=
  match r with
  | inl e => raise e
  | inr a => ret a
  end.

(** [find().sort("timestamp", -1).limit(limit).to_list(limit)] *)
Definition get_recent_transactions (reply : exn + list (option RealtimeTransaction))
    (limit : Z) : M (list RealtimeTransaction) :=
  try_except
    (tx_data ← lift reply; lift (validate_all tx_data))
    (fun e => log ERROR "Error fetching recent transactions";; ret []).

(** The two aggregations; a document is [{"_id": ..., "count": ...}]. *)
Definition get_protocol_stats (reply : exn + list (string * Z)) : M (list (string * Z)) :=
  try_except (lift reply)
    (fun e => log ERROR "Error fetching protocol stats";; ret []).

Definition get_active_wallets_stats (reply : exn + list (string * Z)) (limit : Z)
    : M (list (string * Z)) :=
  try_except (lift reply)
    (fun e => log ERROR "Error fetching active wallets";; ret []).

End DbQueries.

(** * api/websocket_manager.py: the cache, the dashboard and the loop *)
Module ManagerLoop.
Import SolanaRpc WalletDiscovery WebsocketManager.

Definition set_tracked_wallets (c : dict string WalletTracker) (m : WalletManager) :=
  {| active_connections := active_connections m;
     tracked_wallets := c;
     is_monitoring := is_monitoring m;
     monitor_task := monitor_task m;
     last_discovery_run := last_discovery_run m;
     discovery_interval_seconds := discovery_interval_seconds m;
     last_processed_slot := last_processed_slot m;
     TOKEN_CONTRACT := TOKEN_CONTRACT m |}.

Definition set_last_discovery_run (t : option Z) (m : WalletManager) :=
  {| active_connections := active_connections m;
     tracked_wallets := tracked_wallets m;
     is_monitoring := is_monitoring m;
     monitor_task := monitor_task m;
     last_discovery_run := t;
     discovery_interval_seconds := discovery_interval_seconds m;
     last_processed_slot := last_processed_slot m;
     TOKEN_CONTRACT := TOKEN_CONTRACT m |}.

(** Outcome of the read of the wallet collection. *)
Record wallet_reads := {
  tracked_read_ok : bool;
  natural_order : gmap string WalletTracker -> list WalletTracker }.

(** [{wallet.address: wallet.model_dump(by_alias=True) for wallet in wallets_data}] *)
Definition cache_of (wallets_data : list WalletTracker) : dict string WalletTracker :=
  fold_left (fun d wallet => dict_set (wt_address wallet) wallet d) wallets_data [].

Definition load_tracked_wallets (reads : wallet_reads) : M unit :=
  try_except
    (wallets_data ← DbQueries.get_tracked_wallets_from_db
                      (tracked_read_ok reads) (natural_order reads) 1000;
     modify (with_manager (set_tracked_wallets (cache_of wallets_data)));;
     log INFO "Loaded tracked wallets from DB into manager cache.")
    (fun e => log ERROR "Error loading tracked wallets into manager").

(** [WalletManager.discover_top_wallets]: the service function, then the
    reload of the cache. *)
Definition discover_top_wallets
    (net_accounts : nat -> response (option (list raw_account)))
    (net_mint : nat -> response (option mint_info)) (faults : db_faults)
    (reads : wallet_reads) (now : Z) (mint_address : string) (top_n : Z) : M unit :=
  WalletDiscovery.discover_top_wallets net_accounts net_mint faults now mint_address top_n;;
  load_tracked_wallets reads.

(** The dictionary that [broadcast_dashboard_data] serialises. *)
Record dashboard_data := {
  monitoring_active : bool;
  connected_clients : Z;
  tracked_wallets_count : Z;
  top_holders : list TokenHolder;
  recent_transactions : list RealtimeTransaction;
  protocol_usage : list (string * Z);
  most_active_wallets : list (string * Z);
  dash_holder_count : Z;
  dash_timestamp : Z }.

(** The dictionaries handed to [json.dumps] by the manager. *)
Inductive payload :=
| DashboardUpdate (data : dashboard_data)
| ConnectionEstablished (monitoring_token : string) (tracked : Z) (ts : Z)
| Pong (ts : Z)
| Status (monitoring : bool) (clients tracked : Z) (ts : Z)
| RecentTransactions (transactions : list RealtimeTransaction) (ts : Z)
| Keepalive (ts : Z).

(** Outcome of the reads of the dashboard. *)
Record dashboard_reads := {
  holders_read_ok : bool;
  recent_reply : exn + list (option RealtimeTransaction);
  protocol_reply : exn + list (string * Z);
  active_reply : exn + list (string * Z) }.

Section Serialised.
(** [json.dumps(..., default=custom_json_encoder)] on the dictionaries above,
    which hold nothing that it cannot serialise. *)
Variable json_dumps : payload -> string.

(** The dictionary built by [broadcast_dashboard_data]. *)
Definition dashboard_of (reads : dashboard_reads) (now : Z) : M dashboard_data :=
  m ← gets manager;
  top_holders_data ← DbQueries.get_token_holder_snapshot (holders_read_ok reads) (TOKEN_CONTRACT m);
  let top_holders_list :=
    match top_holders_data with
    | Some snapshot => py_slice_to 10 (holders snapshot)
    | None => []
    end in
  let holder_count :=
    match top_holders_data with
    | Some snapshot => holder_count snapshot
    | None => 0%Z
    end in
  recent_txns_list ← DbQueries.get_recent_transactions (recent_reply reads) 20;
  protocol_stats ← DbQueries.get_protocol_stats (protocol_reply reads);
  active_wallets_raw ← DbQueries.get_active_wallets_stats (active_reply reads) 10;
  m ← gets manager;
  ret {| monitoring_active := is_monitoring m;
         connected_clients := Z.of_nat (List.length (active_connections m));
         tracked_wallets_count := Z.of_nat (List.length (tracked_wallets m));
         top_holders := top_holders_list;
         recent_transactions := recent_txns_list;
         protocol_usage := protocol_stats;
         most_active_wallets := active_wallets_raw;
         dash_holder_count := holder_count;
         dash_timestamp := now |}.

Definition broadcast_dashboard_data (reads : dashboard_reads) (now : Z) (net : sockets)
    : M unit :=
  try_except
    (dashboard ← dashboard_of reads now;
     broadcast net (Text (json_dumps (DashboardUpdate dashboard)));;
     log INFO "Dashboard data broadcasted.")
    (fun e => log ERROR "Error broadcasting dashboard data").

(** What one iteration of the monitoring loop finds in its environment:
    the clock at its start, the replies of the node and the outcome of the
    writes if a discovery runs, the draws and the outcome of the insertion
    if a transaction is generated, the reads of the dashboard and the
    sockets. *)
Record tick := {
  current_time : Z;
  tick_accounts : nat -> response (option (list raw_account));
  tick_mint : nat -> response (option mint_info);
  tick_faults : db_faults;
  tick_discovery_clock : Z;
  tick_draws : draws;
  tick_insert_ok : bool;
  tick_reads : dashboard_reads;
  tick_dashboard_clock : Z;
  tick_sockets : sockets }.

(** [self.last_discovery_run is None or
     (current_time - self.last_discovery_run).total_seconds()
       >= self.discovery_interval_seconds] *)
Definition discovery_due (m : WalletManager) (now : Z) : bool :=
  match last_discovery_run m with
  | None => true
  | Some last => (discovery_interval_seconds m <=? now - last)%Z
  end.

(** The [try] block of the loop body. *)
Definition monitor_body (env : tick) : M unit :=
  m ← gets manager;
  (if discovery_due m (current_time env) then
     log INFO "Initiating scheduled top wallet discovery.";;
     WalletDiscovery.discover_top_wallets (tick_accounts env) (tick_mint env)
       (tick_faults env) (tick_discovery_clock env) (TOKEN_CONTRACT m) 100;;
     modify (with_manager (set_last_discovery_run (Some (current_time env))))
   else ret tt);;
  tracked ← gets (fun w => tracked_wallets (manager w));
  match tracked return M unit with
  | [] => ret tt
  | _ :: _ =>
      generate_and_broadcast_mock_transaction (tick_draws env) (tick_insert_ok env)
        (tick_sockets env)
  end;;
  broadcast_dashboard_data (tick_reads env) (tick_dashboard_clock env) (tick_sockets env).

(** One iteration of [while self.is_monitoring], the flag being on; the
    sleep of the [finally] clause leaves no mark on the world. *)
Definition monitor_iteration (env : tick) : M unit :=
  try_except (monitor_body env)
    (fun e => log ERROR "Error in periodic wallet monitoring").

(** [_monitor_wallets_periodically], for as many iterations as there are
    environments: the loop goes on while the flag is on. *)
Fixpoint monitor_wallets_periodically (envs : list tick) : M unit :=
  match envs with
  | [] => ret tt
  | env :: rest =>
      monitoring ← gets (fun w => is_monitoring (manager w));
      if (monitoring : bool) then
        monitor_iteration env;;
        monitor_wallets_periodically rest
      else ret tt
  end.

End Serialised.

End ManagerLoop.

(** * Vocabulary for the cache and the loop *)
Module LoopSpec.
Import ManagerLoop.

(** The wallet collection is written through
    [update_one({"address": wallet.address}, ...)] only: the document found
    under an address carries that address. *)
Definition keyed_by_address (m : gmap string WalletTracker) : Prop :=
  forall a t, m !! a = Some t -> wt_address t = a.

(** The driver returns every document of the collection once. *)
Definition scans_all (order : gmap string WalletTracker -> list WalletTracker) : Prop :=
  forall m, Permutation (order m) (DbQueries.documents m).

(** The wallets that a load finds: the first 1000 active ones. *)
Definition loaded (order : gmap string WalletTracker -> list WalletTracker)
    (m : gmap string WalletTracker) : list WalletTracker :=
  take 1000 (List.filter active (order m)).

(** What the senders leave alone: the cache, the schedule of the
    discovery, the settings and the database. *)
Definition keeps_cache (w w' : world) : Prop :=
  tracked_wallets (manager w') = tracked_wallets (manager w) /\
  last_discovery_run (manager w') = last_discovery_run (manager w) /\
  discovery_interval_seconds (manager w') = discovery_interval_seconds (manager w) /\
  TOKEN_CONTRACT (manager w') = TOKEN_CONTRACT (manager w) /\
  db w' = db w.

(** The same, but for transactions added to the database. *)
Definition keeps_wallets (w w' : world) : Prop :=
  tracked_wallets (manager w') = tracked_wallets (manager w) /\
  last_discovery_run (manager w') = last_discovery_run (manager w) /\
  discovery_interval_seconds (manager w') = discovery_interval_seconds (manager w) /\
  TOKEN_CONTRACT (manager w') = TOKEN_CONTRACT (manager w) /\
  wallets (db w') = wallets (db w) /\
  token_holders (db w') = token_holders (db w).

(** The dashboard of a world when all reads go through and the driver
    answers [recent], [protocols] and [active]. *)
Definition reads_of (recent : list RealtimeTransaction) (protocols active : list (string * Z))
    : dashboard_reads :=
  {| holders_read_ok := true;
     recent_reply := inr (map Some recent);
     protocol_reply := inr protocols;
     active_reply := inr active |}.

(** The database cannot be reached. *)
Definition reads_down : dashboard_reads :=
  {| holders_read_ok := false;
     recent_reply := inl (OtherException "ServerSelectionTimeoutError");
     protocol_reply := inl (OtherException "ServerSelectionTimeoutError");
     active_reply := inl (OtherException "ServerSelectionTimeoutError") |}.

End LoopSpec.

(** * main.py: the hooks of the application *)
Module Main.
Import WebsocketManager ManagerLoop.

(** [@app.on_event("startup")] *)
Definition startup_event (reads : wallet_reads) : M unit :=
  log INFO "Application starting up...";;
  load_tracked_wallets reads;;
  start_monitoring.

(** [@app.on_event("shutdown")]; closing the client of the database leaves
    no mark on the world. *)
Definition shutdown_event : M unit :=
  log INFO "Application shutting down...";;
  stop_monitoring;;
  log INFO "MongoDB connection closed.".

End Main.

Module DashboardSpec.
Import ManagerLoop.

(** What a read of the dashboard gives: the value of the reply, or the
    default of the gateway. *)
Definition recent_of (reads : dashboard_reads) : list RealtimeTransaction :=
  match recent_reply reads with
  | inr docs =>
      match DbQueries.validate_all docs with
      | inr txs => txs
      | inl _ => []
      end
  | inl _ => []
  end.

Definition or_nothing {A} (reply : exn + list A) : list A :=
  match reply with
  | inr l => l
  | inl _ => []
  end.

Definition snapshot_of_reads (reads : dashboard_reads) (w : world) : option TokenHolderSnapshot :=
  if holders_read_ok reads then token_holders (db w) !! TOKEN_CONTRACT (manager w) else None.

(** The dictionary that [broadcast_dashboard_data] builds in [w]. *)
Definition dashboard_value (reads : dashboard_reads) (now : Z) (w : world) : dashboard_data :=
  {| monitoring_active := is_monitoring (manager w);
     connected_clients := Z.of_nat (List.length (active_connections (manager w)));
     tracked_wallets_count := Z.of_nat (List.length (tracked_wallets (manager w)));
     top_holders :=
       match snapshot_of_reads reads w with
       | Some snapshot => py_slice_to 10 (holders snapshot)
       | None => []
       end;
     recent_transactions := recent_of reads;
     protocol_usage := or_nothing (protocol_reply reads);
     most_active_wallets := or_nothing (active_reply reads);
     dash_holder_count :=
       match snapshot_of_reads reads w with
       | Some snapshot => holder_count snapshot
       | None => 0%Z
       end;
     dash_timestamp := now |}.

(** The registry did not grow. *)
Definition shrinks (w w' : world) : Prop :=
  (List.length (active_connections (manager w')) <=
   List.length (active_connections (manager w)))%nat.

End DashboardSpec.

Module LoopExamples.
Import SolanaRpc WalletDiscovery WebsocketManager ManagerLoop LoopSpec.

(** The [type] member of a dictionary, standing for its serialisation. *)
Definition type_of (p : payload) : string :=
  match p with
  | DashboardUpdate _ => "dashboard_update"
  | ConnectionEstablished _ _ _ => "connection_established"
  | Pong _ => "pong"
  | Status _ _ _ _ => "status"
  | RecentTransactions _ _ => "recent_transactions"
  | Keepalive _ => "keepalive"
  end.

Definition open_sockets : sockets := fun _ => None.

(** The driver returns the documents in the order of the model. *)
Definition reads_in_order : wallet_reads :=
  {| tracked_read_ok := true; natural_order := DbQueries.documents |}.

(** An iteration at time [now] with the node and the database out of
    reach. *)
Definition tick_offline (now : Z) : tick :=
  {| current_time := now;
     tick_accounts := Examples.network_down;
     tick_mint := Examples.network_down;
     tick_faults := no_faults;
     tick_discovery_clock := now;
     tick_draws := ManagerExamples.draws_half;
     tick_insert_ok := false;
     tick_reads := reads_down;
     tick_dashboard_clock := now;
     tick_sockets := open_sockets |}.

(** An iteration at time [now] in which the node reports the three
    accounts and every write goes through. *)
Definition tick_three_accounts (now : Z) : tick :=
  {| current_time := now;
     tick_accounts := Examples.accounts_reply Examples.three_accounts;
     tick_mint := Examples.mint_reply 1000 0;
     tick_faults := no_faults;
     tick_discovery_clock := now;
     tick_draws := ManagerExamples.draws_half;
     tick_insert_ok := true;
     tick_reads := reads_of [] [] [];
     tick_dashboard_clock := now;
     tick_sockets := open_sockets |}.

End LoopExamples.

(** * api/websocket_manager.py: the endpoint of a connection *)
Module ManagerEndpoint.
Import WebsocketManager ManagerLoop.

(** Starlette's exception for a peer that has gone; it is an [Exception]
    that is neither a [RuntimeError] nor a timeout. *)
Definition WebSocketDisconnect : exn := OtherException "WebSocketDisconnect".

Definition is_disconnect (e : exn) : bool :=
  match e with
  | OtherException s => String.eqb s "WebSocketDisconnect"
  | _ => false
  end.

(** [data.get("command")] of a text frame, with [data.get("limit")] for
    the command that reads it; [Unknown] is any other value, or none. *)
Inductive command :=
| Ping
| GetStatus
| GetRecentTransactions (limit : option Z)
| Unknown.

(** What an iteration of [while True] gets: an exception raised before
    anything is sent (by [wait_for], which raises [TimeoutError] after 30
    seconds, by [receive_text], or by [json.loads] and [data.get] on a text
    that is not a JSON object), the empty text, or a parsed command. *)
Inductive incoming :=
| Raised (e : exn)
| Empty
| Parsed (cmd : command).

(** The environment of one iteration: what the other tasks do while the
    endpoint waits for a frame, the frame, the clock, the sockets, and the
    reply of the driver if transactions are read. *)
Record frame := {
  frame_meanwhile : list op;
  frame_in : incoming;
  frame_clock : Z;
  frame_sockets : sockets;
  frame_recent : exn + list (option RealtimeTransaction) }.

Section Serialised.
Variable json_dumps : payload -> string.

Definition reply (f : frame) (p : payload) (websocket : WebSocket) : M unit :=
  send_personal_message (frame_sockets f) (Text (json_dumps p)) websocket.

(** The body of the inner [try], from the frame on. *)
Definition handle (websocket : WebSocket) (f : frame) : M unit :=
  match frame_in f with
  | Raised e => raise e
  | Empty => ret tt
  | Parsed Ping => reply f (Pong (frame_clock f)) websocket
  | Parsed GetStatus =>
      m ← gets manager;
      reply f (Status (is_monitoring m)
                 (Z.of_nat (List.length (active_connections m)))
                 (Z.of_nat (List.length (tracked_wallets m)))
                 (frame_clock f)) websocket
  | Parsed (GetRecentTransactions limit) =>
      recent_data ← DbQueries.get_recent_transactions (frame_recent f) (default 10%Z limit);
      reply f (RecentTransactions recent_data (frame_clock f)) websocket
  | Parsed Unknown => ret tt
  end.

(** One iteration of [while True]: the inner [try] with its handler for
    [asyncio.TimeoutError]. *)
Definition serve_frame (websocket : WebSocket) (f : frame) : M unit :=
  try_except (handle websocket f)
    (fun e =>
       match e with
       | TimeoutError => reply f (Keepalive (frame_clock f)) websocket
       | _ => raise e
       end).

(** [while True], for the frames of an inbox; when they are exhausted the
    peer has gone. *)
Fixpoint serve (websocket : WebSocket) (inbox : list frame) : M unit :=
  match inbox with
  | [] => raise WebSocketDisconnect
  | f :: rest =>
      modify (run (frame_meanwhile f));;
      serve_frame websocket f;;
      serve websocket rest
  end.

(** [websocket_endpoint]: [greeting] are the sockets at the time of the
    first message.  The handlers of the outer [try] catch every exception,
    so that the [finally] clause is what follows. *)
Definition websocket_endpoint (uuid4 : client_id) (greeting : sockets) (now : Z)
    (websocket : WebSocket) (inbox : list frame) : M unit :=
  connect uuid4 websocket;;
  try_except
    (m ← gets manager;
     send_personal_message greeting
       (Text (json_dumps (ConnectionEstablished (TOKEN_CONTRACT m)
                            (Z.of_nat (List.length (tracked_wallets m))) now)))
       websocket;;
     serve websocket inbox)
    (fun e =>
       if is_disconnect e then log INFO "WebSocket client disconnected normally."
       else log ERROR "WebSocket error for client");;
  disconnect websocket.

End Serialised.

End ManagerEndpoint.

Module EndpointSpec.
Import WebsocketManager ManagerEndpoint.




(** A frame that ends the session: it raises, and not a timeout. *)
Definition fatal (f : frame) : bool :=
  match frame_in f with
  | Raised TimeoutError => false
  | Raised _ => true
  | _ => false
  end.

(** A frame with nothing going on beside it. *)
Definition quiet (input : incoming) (now : Z) (net : sockets) : frame :=
  {| frame_meanwhile := []; frame_in := input; frame_clock := now;
     frame_sockets := net; frame_recent := inr [] |}.

End EndpointSpec.

(** * api/routers: the HTTP handlers

    A handler returns its body or raises [HTTPException], which FastAPI
    turns into the response with that status: the result of a handler is
    one or the other. *)
Module Routers.
Import WebsocketManager ManagerLoop.

Inductive http_error := HttpError (status_code : Z) (detail : string).

Definition answer (A : Type) : Type := http_error + A.

(** ** routers/realtime.py *)

(** [get_token_holders]: the 404 raised in the [try] block is re-raised by
    [except HTTPException], anything else becomes a 500. *)
Definition get_token_holders (read_ok : bool) (mint_address : string)
    : M (answer (list TokenHolder)) :=
  try_except
    (log INFO "Attempting to fetch token holders for mint from MongoDB.";;
     snapshot_model ← DbQueries.get_token_holder_snapshot read_ok mint_address;
     match snapshot_model with
     | Some snapshot =>
         log INFO "Found token holders data in DB.";;
         ret (inr (holders snapshot))
     | None =>
         log WARNING "No token holders snapshot found in DB for mint.";;
         ret (inl (HttpError 404 "Token holders snapshot not found for this mint."))
     end)
    (fun e =>
       log ERROR "Error getting token holders from DB";;
       ret (inl (HttpError 500 "Failed to retrieve token holders."))).

(** The body of [get_wallet_transactions]. *)
Record wallet_transactions := {
  wallet_address : string;
  transactions : list RealtimeTransaction;
  wallet_protocol_usage : dict string Z }.

(** [[tx.model_dump(by_alias=True) for tx in transactions]] on the
    documents of a cursor, which are dictionaries: the first one raises. *)
Definition model_dump_all (transactions : list RealtimeTransaction)
    : M (list RealtimeTransaction) :=
  match transactions with
  | [] => ret []
  | _ :: _ => raise (OtherException "AttributeError: 'dict' object has no attribute 'model_dump'")
  end.

(** [{p["_id"]: p["count"] for p in protocol_stats_wallet}] *)
Definition usage_of (stats : list (string * Z)) : dict string Z :=
  fold_left (fun d p => dict_set (fst p) (snd p) d) stats [].

(** [find_reply] and [aggregate_reply] are the replies of the driver to
    the two queries on the transactions of the wallet. *)
Definition get_wallet_transactions (find_reply : exn + list RealtimeTransaction)
    (aggregate_reply : exn + list (string * Z)) (wallet : string) (limit : Z)
    : M (answer wallet_transactions) :=
  try_except
    (documents ← DbQueries.lift find_reply;
     protocol_stats_wallet ← DbQueries.lift aggregate_reply;
     dumped ← model_dump_all documents;
     ret (inr {| wallet_address := wallet;
                 transactions := dumped;
                 wallet_protocol_usage := usage_of protocol_stats_wallet |}))
    (fun e =>
       log ERROR "Error fetching transactions for wallet";;
       ret (inl (HttpError 500 "Failed to retrieve wallet transactions."))).

Definition start_realtime_monitoring : M (answer string) :=
  try_except
    (start_monitoring;; ret (inr "Real-time monitoring started."))
    (fun e =>
       log ERROR "Failed to start monitoring via API";;
       ret (inl (HttpError 500 "Failed to start monitoring."))).

Definition stop_realtime_monitoring : M (answer string) :=
  try_except
    (stop_monitoring;; ret (inr "Real-time monitoring stopped."))
    (fun e =>
       log ERROR "Failed to stop monitoring via API";;
       ret (inl (HttpError 500 "Failed to stop monitoring."))).

(** ** routers/analytics.py *)


(** Outcome of the reads of [get_dashboard_data]. *)
Record analytics_reads := {
  wallets_count_ok : bool;
  transactions_count_ok : bool;
  buy_count_ok : bool;
  sell_count_ok : bool;
  lists : dashboard_reads }.



End Routers.

Module RoutersSpec.
Import ManagerLoop Routers.


(** Every read goes through, the driver answering [recent], [protocols]
    and [active]. *)
Definition analytics_up (recent : list RealtimeTransaction)
    (protocols active : list (string * Z)) : analytics_reads :=
  {| wallets_count_ok := true; transactions_count_ok := true;
     buy_count_ok := true; sell_count_ok := true;
     lists := LoopSpec.reads_of recent protocols active |}.

(** The transactions were made by the feed generator. *)
Definition buy_or_sell (tx : RealtimeTransaction) : Prop :=
  action_type tx = "buy" \/ action_type tx = "sell".

(** A stored transaction of the wallet W1, for the examples. *)
Definition buy_of_W1 : RealtimeTransaction :=
  {| signature := "sig1"; timestamp := 0; wallet := "W1"; tx_token_address := "M";
     amount := 1; action_type := "buy"; protocol := "Jupiter"; block_time := 0; slot := 0;
     from_address := None; to_address := None; pre_balance := None; post_balance := None |}.

End RoutersSpec.

Module EndpointOrder.
Import WebsocketManager EndpointSpec.


End EndpointOrder.

(** * Tactics *)

(** Unfolds the coroutine combinators in a goal about a run. *)
Ltac run_M :=
  cbv beta iota zeta delta
    [mbind M_bind bind mret M_ret ret try_except log modify gets raise when
     SolanaRpc.await_rpc SolanaRpc.lookup_key WalletDiscovery.lift_result fst snd].

(** Splits a conjunction of facts about a run on a world given by its
    fields and closes the facts that hold by computation. *)
Ltac split_run :=
  repeat split; try congruence; try tauto;
  repeat match goal with H : _ /\ _ |- _ => destruct H end;
  subst; cbn; rewrite ?Nat.eqb_refl; try reflexivity; try congruence.
(** * Properties of the Chain Query Client *)

Section RpcFacts.
Import SolanaRpc RpcSpec.
Context {R : Type}.
Variable net : nat -> response R.
Variable method : string.
Variable retries : Z.
Variable initial_delay : Q.

Local Abbreviation loop := (rpc_loop net method retries initial_delay).

Lemma retry_trace_S a k :
  retry_trace initial_delay a (S k) =
  Posted a :: Slept (backoff initial_delay a) :: retry_trace initial_delay (S a) k.
Proof. reflexivity. Qed.

Lemma delays_of_app t1 t2 : delays_of (t1 ++ t2) = delays_of t1 ++ delays_of t2.
Proof. unfold delays_of. apply flat_map_app. Qed.

Lemma delays_of_retry_trace a k :
  delays_of (retry_trace initial_delay a k) = map (backoff initial_delay) (seq a k).
Proof.
  revert a. induction k as [|k IH]; intros a; [reflexivity|].
  rewrite retry_trace_S. cbn [delays_of flat_map app seq map].
  f_equal. apply IH.
Qed.

Lemma attempts_of_retry_trace a k : attempts_of (retry_trace initial_delay a k) = k.
Proof.
  revert a. induction k as [|k IH]; intros a; [reflexivity|].
  rewrite retry_trace_S. unfold attempts_of in *. cbn. f_equal. apply IH.
Qed.

(** A retried attempt costs one request and one sleep. *)
Lemma rpc_loop_retried rem a :
  retried retries a (net a) = true ->
  loop (S rem) a =
  (fst (loop rem (S a)),
   Posted a :: Slept (backoff initial_delay a) :: snd (loop rem (S a))).
Proof.
  intros Hr. cbn [rpc_loop]. unfold retried in Hr.
  destruct (net a); try discriminate; try rewrite Hr;
    destruct (loop rem (S a)); reflexivity.
Qed.

(** [k] retried attempts followed by a result. *)
Lemma rpc_loop_success k : forall rem a r,
  (k < rem)%nat ->
  (forall i, (i < k)%nat -> retried retries (a + i) (net (a + i)) = true) ->
  net (a + k) = JsonResult r ->
  loop rem a = (inr r, retry_trace initial_delay a k ++ [Posted (a + k)]).
Proof.
  induction k as [|k IH]; intros rem a r Hlt Hre Hres.
  - destruct rem as [|rem]; [lia|]. rewrite Nat.add_0_r in Hres.
    cbn [rpc_loop]. rewrite Hres. cbn. now rewrite Nat.add_0_r.
  - destruct rem as [|rem]; [lia|].
    rewrite rpc_loop_retried by (specialize (Hre 0%nat); rewrite Nat.add_0_r in Hre; apply Hre; lia).
    rewrite (IH rem (S a) r).
    + rewrite retry_trace_S. cbn. now rewrite Nat.add_succ_r.
    + lia.
    + intros i Hi. specialize (Hre (S i)). rewrite Nat.add_succ_r in Hre. apply Hre. lia.
    + now rewrite Nat.add_succ_r in Hres.
Qed.

(** Only 429 replies: every attempt sleeps, then the loop falls through. *)
Lemma rpc_loop_rate_limited rem : forall a,
  (forall i, (i < rem)%nat -> net (a + i) = Status429) ->
  loop rem a =
  (inl (HTTPException 500 (DetailExhausted method retries)),
   retry_trace initial_delay a rem).
Proof.
  induction rem as [|rem IH]; intros a H429; [reflexivity|].
  rewrite rpc_loop_retried.
  - rewrite IH; [reflexivity|].
    intros i Hi. specialize (H429 (S i)). rewrite Nat.add_succ_r in H429. apply H429. lia.
  - specialize (H429 0%nat). rewrite Nat.add_0_r in H429. rewrite H429; [reflexivity|lia].
Qed.

(** [k] retried attempts, then an exception on an attempt that is not
    retried: the handler raises its terminal failure without sleeping. *)
Lemma rpc_loop_gives_up k : forall rem a e,
  (k < rem)%nat ->
  (forall i, (i < k)%nat -> retried retries (a + i) (net (a + i)) = true) ->
  raised (net (a + k)) = Some e ->
  retried retries (a + k) (net (a + k)) = false ->
  loop rem a =
  (inl (terminal_failure e), retry_trace initial_delay a k ++ [Posted (a + k)]).
Proof.
  induction k as [|k IH]; intros rem a e Hlt Hre Hra Hno.
  - destruct rem as [|rem]; [lia|]. rewrite Nat.add_0_r in Hra, Hno.
    cbn [rpc_loop]. unfold raised in Hra. unfold retried in Hno.
    destruct (net a); try discriminate; rewrite Hno; inversion Hra; subst;
      cbn; now rewrite Nat.add_0_r.
  - destruct rem as [|rem]; [lia|].
    rewrite rpc_loop_retried by (specialize (Hre 0%nat); rewrite Nat.add_0_r in Hre; apply Hre; lia).
    rewrite (IH rem (S a) e).
    + rewrite retry_trace_S. cbn. now rewrite Nat.add_succ_r.
    + lia.
    + intros i Hi. specialize (Hre (S i)). rewrite Nat.add_succ_r in Hre. apply Hre. lia.
    + now rewrite Nat.add_succ_r in Hra.
    + now rewrite Nat.add_succ_r in Hno.
Qed.

(** The loop never makes more requests than it has iterations, and its
    sleeps are the first backoff delays in order. *)
Lemma rpc_loop_bounds rem : forall a,
  exists k, (k <= rem)%nat /\
    (attempts_of (snd (loop rem a)) <= rem)%nat /\
    delays_of (snd (loop rem a)) = map (backoff initial_delay) (seq a k).
Proof.
  induction rem as [|rem IH]; intros a.
  - exists 0%nat. cbn. repeat split; lia.
  - destruct (IH (S a)) as (k & Hk & Hat & Hde).
    assert (Hagain : exists k', (k' <= S rem)%nat /\
              (attempts_of (Posted a :: Slept (backoff initial_delay a) :: snd (loop rem (S a))) <= S rem)%nat /\
              delays_of (Posted a :: Slept (backoff initial_delay a) :: snd (loop rem (S a))) =
              map (backoff initial_delay) (seq a k')).
    { exists (S k). repeat split; [lia| |].
      - unfold attempts_of in *. cbn. lia.
      - cbn [delays_of flat_map app seq map]. f_equal. exact Hde. }
    assert (Hstop : exists k', (k' <= S rem)%nat /\
              (attempts_of [Posted a] <= S rem)%nat /\
              delays_of [Posted a] = map (backoff initial_delay) (seq a k')).
    { exists 0%nat. cbn. repeat split; lia. }
    cbn [rpc_loop].
    destruct (net a); try destruct (Z.of_nat a <? retries - 1)%Z;
      try destruct (loop rem (S a)); cbn [snd] in *; assumption.
Qed.

(** A failure is raised only by the last iteration or after it: when the
    loop is entered with [retries] iterations, all of them made their
    request. *)
Lemma rpc_loop_failure_is_late rem : forall a e,
  Z.of_nat (a + rem) = retries ->
  fst (loop rem a) = inl e ->
  attempts_of (snd (loop rem a)) = rem /\ exists status detail, e = HTTPException status detail.
Proof.
  induction rem as [|rem IH]; intros a e Hsum Hfail.
  - cbn in *. inversion Hfail. split; [reflexivity|eauto].
  - assert (Hagain : fst (loop rem (S a)) = inl e ->
              attempts_of (Posted a :: Slept (backoff initial_delay a) :: snd (loop rem (S a))) = S rem /\
              exists status detail, e = HTTPException status detail).
    { intros H. destruct (IH (S a) e) as [Hn He]; [lia|exact H|].
      split; [|exact He]. unfold attempts_of in *. cbn. lia. }
    assert (Hlast : (Z.of_nat a <? retries - 1)%Z = false ->
              attempts_of [Posted a] = S rem).
    { intros H. apply Z.ltb_ge in H.
      assert (rem = 0)%nat by lia. subst. reflexivity. }
    revert Hfail. cbn [rpc_loop].
    destruct (net a) as [|e0|err|r]; cbn.
    + destruct (loop rem (S a)) eqn:E. cbn in *. intros H. apply Hagain, H.
    + destruct (Z.of_nat a <? retries - 1)%Z eqn:Hlt.
      * destruct (loop rem (S a)) eqn:E. cbn in *. intros H. apply Hagain, H.
      * cbn. intros H. inversion H; subst.
        split; [apply Hlast; reflexivity | destruct e0; cbn; eauto].
    + destruct (Z.of_nat a <? retries - 1)%Z eqn:Hlt.
      * destruct (loop rem (S a)) eqn:E. cbn in *. intros H. apply Hagain, H.
      * cbn. intros H. inversion H; subst.
        split; [apply Hlast; reflexivity | eauto].
    + discriminate.
Qed.
End RpcFacts.

(** * Coroutines: running them *)

Lemma bind_run {A B} (m : M A) (k : A -> M B) (w : world) :
  (m ≫= k) w =
  match m w with
  | (inr a, w') => k a w'
  | (inl e, w') => (inl e, w')
  end.
Proof. reflexivity. Qed.

(** A loop whose body never raises never raises. *)
Lemma for_each_returns {A} (body : A -> M unit) (l : list A) :
  (forall x w, fst (body x w) = inr tt) ->
  forall w, fst (for_each body l w) = inr tt.
Proof.
  intros Hbody. induction l as [|x l IH]; intros w; [reflexivity|].
  cbn [for_each]. rewrite bind_run.
  specialize (Hbody x w). destruct (body x w) as [[e|[]] w']; cbn in *.
  - discriminate.
  - apply IH.
Qed.

(** * Python built-ins: comparisons, dictionaries, sorting, slices *)

Lemma Qltb_lt (x y : Q) : Qltb x y = true <-> (x < y)%Q.
Proof.
  unfold Qltb. rewrite negb_true_iff. split.
  - intros H. apply Qnot_le_lt. intros Hle. apply Qle_bool_iff in Hle. congruence.
  - intros H. destruct (Qle_bool y x) eqn:E; [|reflexivity].
    apply Qle_bool_iff in E. exfalso. exact (Qlt_not_le _ _ H E).
Qed.

Lemma Qltb_ge (x y : Q) : Qltb x y = false <-> (y <= x)%Q.
Proof.
  unfold Qltb. rewrite negb_false_iff. apply Qle_bool_iff.
Qed.

Section Dict.
Context {K V : Type} `{EqDecision K}.
Implicit Types (d : dict K V) (k : K) (v : V).

Lemma dict_get_None d k : dict_get k d = None <-> k ∉ dict_keys d.
Proof.
  induction d as [|[k' v'] d IH]; cbn.
  - split; [intros _; apply not_elem_of_nil|reflexivity].
  - rewrite not_elem_of_cons. destruct (decide (k = k')) as [->|Hne].
    + split; [discriminate|intros [H _]; congruence].
    + rewrite IH. tauto.
Qed.


Lemma dict_keys_set_new d k v :
  dict_get k d = None -> dict_keys (dict_set k v d) = dict_keys d ++ [k].
Proof.
  induction d as [|[k0 v0] d IH]; cbn; [reflexivity|].
  destruct (decide (k = k0)); [discriminate|].
  intros H. cbn. f_equal. apply IH, H.
Qed.

Lemma dict_keys_set_old d k v v0 :
  dict_get k d = Some v0 -> dict_keys (dict_set k v d) = dict_keys d.
Proof.
  induction d as [|[k1 v1] d IH]; cbn; [discriminate|].
  destruct (decide (k = k1)); [reflexivity|].
  intros H. cbn. f_equal. apply IH, H.
Qed.

Lemma dict_set_NoDup d k v : NoDup (dict_keys d) -> NoDup (dict_keys (dict_set k v d)).
Proof.
  intros Hnd. destruct (dict_get k d) eqn:E.
  - now rewrite (dict_keys_set_old _ _ _ _ E).
  - rewrite (dict_keys_set_new _ _ _ E). apply NoDup_app. repeat split.
    + exact Hnd.
    + intros x Hx Hin. apply list_elem_of_singleton in Hin. subst.
      apply dict_get_None in E. contradiction.
    + apply NoDup_singleton.
Qed.

Lemma dict_get_In d k v : NoDup (dict_keys d) -> In (k, v) d -> dict_get k d = Some v.
Proof.
  induction d as [|[k0 v0] d IH]; cbn; [tauto|].
  rewrite NoDup_cons. intros [Hnotin Hnd] [Heq|Hin].
  - inversion Heq; subst. destruct (decide (k = k)); [reflexivity|congruence].
  - destruct (decide (k = k0)) as [->|Hne]; [|now apply IH].
    exfalso. apply Hnotin. apply list_elem_of_In. apply (in_map fst) in Hin. exact Hin.
Qed.

Lemma dict_get_Some_In d k v : dict_get k d = Some v -> In (k, v) d.
Proof.
  induction d as [|[k0 v0] d IH]; cbn; [discriminate|].
  destruct (decide (k = k0)) as [->|Hne].
  - intros H. inversion H. now left.
  - intros H. right. apply IH, H.
Qed.
End Dict.

Section Sorting.
Context {A : Type} (key : A -> Q).

Local Abbreviation descending := (fun a b : A => (key b <= key a)%Q).

Lemma insert_reverse_perm x l : Permutation (insert_reverse key x l) (x :: l).
Proof.
  induction l as [|y l IH]; cbn; [reflexivity|].
  destruct (Qltb (key x) (key y)); [|reflexivity].
  rewrite IH. apply perm_swap.
Qed.

Lemma sorted_reverse_perm l : Permutation (sorted_reverse key l) l.
Proof.
  induction l as [|x l IH]; cbn; [reflexivity|].
  rewrite insert_reverse_perm. now rewrite IH.
Qed.




End Sorting.

Section Slices.
Context {A : Type}.

(** A slice [l[:n]] is a prefix of [l], whatever the sign of [n]. *)
Lemma py_slice_to_prefix (n : Z) (l : list A) :
  exists rest, l = py_slice_to n l ++ rest.
Proof.
  unfold py_slice_to. destruct (0 <=? n)%Z;
    eexists; symmetry; apply firstn_skipn.
Qed.

Lemma py_slice_to_length (n : Z) (l : list A) :
  (0 <= n)%Z -> (Z.of_nat (List.length (py_slice_to n l)) <= n)%Z.
Proof.
  intros Hn. unfold py_slice_to.
  destruct (0 <=? n)%Z eqn:E; [|apply Z.leb_gt in E; lia].
  rewrite List.length_firstn. lia.
Qed.


End Slices.

(** * Claims on the Chain Query Client *)

(** The first delays of the default schedule. *)
Lemma default_backoff_schedule k :
  (k <= 3)%nat ->
  map (SolanaRpc.backoff 5) (seq 0 k) = firstn k [5%Q; 10%Q; 20%Q].
Proof.
  intros Hk. destruct k as [|[|[|[|k]]]]; try reflexivity. lia.
Qed.

(** C6, counterexample.  Three rate-limit replies use up the three
    iterations of [for attempt in range(retries)]: the call sleeps 5, 10 and
    20 seconds and raises; the success that would follow is never
    requested, so the call does not return it. *)
Lemma C6_three_rate_limits_exhaust_the_attempts :
  let run := SolanaRpc.call_solana_rpc
               (SolanaRpc.script [SolanaRpc.Status429; SolanaRpc.Status429;
                                  SolanaRpc.Status429; SolanaRpc.JsonResult 42%Z])
               "getBalance" 3 5 in
  fst run = inl (HTTPException 500 (DetailExhausted "getBalance" 3)) /\
  fst run <> inr 42%Z /\
  SolanaRpc.attempts_of (snd run) = 3%nat.
Proof.
  cbn. repeat split. discriminate.
Qed.

(** C6, amended.  A call makes at most three requests and its sleeps are the
    first delays of 5 s, 10 s, 20 s in order.  Before the last attempt every
    reply that is not a result (rate limit, transport error, timeout) is
    retried after the delay of its attempt, so a result on attempt [k < 3]
    is returned after exactly the first [k] delays; in particular two rate
    limits followed by a result return it after 5 s and 10 s.  Three rate
    limits sleep 5 s, 10 s, 20 s and end in the exhausted failure; three
    exceptions sleep 5 s, 10 s and end in the failure of the last handler.
    A failure is raised only once all three requests were made, and it is
    an [HTTPException]. *)
Theorem C6_retry_schedule (R : Type) (net : nat -> SolanaRpc.response R) (method : string) :
  let run := SolanaRpc.call_solana_rpc net method 3 5 in
  (SolanaRpc.attempts_of (snd run) <= 3)%nat /\
  (exists k, (k <= 3)%nat /\
     SolanaRpc.delays_of (snd run) = firstn k [5%Q; 10%Q; 20%Q]) /\
  (forall k r, (k < 3)%nat ->
     (forall i r', (i < k)%nat -> net i <> SolanaRpc.JsonResult r') ->
     net k = SolanaRpc.JsonResult r ->
     fst run = inr r /\
     SolanaRpc.delays_of (snd run) = firstn k [5%Q; 10%Q; 20%Q] /\
     SolanaRpc.attempts_of (snd run) = S k) /\
  ((forall i, (i < 3)%nat -> net i = SolanaRpc.Status429) ->
     fst run = inl (HTTPException 500 (DetailExhausted method 3)) /\
     SolanaRpc.delays_of (snd run) = [5%Q; 10%Q; 20%Q]) /\
  (forall e,
     (forall i r', (i < 2)%nat -> net i <> SolanaRpc.JsonResult r') ->
     RpcSpec.raised (net 2%nat) = Some e ->
     fst run = inl (SolanaRpc.terminal_failure e) /\
     SolanaRpc.delays_of (snd run) = [5%Q; 10%Q]) /\
  (forall e, fst run = inl e ->
     SolanaRpc.attempts_of (snd run) = 3%nat /\
     exists status detail, e = HTTPException status detail).
Proof.
  intros run. subst run. unfold SolanaRpc.call_solana_rpc.
  change (Z.to_nat 3) with 3%nat.
  assert (Hearly : forall k, (k <= 2)%nat ->
            (forall i r', (i < k)%nat -> net i <> SolanaRpc.JsonResult r') ->
            forall i, (i < k)%nat -> RpcSpec.retried 3 (0 + i) (net (0 + i)) = true).
  { intros k Hk Hne i Hi. cbn [Nat.add]. unfold RpcSpec.retried.
    destruct (net i) eqn:E; try reflexivity.
    - apply Z.ltb_lt. lia.
    - apply Z.ltb_lt. lia.
    - exfalso. eapply Hne; eauto. }
  split; [|split; [|split; [|split; [|split]]]].
  - destruct (rpc_loop_bounds net method 3 5 3 0) as (k & _ & H & _). exact H.
  - destruct (rpc_loop_bounds net method 3 5 3 0) as (k & Hk & _ & H).
    exists k. split; [exact Hk|]. rewrite H. now apply default_backoff_schedule.
  - intros k r Hk Hne Hres.
    rewrite (rpc_loop_success net method 3 5 k 3 0 r Hk); cbn [fst snd].
    + split; [reflexivity|]. split.
      * rewrite delays_of_app, delays_of_retry_trace. cbn [SolanaRpc.delays_of flat_map].
        rewrite app_nil_r. apply default_backoff_schedule. lia.
      * unfold SolanaRpc.attempts_of. rewrite List.filter_app, List.length_app.
        fold (SolanaRpc.attempts_of (RpcSpec.retry_trace 5 0 k)).
        rewrite attempts_of_retry_trace. cbn. lia.
    + apply Hearly; [lia|exact Hne].
    + exact Hres.
  - intros H429. rewrite (rpc_loop_rate_limited net method 3 5 3 0) by exact H429.
    cbn [fst snd]. split; [reflexivity|]. rewrite delays_of_retry_trace. reflexivity.
  - intros e Hne Hra.
    rewrite (rpc_loop_gives_up net method 3 5 2 3 0 e); cbn [fst snd Nat.add].
    + split; [reflexivity|]. rewrite delays_of_app, delays_of_retry_trace. reflexivity.
    + lia.
    + apply Hearly; [lia|exact Hne].
    + exact Hra.
    + unfold RpcSpec.raised in Hra. unfold RpcSpec.retried.
      destruct (net 2%nat); try discriminate; reflexivity.
  - intros e Hfail. apply (rpc_loop_failure_is_late net method 3 5 3 0 e); [reflexivity|exact Hfail].
Qed.

(** Two rate limits, then a result: returned after 5 s and 10 s. *)
Lemma C6_retry_schedule_witness :
  let run := SolanaRpc.call_solana_rpc
               (SolanaRpc.script [SolanaRpc.Status429; SolanaRpc.Status429;
                                  SolanaRpc.JsonResult 42%Z])
               "getBalance" 3 5 in
  fst run = inr 42%Z /\ SolanaRpc.delays_of (snd run) = [5%Q; 10%Q].
Proof.
  intros run.
  destruct (C6_retry_schedule Z
              (SolanaRpc.script [SolanaRpc.Status429; SolanaRpc.Status429;
                                 SolanaRpc.JsonResult 42%Z]) "getBalance")
    as (_ & _ & H & _).
  destruct (H 2%nat 42%Z) as (Hres & Hdel & _).
  - lia.
  - intros i r' Hi. destruct i as [|[|i]]; [discriminate|discriminate|lia].
  - reflexivity.
  - split; [exact Hres|exact Hdel].
Defined.

(** C7, the code at the failing input.  A reply carrying an RPC error
    object raises inside the [try] block, where [except Exception] catches
    it: the call sleeps and tries again.  Followed by a result, the error
    is lost; repeated on all three attempts, it comes out after 5 s and
    10 s wrapped in the failure of the generic handler. *)
Lemma C7_rpc_error_is_retried :
  let err := {| SolanaRpc.err_code := Some (-32602)%Z;
                SolanaRpc.err_message := Some "Invalid params" |} in
  SolanaRpc.call_solana_rpc
    (SolanaRpc.script [SolanaRpc.JsonError err; SolanaRpc.JsonResult 42%Z])
    "getProgramAccounts" 3 5
  = (inr 42%Z, [SolanaRpc.Posted 0; SolanaRpc.Slept 5; SolanaRpc.Posted 1]) /\
  SolanaRpc.call_solana_rpc (R := Z)
    (SolanaRpc.script [SolanaRpc.JsonError err; SolanaRpc.JsonError err; SolanaRpc.JsonError err])
    "getProgramAccounts" 3 5
  = (inl (HTTPException 500
            (DetailUnexpected (HTTPException 500 (DetailRpcError (Some (-32602)%Z) "Invalid params")))),
     [SolanaRpc.Posted 0; SolanaRpc.Slept 5; SolanaRpc.Posted 1; SolanaRpc.Slept 10;
      SolanaRpc.Posted 2]).
Proof.
  split; reflexivity.
Qed.

(** * The discovery run, case by case *)

Section DiscoveryRun.
Import SolanaRpc WalletDiscovery DiscoverySpec.

Lemma writes_and_logs_id (w : world) : writes_and_logs w (db w) [] = w.
Proof. destruct w. unfold writes_and_logs. cbn. now rewrite app_nil_r. Qed.

Lemma writes_and_logs_again w d d' l l' :
  writes_and_logs (writes_and_logs w d l) d' l' = writes_and_logs w d' (l ++ l').
Proof. unfold writes_and_logs. cbn. now rewrite app_assoc. Qed.

(** [get_token_supply] never raises and writes nothing. *)
Lemma get_token_supply_run net_mint token w :
  exists entries,
    get_token_supply net_mint token w =
    (inr (supply_seen net_mint), writes_and_logs w (db w) entries) /\
    (supply_seen net_mint = None ->
     fst (call_solana_rpc net_mint "getAccountInfo" 3 5) <> inr None ->
     logged ERROR entries).
Proof.
  unfold get_token_supply, supply_seen, supply_of_reply. run_M.
  destruct (call_solana_rpc net_mint "getAccountInfo" 3 5) as [[e|[info|]] tr]; cbn.
  - exists [(ERROR, "Error getting token supply")]. split; [reflexivity|].
    intros _ _. eexists. now left.
  - destruct (mint_supply info), (mint_decimals info); cbn.
    + exists []. rewrite writes_and_logs_id. split; [reflexivity|discriminate].
    + exists [(ERROR, "Error getting token supply")]. split; [reflexivity|].
      intros _ _. eexists. now left.
    + exists [(ERROR, "Error getting token supply")]. split; [reflexivity|].
      intros _ _. eexists. now left.
    + exists [(ERROR, "Error getting token supply")]. split; [reflexivity|].
      intros _ _. eexists. now left.
  - exists []. rewrite writes_and_logs_id. split; [reflexivity|congruence].
Qed.

(** The loop over the retained holders upserts one tracker per holder
    whose write goes through, and touches nothing else. *)
Lemma track_holders_run faults now hs : forall w,
  exists entries,
    for_each (track_holder faults now) hs w =
    (inr tt,
     writes_and_logs w
       {| realtime_transactions := realtime_transactions (db w);
          token_holders := token_holders (db w);
          wallets := upsert_trackers faults now hs (wallets (db w)) |}
       entries).
Proof.
  induction hs as [|h hs IH]; intros w.
  - exists []. cbn. destruct w as [[]]. unfold writes_and_logs. cbn.
    now rewrite app_nil_r.
  - cbn [for_each]. rewrite bind_run.
    unfold track_holder at 1, DbService.update_or_insert_wallet_tracker.
    destruct (wallet_write_ok faults (owner h)) eqn:E; run_M.
    + match goal with |- context [for_each _ hs ?w1] => destruct (IH w1) as [entries ->] end.
      exists entries. unfold upsert_trackers. cbn. rewrite E. reflexivity.
    + match goal with |- context [for_each _ hs ?w1] => destruct (IH w1) as [entries ->] end.
      exists ((ERROR, "Error updating/inserting wallet tracker") :: entries).
      unfold upsert_trackers, writes_and_logs. cbn. rewrite E.
      now rewrite <- app_assoc.
Qed.

Lemma with_logs_writes w entries :
  with_logs (fun l => l ++ entries) w = writes_and_logs w (db w) entries.
Proof. reflexivity. Qed.

Lemma with_db_writes f w : with_db f w = writes_and_logs w (f (db w)) [].
Proof. destruct w. unfold with_db, writes_and_logs. cbn. now rewrite app_nil_r. Qed.

Lemma db_writes w d entries : db (writes_and_logs w d entries) = d.
Proof. reflexivity. Qed.

Lemma logged_app_r lvl l1 l2 : logged lvl l2 -> logged lvl (l1 ++ l2).
Proof. intros [msg H]. exists msg. apply in_or_app. now right. Qed.

Lemma logged_one lvl msg : logged lvl [(lvl, msg)].
Proof. exists msg. now left. Qed.

(** Every run of the discovery, by the outcome of the account query and
    of the aggregation. *)
Lemma discover_run net_accounts net_mint faults now mint top_n w :
  exists d entries,
    discover_top_wallets net_accounts net_mint faults now mint top_n w =
    (inr tt, writes_and_logs w d entries) /\
    match fst (call_solana_rpc net_accounts "getProgramAccounts" 3 5) with
    | inl e => d = db w /\ logged ERROR entries
    | inr None | inr (Some []) =>
        d = db w /\
        entries = [(INFO, "Discovering top wallets for mint");
                   (WARNING, "No token accounts found for mint from RPC")]
    | inr (Some accounts) =>
        let supply := supply_seen net_mint in
        match aggregate (decimals_seen supply) ([], []) accounts with
        | inl e => d = db w /\ logged ERROR entries
        | inr st => d = persisted faults now mint top_n supply st (db w)
        end
    end.
Proof.
  unfold discover_top_wallets, discover_body. run_M.
  destruct (call_solana_rpc net_accounts "getProgramAccounts" 3 5)
    as [[e|[[|a accounts]|]] tr]; cbn [fst].
  - destruct e; rewrite !with_logs_writes, !writes_and_logs_again, !db_writes;
      eexists _, _; (split; [reflexivity|]); (split; [reflexivity|]);
      apply logged_app_r, logged_one.
  - rewrite !with_logs_writes, !writes_and_logs_again, !db_writes.
    eexists _, _. split; [reflexivity|]. split; reflexivity.
  - match goal with |- context [get_token_supply net_mint mint ?w1] =>
      destruct (get_token_supply_run net_mint mint w1) as (l1 & -> & _) end.
    fold (decimals_seen (supply_seen net_mint)).
    destruct (aggregate (decimals_seen (supply_seen net_mint)) ([], []) (a :: accounts))
      as [e|st] eqn:Hagg.
    + destruct e; rewrite !with_logs_writes, !writes_and_logs_again, !db_writes;
        eexists _, _; (split; [reflexivity|]); (split; [reflexivity|]);
        apply logged_app_r, logged_app_r, logged_one.
    + unfold DbService.update_token_holder_snapshot.
      destruct (snapshot_write_ok faults) eqn:Hok; run_M.
      * match goal with |- context [for_each _ ?hs ?w1] =>
          destruct (track_holders_run faults now hs w1) as (l2 & ->) end.
        rewrite !with_logs_writes, !with_db_writes, !writes_and_logs_again, !db_writes.
        eexists _, _. split; [reflexivity|].
        unfold persisted. rewrite Hok. reflexivity.
      * match goal with |- context [for_each _ ?hs ?w1] =>
          destruct (track_holders_run faults now hs w1) as (l2 & ->) end.
        rewrite !with_logs_writes, !writes_and_logs_again, !db_writes.
        eexists _, _. split; [reflexivity|].
        unfold persisted. rewrite Hok. destruct (db w); reflexivity.
  - rewrite !with_logs_writes, !writes_and_logs_again, !db_writes.
    eexists _, _. split; [reflexivity|]. split; reflexivity.
Qed.
End DiscoveryRun.

(** * The aggregation loop *)

Section Aggregation.
Import SolanaRpc WalletDiscovery DiscoverySpec.
Variable token_decimals : Z.

Local Abbreviation positive_values :=
  (List.Forall (fun kv : string * Q => (0 < snd kv)%Q)).

(** One iteration, for an account that parses. *)
Lemma account_step_parsed st pk o raw :
  account_step token_decimals st
    {| pubkey := Some pk; acc_owner := Some o; acc_amount := Some raw |} =
  inr (if truthy o && Qltb 0 (ui_of raw token_decimals)
       then (dict_set o (default 0%Q (dict_get o (fst st)) + ui_of raw token_decimals)%Q (fst st),
             match dict_get o (snd st) with
             | Some _ => snd st
             | None => dict_set o pk (snd st)
             end)
       else st).
Proof.
  unfold account_step. cbn.
  destruct (truthy o && Qltb 0 (ui_of raw token_decimals)); reflexivity.
Qed.

Lemma account_step_malformed st a :
  malformed a = true -> exists e, account_step token_decimals st a = inl e.
Proof.
  destruct a as [[pk|] [o|] [raw|]]; cbn; try discriminate; intros _;
    unfold account_step; cbn; eauto.
Qed.

(** A record that does not parse aborts the loop, whatever came before. *)
Lemma aggregate_malformed accounts : forall st,
  (exists a, In a accounts /\ malformed a = true) ->
  exists e, aggregate token_decimals st accounts = inl e.
Proof.
  induction accounts as [|a accounts IH]; intros st (a0 & Hin & Hmal).
  - destruct Hin.
  - cbn [aggregate]. destruct (account_step token_decimals st a) as [e|st'] eqn:E.
    + eauto.
    + apply IH. destruct Hin as [->|Hin]; [|eauto].
      destruct (account_step_malformed st a0 Hmal) as [e He]. congruence.
Qed.




Lemma owner_amounts_cons own a accounts :
  owner_amounts token_decimals own (a :: accounts) =
  match contribution token_decimals own a with
  | Some pq => snd pq :: owner_amounts token_decimals own accounts
  | None => owner_amounts token_decimals own accounts
  end.
Proof.
  unfold owner_amounts. cbn.
  destruct (contribution token_decimals own a); reflexivity.
Qed.





Lemma dict_set_positive (d : dict string Q) k v :
  (0 < v)%Q -> positive_values d -> positive_values (dict_set k v d).
Proof.
  intros Hv. induction d as [|[k0 v0] d IH]; cbn; intros Hd.
  - constructor; [exact Hv|constructor].
  - inversion Hd; subst. destruct (decide (k = k0)).
    + constructor; [exact Hv|assumption].
    + constructor; [assumption|now apply IH].
Qed.

Lemma Qplus_pos_nonneg_pos (x y : Q) : (0 <= x)%Q -> (0 < y)%Q -> (0 < x + y)%Q.
Proof.
  intros Hx Hy. apply Qlt_le_trans with (0 + y)%Q.
  - now rewrite Qplus_0_l.
  - apply Qplus_le_l. exact Hx.
Qed.

(** Keys stay distinct and balances stay positive. *)
Lemma aggregate_invariant accounts : forall st0 st,
  aggregate token_decimals st0 accounts = inr st ->
  NoDup (dict_keys (fst st0)) -> positive_values (fst st0) ->
  NoDup (dict_keys (fst st)) /\ positive_values (fst st).
Proof.
  induction accounts as [|a accounts IH]; intros st0 st Hagg Hnd Hpos.
  - cbn in Hagg. inversion Hagg; subst. now split.
  - cbn [aggregate] in Hagg.
    destruct a as [[pk|] [o|] [raw|]]; try (cbn in Hagg; discriminate).
    rewrite account_step_parsed in Hagg.
    apply (IH _ _ Hagg).
    + destruct (truthy o && Qltb 0 (ui_of raw token_decimals)); cbn [fst]; [|exact Hnd].
      now apply dict_set_NoDup.
    + destruct (truthy o && Qltb 0 (ui_of raw token_decimals)) eqn:E; cbn [fst]; [|exact Hpos].
      apply andb_true_iff in E. destruct E as [_ Hui]. apply Qltb_lt in Hui.
      apply dict_set_positive; [|exact Hpos].
      apply Qplus_pos_nonneg_pos; [|exact Hui].
      destruct (dict_get o (fst st0)) as [x|] eqn:Eg; cbn.
      * apply dict_get_Some_In in Eg.
        rewrite List.Forall_forall in Hpos. apply Qlt_le_weak. exact (Hpos _ Eg).
      * apply Qle_refl.
Qed.

(** With positive balances, [aggregated_holders] keeps every entry. *)
Lemma aggregated_holders_all (st : aggregation) :
  positive_values (fst st) ->
  aggregated_holders token_decimals st =
  map (fun kv : string * Q =>
         {| owner := fst kv;
            address := default (fst kv) (dict_get (fst kv) (snd st));
            balance := snd kv;
            ui_amount := snd kv;
            percentage := None;
            decimals := token_decimals |}) (fst st).
Proof.
  unfold aggregated_holders. generalize (snd st) as accts.
  induction (fst st) as [|[own bal] d IH]; intros accts Hpos; [reflexivity|].
  inversion Hpos as [|? ? Hb Hd]; subst. cbn in Hb.
  cbn [flat_map map fst snd]. apply Qltb_lt in Hb. rewrite Hb. cbn [app].
  f_equal. now apply IH.
Qed.



(** A contributing account has a non-empty owner. *)
Lemma owner_amounts_empty_owner accounts : owner_amounts token_decimals "" accounts = [].
Proof.
  induction accounts as [|a accounts IH]; [reflexivity|].
  rewrite owner_amounts_cons.
  replace (contribution token_decimals "" a) with (@None (string * Q)); [exact IH|].
  unfold contribution.
  destruct (pubkey a), (acc_owner a) as [o|], (acc_amount a); try reflexivity.
  destruct (bool_decide (o = "")) eqn:E; [|reflexivity].
  apply bool_decide_eq_true_1 in E. subst. reflexivity.
Qed.
End Aggregation.

(** * Claims on the Holder Discovery Engine *)






(** C5, counterexample.  The account query succeeds and the supply query
    fails on every attempt: [get_token_supply] logs the failure and returns
    [None], the run goes on with decimals 0 and supply 0 and persists a
    snapshot and two wallet trackers. *)
Lemma C5_failed_supply_query_still_persists :
  let run := WalletDiscovery.discover_top_wallets
               (Examples.accounts_reply Examples.three_accounts)
               Examples.network_down WalletDiscovery.no_faults 0 "M" 100
               Examples.world0 in
  (exists e, fst (SolanaRpc.call_solana_rpc (R := option SolanaRpc.mint_info)
                    Examples.network_down "getAccountInfo" 3 5) = inl e) /\
  In (ERROR, "Error getting token supply") (logs (snd run)) /\
  db (snd run) <> db Examples.world0 /\
  holders <$> (token_holders (db (snd run)) !! "M")
    = Some [Examples.holder "A" "a1" 150; Examples.holder "B" "b1" 30] /\
  size (wallets (db (snd run))) = 2%nat.
Proof.
  split; [eexists; reflexivity|].
  split; [vm_compute; tauto|].
  split.
  - intros H. apply (f_equal (fun d => token_holders d !! "M")) in H.
    vm_compute in H. discriminate.
  - split; vm_compute; reflexivity.
Qed.

(** C5, amended.  No run lets an [Exception] escape.  When the
    token-account query fails (its retries exhausted) or a record of its
    reply does not parse, the error is logged and the database is the one
    the run found. *)
Theorem C5_failure_keeps_persisted_state
    (net_accounts : nat -> SolanaRpc.response (option (list WalletDiscovery.raw_account)))
    (net_mint : nat -> SolanaRpc.response (option SolanaRpc.mint_info))
    (faults : WalletDiscovery.db_faults) (now : Z) (mint : string) (top_n : Z) (w : world) :
  let run := WalletDiscovery.discover_top_wallets net_accounts net_mint faults now mint top_n w in
  let query := fst (SolanaRpc.call_solana_rpc net_accounts "getProgramAccounts" 3 5) in
  fst run = inr tt /\
  ((exists e, query = inl e) \/
   (exists accounts a, query = inr (Some accounts) /\ In a accounts /\
                       DiscoverySpec.malformed a = true) ->
   db (snd run) = db w /\
   exists entries, logs (snd run) = logs w ++ entries /\ DiscoverySpec.logged ERROR entries).
Proof.
  intros run query. subst run query.
  destruct (discover_run net_accounts net_mint faults now mint top_n w)
    as (d & entries & Hrun & Hcase).
  rewrite Hrun. cbn [fst snd]. split; [reflexivity|].
  rewrite db_writes. intros [[e He]|(accounts & a & Hq & Hin & Hmal)].
  - rewrite He in Hcase. destruct Hcase as [-> Hlog].
    split; [reflexivity|]. exists entries. split; [reflexivity|exact Hlog].
  - rewrite Hq in Hcase. destruct accounts as [|a0 accounts]; [destruct Hin|].
    cbv zeta in Hcase.
    destruct (aggregate_malformed
                (DiscoverySpec.decimals_seen (DiscoverySpec.supply_seen net_mint))
                (a0 :: accounts) ([], [])) as [e He]; [eauto|].
    rewrite He in Hcase. destruct Hcase as [-> Hlog].
    split; [reflexivity|]. exists entries. split; [reflexivity|exact Hlog].
Qed.

(** The network is down: nothing is written, an error is logged. *)
Lemma C5_failure_keeps_persisted_state_witness :
  let run := WalletDiscovery.discover_top_wallets
               Examples.network_down Examples.network_down
               WalletDiscovery.no_faults 0 "M" 100 Examples.world0 in
  fst run = inr tt /\ db (snd run) = db Examples.world0.
Proof.
  intros run.
  destruct (C5_failure_keeps_persisted_state
              Examples.network_down Examples.network_down
              WalletDiscovery.no_faults 0 "M" 100 Examples.world0) as [Hret Hkeep].
  split; [exact Hret|].
  apply Hkeep. left. eexists. reflexivity.
Defined.

(** C10.  When the token-account query returns nothing ([null] or an empty
    list), the run returns without error after a warning and writes
    nothing: no snapshot, no wallet tracker. *)
Theorem C10_empty_reply_writes_nothing
    (net_accounts : nat -> SolanaRpc.response (option (list WalletDiscovery.raw_account)))
    (net_mint : nat -> SolanaRpc.response (option SolanaRpc.mint_info))
    (faults : WalletDiscovery.db_faults) (now : Z) (mint : string) (top_n : Z) (w : world) :
  let run := WalletDiscovery.discover_top_wallets net_accounts net_mint faults now mint top_n w in
  let query := fst (SolanaRpc.call_solana_rpc net_accounts "getProgramAccounts" 3 5) in
  query = inr None \/ query = inr (Some []) ->
  fst run = inr tt /\
  db (snd run) = db w /\
  token_holders (db (snd run)) !! mint = token_holders (db w) !! mint /\
  wallets (db (snd run)) = wallets (db w) /\
  logs (snd run) = logs w ++ [(INFO, "Discovering top wallets for mint");
                              (WARNING, "No token accounts found for mint from RPC")] /\
  manager (snd run) = manager w.
Proof.
  intros run query Hq. subst run query.
  destruct (discover_run net_accounts net_mint faults now mint top_n w)
    as (d & entries & Hrun & Hcase).
  rewrite Hrun. cbn [fst snd]. rewrite db_writes.
  assert (d = db w /\ entries = [(INFO, "Discovering top wallets for mint");
                                 (WARNING, "No token accounts found for mint from RPC")])
    as [-> ->].
  { destruct Hq as [Hq|Hq]; rewrite Hq in Hcase; exact Hcase. }
  repeat split; reflexivity.
Qed.

(** An empty reply on a database that holds a snapshot: it stays. *)
Lemma C10_empty_reply_writes_nothing_witness :
  let seeded :=
    snd (WalletDiscovery.discover_top_wallets
           (Examples.accounts_reply Examples.three_accounts)
           (Examples.mint_reply 1000 0) WalletDiscovery.no_faults 0 "M" 100
           Examples.world0) in
  let run := WalletDiscovery.discover_top_wallets
               (Examples.accounts_reply []) (Examples.mint_reply 1000 0)
               WalletDiscovery.no_faults 1 "M" 100 seeded in
  fst run = inr tt /\ db (snd run) = db seeded.
Proof.
  intros seeded run.
  destruct (C10_empty_reply_writes_nothing
              (Examples.accounts_reply []) (Examples.mint_reply 1000 0)
              WalletDiscovery.no_faults 1 "M" 100 seeded) as (Hret & Hdb & _).
  - right. reflexivity.
  - split; [exact Hret|exact Hdb].
Defined.

(** * The connection registry *)

Section Registry.
Import WebsocketManager ManagerSpec BroadcastSpec.
Implicit Types (conns : dict client_id WebSocket) (ws : WebSocket).

Lemma find_client_entry ws conns : find_client ws conns = fst <$> entry_of ws conns.
Proof.
  induction conns as [|[c v] rest IH]; cbn; [reflexivity|].
  destruct (Nat.eqb v ws); [reflexivity|exact IH].
Qed.

Lemma entry_of_Some ws conns e :
  entry_of ws conns = Some e -> In e conns /\ snd e = ws.
Proof.
  induction conns as [|[c v] rest IH]; cbn; [discriminate|].
  destruct (Nat.eqb v ws) eqn:E.
  - intros H. inversion H; subst. apply Nat.eqb_eq in E. cbn. auto.
  - intros H. destruct (IH H). auto.
Qed.

(** With distinct keys, deleting the key found for a socket removes the
    first entry of that socket. *)
Lemma drop_without ws conns :
  NoDup (dict_keys conns) -> drop ws conns = without_socket ws conns.
Proof.
  unfold drop. induction conns as [|[c v] rest IH]; cbn; [reflexivity|].
  rewrite NoDup_cons. intros [Hc Hnd].
  destruct (Nat.eqb v ws) eqn:E; cbn.
  - destruct (decide (c = c)); [reflexivity|congruence].
  - specialize (IH Hnd). rewrite find_client_entry in *.
    destruct (entry_of ws rest) as [[cid v']|] eqn:Ee; cbn in *.
    + destruct (decide (cid = c)) as [->|Hne].
      * exfalso. apply Hc. apply entry_of_Some in Ee. destruct Ee as [Hin _].
        apply list_elem_of_In. apply (in_map fst) in Hin. exact Hin.
      * now rewrite IH.
    + now rewrite <- IH.
Qed.

Lemma without_socket_keys ws conns x :
  x ∈ dict_keys (without_socket ws conns) -> x ∈ dict_keys conns.
Proof.
  induction conns as [|[c v] rest IH]; cbn; [auto|].
  destruct (Nat.eqb v ws); cbn.
  - intros H. apply elem_of_cons. now right.
  - rewrite !elem_of_cons. intros [->|H]; [now left|right; now apply IH].
Qed.

Lemma without_socket_NoDup ws conns :
  NoDup (dict_keys conns) -> NoDup (dict_keys (without_socket ws conns)).
Proof.
  induction conns as [|[c v] rest IH]; cbn; [auto|].
  rewrite NoDup_cons. intros [Hc Hnd].
  destruct (Nat.eqb v ws); cbn; [exact Hnd|].
  apply NoDup_cons. split; [|now apply IH].
  intros H. apply Hc. eapply without_socket_keys, H.
Qed.

Lemma prune_nil gone : prune gone [] = ([], []).
Proof.
  induction gone as [|ws gone IH]; [reflexivity|]. cbn. now rewrite IH.
Qed.

(** Sockets that are not the head's leave the head in place. *)
Lemma prune_skip gone : forall c v rest,
  ~ In v gone ->
  prune gone ((c, v) :: rest) =
  (fst (prune gone rest), (c, v) :: snd (prune gone rest)).
Proof.
  induction gone as [|ws gone IH]; intros c v rest Hv; [reflexivity|].
  cbn [prune without_socket entry_of].
  destruct (Nat.eqb v ws) eqn:E.
  - apply Nat.eqb_eq in E. subst. exfalso. apply Hv. now left.
  - rewrite IH by (intros H; apply Hv; now right).
    destruct (prune gone (without_socket ws rest)). reflexivity.
Qed.

(** Pruning the sockets of the registry that satisfy [P], in registry
    order, removes exactly the entries of these sockets. *)
Lemma prune_filter (P : WebSocket -> bool) conns :
  prune (List.filter P (dict_values conns)) conns =
  (List.filter (fun e => P (snd e)) conns,
   List.filter (fun e => negb (P (snd e))) conns).
Proof.
  induction conns as [|[c v] rest IH]; [reflexivity|].
  cbn [dict_values map List.filter snd]. fold (dict_values rest).
  destruct (P v) eqn:E; cbn [negb].
  - cbn [prune without_socket entry_of]. rewrite Nat.eqb_refl. now rewrite IH.
  - rewrite prune_skip.
    + now rewrite IH.
    + intros H. apply List.filter_In in H. destruct H as [_ H]. congruence.
Qed.

Lemma filter_split_length {A} (P : A -> bool) (l : list A) :
  (List.length (List.filter P l) + List.length (List.filter (fun x => negb (P x)) l)
   = List.length l)%nat.
Proof.
  induction l as [|x l IH]; [reflexivity|]. cbn. destruct (P x); cbn; lia.
Qed.

Lemma filter_values (P : WebSocket -> bool) conns :
  dict_values (List.filter (fun e => P (snd e)) conns) = List.filter P (dict_values conns).
Proof.
  unfold dict_values. induction conns as [|[c v] rest IH]; [reflexivity|].
  cbn. destruct (P v); cbn; now rewrite IH.
Qed.

(** Without a send that breaks, the pass reaches the whole snapshot and
    returns the closed sockets. *)
Lemma attempted_all net snapshot :
  (forall ws, In ws snapshot -> breaks net ws = false) ->
  attempted net snapshot = snapshot /\
  send_all_result net snapshot = inr (List.filter (closed net) snapshot).
Proof.
  induction snapshot as [|ws rest IH]; intros Hno; [split; reflexivity|].
  destruct IH as [IH1 IH2]; [intros; apply Hno; now right|].
  pose proof (Hno ws (or_introl eq_refl)) as Hws.
  cbn. rewrite Hws, IH1, IH2. unfold breaks, closed in *.
  destruct (net ws) as [[]|]; try discriminate; split; reflexivity.
Qed.

Lemma attempted_incl net snapshot ws : In ws (attempted net snapshot) -> In ws snapshot.
Proof.
  induction snapshot as [|ws' rest IH]; cbn; [auto|].
  destruct (breaks net ws'); cbn; intros [->|H]; auto. destruct H.
Qed.

Lemma targets_app evs1 evs2 : targets (evs1 ++ evs2) = targets evs1 ++ targets evs2.
Proof. unfold targets. apply flat_map_app. Qed.

Lemma targets_send_events net msg snapshot :
  targets (map (send_event net msg) snapshot) = snapshot.
Proof.
  unfold targets.
  induction snapshot as [|ws rest IH]; [reflexivity|].
  cbn. unfold send_event at 1. destruct (net ws); cbn; now rewrite IH.
Qed.

Lemma targets_removals entries : targets (map unregistered entries) = [].
Proof. unfold targets. induction entries as [|e entries IH]; [reflexivity|exact IH]. Qed.

Lemma delivered_app evs1 evs2 : delivered (evs1 ++ evs2) = delivered evs1 ++ delivered evs2.
Proof. unfold delivered. apply flat_map_app. Qed.

Lemma delivered_removals entries : delivered (map unregistered entries) = [].
Proof. unfold delivered. induction entries as [|e entries IH]; [reflexivity|exact IH]. Qed.

Lemma delivered_send_events net msg snapshot :
  delivered (map (send_event net msg) snapshot) =
  map (fun ws => (ws, msg)) (List.filter (delivers net) snapshot).
Proof.
  unfold delivered.
  induction snapshot as [|ws rest IH]; [reflexivity|].
  cbn. unfold send_event at 1, delivers at 1. destruct (net ws); cbn; now rewrite IH.
Qed.

Lemma removed_app evs1 evs2 : removed (evs1 ++ evs2) = removed evs1 ++ removed evs2.
Proof. unfold removed. apply flat_map_app. Qed.

Lemma removed_removals entries : removed (map unregistered entries) = entries.
Proof.
  unfold removed.
  induction entries as [|[c v] entries IH]; [reflexivity|]. cbn. now rewrite IH.
Qed.

Lemma removed_send_events net msg snapshot :
  removed (map (send_event net msg) snapshot) = [].
Proof.
  unfold removed.
  induction snapshot as [|ws rest IH]; [reflexivity|].
  cbn. unfold send_event at 1. destruct (net ws); cbn; exact IH.
Qed.
End Registry.

(** * The manager, call by call *)

Section WorldRelations.
Import ManagerSpec BroadcastSpec.
Context (P : world -> world -> Prop).
Hypothesis P_refl : forall w, P w w.
Hypothesis P_trans : forall w1 w2 w3, P w1 w2 -> P w2 w3 -> P w1 w3.

Lemma preserves_ret {A} (a : A) : preserves P (mret a).
Proof using P_refl. intros w. apply P_refl. Qed.

Lemma preserves_bind {A B} (m : M A) (k : A -> M B) :
  preserves P m -> (forall a, preserves P (k a)) -> preserves P (m ≫= k).
Proof using P_trans.
  intros Hm Hk w. rewrite bind_run. specialize (Hm w).
  destruct (m w) as [[e|a] w']; cbn in *; [exact Hm|].
  eapply P_trans; [exact Hm|apply Hk].
Qed.

Lemma preserves_for_each {A} (body : A -> M unit) (l : list A) :
  (forall x, preserves P (body x)) -> preserves P (for_each body l).
Proof using P_refl P_trans.
  intros Hbody. induction l as [|x l IH]; [apply preserves_ret|].
  cbn [for_each]. apply preserves_bind; [apply Hbody|intros _; exact IH].
Qed.
End WorldRelations.

Section Manager.
Import WebsocketManager ManagerSpec BroadcastSpec.

Lemma after_events_trace evs w :
  with_trace (fun t => t ++ evs) w = after_events evs [] w.
Proof. destruct w. unfold with_trace, after_events. cbn. now rewrite app_nil_r. Qed.

Lemma after_events_logs entries w :
  with_logs (fun l => l ++ entries) w = after_events [] entries w.
Proof. destruct w. unfold with_logs, after_events. cbn. now rewrite app_nil_r. Qed.

Lemma after_events_again evs1 es1 evs2 es2 w :
  after_events evs2 es2 (after_events evs1 es1 w) =
  after_events (evs1 ++ evs2) (es1 ++ es2) w.
Proof. unfold after_events. cbn. now rewrite !app_assoc. Qed.

Lemma settled_refl w : settled w w.
Proof. unfold settled. auto. Qed.

Lemma settled_trans w1 w2 w3 : settled w1 w2 -> settled w2 w3 -> settled w1 w3.
Proof. unfold settled. intros (H1 & H2 & H3) (H4 & H5 & H6). repeat split; [auto|congruence..]. Qed.

Lemma only_removals_refl w : only_removals w w.
Proof. exists []. now rewrite app_nil_r. Qed.

Lemma only_removals_trans w1 w2 w3 :
  only_removals w1 w2 -> only_removals w2 w3 -> only_removals w1 w3.
Proof.
  intros (e1 & H1 & T1) (e2 & H2 & T2). exists (e1 ++ e2). split.
  - now rewrite H2, H1, app_assoc.
  - now rewrite targets_app, T1, T2.
Qed.

(** ** [start_monitoring] and [stop_monitoring] *)

Lemma start_monitoring_active w :
  is_monitoring (manager w) = true ->
  start_monitoring w =
  (inr tt, with_logs (fun l => l ++ [(INFO, "Wallet monitoring is already running.")]) w).
Proof. intros H. unfold start_monitoring. run_M. now rewrite H. Qed.

Lemma stop_monitoring_inactive w :
  is_monitoring (manager w) = false ->
  stop_monitoring w =
  (inr tt, with_logs (fun l => l ++ [(INFO, "Wallet monitoring is not active.")]) w).
Proof. intros H. unfold stop_monitoring. run_M. now rewrite H. Qed.



(** ** [connect] and [disconnect] *)

Lemma connect_spec uuid4 ws w :
  let w' := snd (connect uuid4 ws w) in
  fst (connect uuid4 ws w) = inr uuid4 /\
  active_connections (manager w') = dict_set uuid4 ws (active_connections (manager w)) /\
  monitoring_state w' = monitoring_state w /\
  trace w' = trace w /\ db w' = db w.
Proof.
  unfold connect, monitoring_state. run_M. destruct w as [d m lg tr rn sp ct]. cbn.
  repeat split.
Qed.

Lemma disconnect_spec ws w :
  let w' := snd (disconnect ws w) in
  let conns := active_connections (manager w) in
  fst (disconnect ws w) = inr tt /\
  active_connections (manager w') = drop ws conns /\
  trace w' = trace w ++ match entry_of ws conns with
                        | Some e => [unregistered e]
                        | None => []
                        end /\
  db w' = db w /\ spawned w' = spawned w /\
  tracked_wallets (manager w') = tracked_wallets (manager w) /\
  (drop ws conns <> [] -> monitoring_state w' = monitoring_state w) /\
  (drop ws conns = [] -> is_monitoring (manager w') = false) /\
  (drop ws conns = [] -> is_monitoring (manager w) = true ->
   monitor_task (manager w') = None) /\
  (is_monitoring (manager w') = true -> is_monitoring (manager w) = true).
Proof.
  intros w' conns. subst w' conns.
  unfold disconnect, stop_monitoring, cancel_and_await, drop, monitoring_state. run_M.
  destruct w as [d [ac tw im mt ldr dis lps tc] lg tr rn sp ct]. cbn.
  rewrite find_client_entry.
  destruct (entry_of ws ac) as [[cid v]|] eqn:E; cbn.
  - pose proof (entry_of_Some _ _ _ E) as [_ Hv]. cbn in Hv. subst v.
    destruct (dict_del cid ac) eqn:E2; cbn.
    + destruct im; cbn.
      * destruct mt as [t|]; cbn.
        -- destruct (bool_decide (ct = Some t)); cbn;
             [|destruct (bool_decide (t ∈ rn)); cbn]; split_run.
        -- split_run.
      * split_run.
    + split_run.
  - rewrite app_nil_r. destruct ac eqn:E2; cbn.
    + destruct im; cbn.
      * destruct mt as [t|]; cbn.
        -- destruct (bool_decide (ct = Some t)); cbn;
             [|destruct (bool_decide (t ∈ rn)); cbn]; split_run.
        -- split_run.
      * split_run.
    + split_run.
Qed.
End Manager.

(** * Sending and pruning *)

Section Broadcast.
Import WebsocketManager ManagerSpec BroadcastSpec.

Lemma guarded_send_run net ws msg w :
  guarded_send net ws msg w =
  match net ws with
  | None => (inr false, after_events [Delivered ws msg] [] w)
  | Some (RuntimeError s) =>
      (inr true,
       after_events [SendFailed ws (RuntimeError s)]
         [(WARNING, "Could not send to WebSocket (likely closed)")] w)
  | Some e => (inl e, after_events [SendFailed ws e] [] w)
  end.
Proof.
  unfold guarded_send, send_text. run_M.
  destruct (net ws) as [[]|]; run_M;
    rewrite ?after_events_logs, ?after_events_trace, ?after_events_again;
    reflexivity.
Qed.

(** The send pass: its result and the world it leaves. *)
Lemma send_all_run net msg snapshot : forall w,
  exists entries,
    send_all net msg snapshot w =
    (send_all_result net snapshot,
     after_events (map (send_event net msg) (attempted net snapshot)) entries w).
Proof.
  induction snapshot as [|ws rest IH]; intros w.
  - exists []. cbn. destruct w. unfold after_events. cbn. now rewrite !app_nil_r.
  - cbn [send_all]. rewrite bind_run, guarded_send_run.
    assert (Hev : send_event net msg ws =
                  match net ws with
                  | Some e => SendFailed ws e
                  | None => Delivered ws msg
                  end) by reflexivity.
    cbn [send_all_result attempted]. unfold breaks.
    destruct (net ws) as [e|] eqn:Enet.
    + destruct e; cbn [map]; rewrite Hev; try (eexists; reflexivity).
      cbv beta iota. rewrite bind_run.
      match goal with |- context [send_all net msg rest ?w1] =>
        destruct (IH w1) as [entries ->] end.
      rewrite after_events_again. eexists.
      destruct (send_all_result net rest); reflexivity.
    + cbn [map]. rewrite Hev. cbv beta iota. rewrite bind_run.
      match goal with |- context [send_all net msg rest ?w1] =>
        destruct (IH w1) as [entries ->] end.
      rewrite after_events_again. eexists.
      destruct (send_all_result net rest); reflexivity.
Qed.

Lemma disconnect_settled ws : preserves settled (disconnect ws).
Proof.
  intros w. destruct (disconnect_spec ws w) as (_ & _ & _ & Hdb & Hsp & _ & _ & _ & _ & Hmon).
  unfold settled. auto.
Qed.

Lemma disconnect_only_removals ws : preserves only_removals (disconnect ws).
Proof.
  intros w. destruct (disconnect_spec ws w) as (_ & _ & Htr & _).
  eexists. split; [exact Htr|]. destruct (entry_of ws _); reflexivity.
Qed.

Lemma disconnect_tracked ws :
  preserves (fun w w' => tracked_wallets (manager w') = tracked_wallets (manager w))
    (disconnect ws).
Proof. intros w. apply disconnect_spec. Qed.

(** The second loop of [broadcast] in a registry with distinct keys that
    it does not empty: the entries of [prune] go, nothing else changes. *)
Lemma prune_run gone : forall w,
  NoDup (dict_keys (active_connections (manager w))) ->
  snd (prune gone (active_connections (manager w))) <> [] ->
  let w' := snd (for_each disconnect gone w) in
  active_connections (manager w') = snd (prune gone (active_connections (manager w))) /\
  trace w' = trace w ++ map unregistered (fst (prune gone (active_connections (manager w)))) /\
  monitoring_state w' = monitoring_state w.
Proof.
  induction gone as [|ws gone IH]; intros w Hnd Hleft.
  - cbn. now rewrite app_nil_r.
  - cbn [for_each]. rewrite bind_run.
    destruct (disconnect_spec ws w)
      as (Hret & Hconns & Htr & _ & _ & _ & Hkeep & _).
    rewrite (drop_without _ _ Hnd) in Hconns, Hkeep.
    destruct (disconnect ws w) as [[e|[]] w1]; cbn [fst snd] in *; [discriminate|].
    cbn [prune] in Hleft |- *.
    destruct (prune gone (without_socket ws (active_connections (manager w))))
      as [out kept] eqn:Ep.
    cbn [fst snd] in Hleft |- *.
    assert (Hne : without_socket ws (active_connections (manager w)) <> []).
    { intros Hnil. rewrite Hnil, prune_nil in Ep. inversion Ep; subst. now apply Hleft. }
    destruct (IH w1) as (Hc & Ht & Hm).
    + rewrite Hconns. now apply without_socket_NoDup.
    + rewrite Hconns, Ep. exact Hleft.
    + rewrite Hconns, Ep in Hc, Ht. cbn [fst snd] in Hc, Ht.
      split; [exact Hc|]. split.
      * rewrite Ht, Htr, <- app_assoc. f_equal.
        destruct (entry_of ws (active_connections (manager w))); reflexivity.
      * rewrite Hm. now apply Hkeep.
Qed.

Lemma settled_after_events evs entries w : settled w (after_events evs entries w).
Proof. unfold settled. cbn. auto. Qed.

Lemma settled_logged entries w w' :
  settled w w' -> settled w (with_logs (fun l => l ++ entries) w').
Proof. unfold settled. cbn. auto. Qed.

(** [broadcast] with any sockets: the sends reach the snapshot up to the
    first send that breaks, removals follow, monitoring is never
    switched on. *)
Lemma broadcast_general net msg w :
  let w' := snd (broadcast net msg w) in
  let snapshot := dict_values (active_connections (manager w)) in
  (exists evs,
     trace w' = trace w ++ map (send_event net msg) (attempted net snapshot) ++ evs /\
     targets evs = []) /\
  settled w w' /\
  tracked_wallets (manager w') = tracked_wallets (manager w).
Proof.
  unfold broadcast. rewrite bind_run. cbn [gets].
  rewrite bind_run.
  destruct (send_all_run net msg (dict_values (active_connections (manager w))) w)
    as [entries ->].
  set (sends := map (send_event net msg)
                  (attempted net (dict_values (active_connections (manager w))))).
  set (w1 := after_events sends entries w).
  destruct (send_all_result net (dict_values (active_connections (manager w))))
    as [e|gone]; cbn [snd].
  - split; [exists []; cbn; now rewrite app_nil_r|].
    split; [apply settled_after_events|reflexivity].
  - rewrite bind_run.
    pose proof (preserves_for_each settled settled_refl settled_trans disconnect gone
                  disconnect_settled w1) as Hs.
    pose proof (preserves_for_each only_removals only_removals_refl only_removals_trans
                  disconnect gone disconnect_only_removals w1) as (evs & Ht & Htg).
    pose proof (preserves_for_each _ (fun _ => eq_refl)
                  (fun _ _ _ H1 H2 => eq_trans H2 H1)
                  disconnect gone disconnect_tracked w1) as Htw.
    cbv beta in Htw.
    assert (Hbase : (exists evs0, trace (snd (for_each disconnect gone w1)) =
                       trace w ++ sends ++ evs0 /\ targets evs0 = []) /\
                    settled w (snd (for_each disconnect gone w1)) /\
                    tracked_wallets (manager (snd (for_each disconnect gone w1))) =
                    tracked_wallets (manager w)).
    { split; [exists evs; split; [rewrite Ht; cbn; now rewrite app_assoc|exact Htg]|].
      split; [eapply settled_trans; [apply settled_after_events|exact Hs]|exact Htw]. }
    destruct (for_each disconnect gone w1) as [[e|[]] w2]; cbn [snd] in *; [exact Hbase|].
    destruct gone; cbn [snd mret M_ret ret log modify]; [exact Hbase|].
    destruct Hbase as (Hb1 & Hb2 & Hb4).
    split; [exact Hb1|]. split; [now apply settled_logged|exact Hb4].
Qed.

(** [broadcast] when every failing send raises [RuntimeError], the keys
    are distinct and some socket takes the frame. *)
Lemma broadcast_exact net msg w :
  let conns := active_connections (manager w) in
  let snapshot := dict_values conns in
  NoDup (dict_keys conns) ->
  (forall ws, In ws snapshot -> breaks net ws = false) ->
  List.filter (fun e => negb (closed net (snd e))) conns <> [] ->
  let w' := snd (broadcast net msg w) in
  fst (broadcast net msg w) = inr tt /\
  active_connections (manager w') = List.filter (fun e => negb (closed net (snd e))) conns /\
  trace w' = trace w ++ map (send_event net msg) snapshot
                     ++ map unregistered (List.filter (fun e => closed net (snd e)) conns) /\
  monitoring_state w' = monitoring_state w.
Proof.
  intros conns snapshot Hnd Hno Hleft. subst conns snapshot.
  unfold broadcast. rewrite bind_run. cbn [gets]. rewrite bind_run.
  destruct (send_all_run net msg (dict_values (active_connections (manager w))) w)
    as [entries ->].
  destruct (attempted_all net _ Hno) as [-> ->].
  set (w1 := after_events _ entries w).
  rewrite bind_run.
  pose proof (prune_filter (closed net) (active_connections (manager w))) as Hp.
  destruct (prune_run (List.filter (closed net) (dict_values (active_connections (manager w)))) w1)
    as (Hc & Ht & Hm).
  { exact Hnd. }
  { cbn [w1 after_events manager]. rewrite Hp. exact Hleft. }
  cbn [w1 after_events manager trace] in Hc, Ht. rewrite Hp in Hc, Ht. cbn [fst snd] in Hc, Ht.
  pose proof (for_each_returns disconnect
                (List.filter (closed net) (dict_values (active_connections (manager w))))
                (fun x w0 => proj1 (disconnect_spec x w0)) w1) as Hret.
  destruct (for_each disconnect _ w1) as [[e|[]] w2]; cbn [fst snd] in *; [discriminate|].
  destruct (List.filter (closed net) (dict_values (active_connections (manager w))));
    cbn; (split; [reflexivity|]); (split; [exact Hc|]);
    (split; [rewrite Ht; now rewrite app_assoc|exact Hm]).
Qed.







End Broadcast.

(** * Claims on the registry, the broadcaster and the monitoring lifecycle *)

(** C1, counterexample.  [broadcast] catches [RuntimeError] only.  With two
    connections of which the first raises another exception on send, one
    of two sends fails, yet the exception reaches the caller of
    [broadcast], no connection is removed and the second connection
    receives nothing. *)
Lemma C1_other_send_failure_escapes :
  let net := ManagerExamples.socket_10_disconnects in
  let w := ManagerExamples.two_clients in
  let snapshot := dict_values (active_connections (manager w)) in
  let run := WebsocketManager.broadcast net (Text "tick") w in
  snapshot = [10; 11]%nat /\
  List.filter (fun ws => negb (ManagerSpec.delivers net ws)) snapshot = [10%nat] /\
  fst run = inl (OtherException "WebSocketDisconnect") /\
  active_connections (manager (snd run)) = active_connections (manager w) /\
  trace (snd run) = [SendFailed 10 (OtherException "WebSocketDisconnect")] /\
  ManagerSpec.delivered (trace (snd run)) = [].
Proof.
  repeat split.
Qed.

(** C1, amended.  Take a registry with distinct ids holding N connections
    of which M < N raise [RuntimeError] on send and the others take the
    frame.  [broadcast] returns normally; it sends once to every connection
    of the snapshot of the registry, in order, and only then removes
    entries: exactly the M entries whose send failed.  The N - M others
    each receive the message, the monitoring state is untouched, and a
    later broadcast sends only to the N - M entries left. *)
Theorem C1_broadcast_prunes_closed_connections
    (net : WebsocketManager.sockets) (msg : message) (w : world) :
  let conns := active_connections (manager w) in
  let snapshot := dict_values conns in
  let failing := List.filter (fun e => ManagerSpec.closed net (snd e)) conns in
  let remaining := List.filter (fun e => negb (ManagerSpec.closed net (snd e))) conns in
  NoDup (dict_keys conns) ->
  (forall ws, In ws snapshot -> ManagerSpec.breaks net ws = false) ->
  (List.length failing < List.length conns)%nat ->
  let run := WebsocketManager.broadcast net msg w in
  fst run = inr tt /\
  (exists evs,
     trace (snd run) = trace w ++ evs /\
     evs = map (ManagerSpec.send_event net msg) snapshot ++ map ManagerSpec.unregistered failing /\
     ManagerSpec.targets evs = snapshot /\
     ManagerSpec.removed evs = failing /\
     ManagerSpec.delivered evs = map (fun e => (snd e, msg)) remaining) /\
  active_connections (manager (snd run)) = remaining /\
  (List.length remaining = List.length conns - List.length failing)%nat /\
  ManagerSpec.monitoring_state (snd run) = ManagerSpec.monitoring_state w /\
  (forall net' msg',
     exists evs',
       trace (snd (WebsocketManager.broadcast net' msg' (snd run))) = trace (snd run) ++ evs' /\
       (forall ws, In ws (ManagerSpec.targets evs') -> In ws (dict_values remaining)) /\
       ((forall ws, In ws (dict_values remaining) -> ManagerSpec.breaks net' ws = false) ->
        ManagerSpec.targets evs' = dict_values remaining)).
Proof.
  intros conns snapshot failing remaining Hnd Hno HM run.
  subst conns snapshot failing remaining run.
  set (conns := active_connections (manager w)) in *.
  pose proof (filter_split_length (fun e => ManagerSpec.closed net (snd e)) conns) as Hlen.
  cbv beta in Hlen.
  assert (Hleft : List.filter (fun e => negb (ManagerSpec.closed net (snd e))) conns <> []).
  { intros Hnil. rewrite Hnil in Hlen. cbn in Hlen. lia. }
  destruct (broadcast_exact net msg w Hnd Hno Hleft) as (Hret & Hconns & Htrace & Hmon).
  fold conns in Hconns, Htrace.
  split; [exact Hret|]. split; [|split; [exact Hconns|split; [lia|split; [exact Hmon|]]]].
  - eexists. split; [exact Htrace|]. split; [reflexivity|].
    split; [|split].
    + now rewrite targets_app, targets_send_events, targets_removals, app_nil_r.
    + now rewrite removed_app, removed_send_events, removed_removals.
    + rewrite delivered_app, delivered_send_events, delivered_removals, app_nil_r.
      clear - Hno. unfold dict_values in *.
      induction conns as [|[c v] rest IH]; [reflexivity|].
      assert (Hv : ManagerSpec.breaks net v = false) by (apply Hno; now left).
      assert (Hrest : forall ws, In ws (map snd rest) -> ManagerSpec.breaks net ws = false)
        by (intros ws Hws; apply Hno; now right).
      specialize (IH Hrest).
      cbn. unfold ManagerSpec.breaks in Hv.
      unfold ManagerSpec.delivers at 1, ManagerSpec.closed at 1.
      destruct (net v) as [[]|]; try discriminate; cbn; rewrite IH; reflexivity.
  - intros net' msg'.
    destruct (broadcast_general net' msg' (snd (WebsocketManager.broadcast net msg w)))
      as ((evs & Ht & Htg) & _).
    rewrite Hconns in Ht.
    eexists. split; [exact Ht|]. split.
    + intros ws. rewrite targets_app, Htg, app_nil_r, targets_send_events.
      apply attempted_incl.
    + intros Hno'. rewrite targets_app, Htg, app_nil_r, targets_send_events.
      apply (attempted_all net' _ Hno').
Qed.

(** Three clients, the second one closed. *)
Lemma C1_broadcast_prunes_closed_connections_witness :
  let run := WebsocketManager.broadcast ManagerExamples.socket_11_closed (Text "tick")
               ManagerExamples.three_clients_monitored in
  fst run = inr tt /\
  active_connections (manager (snd run)) = [(1, 10); (3, 12)]%nat /\
  is_monitoring (manager (snd run)) = true.
Proof.
  intros run.
  destruct (C1_broadcast_prunes_closed_connections
              ManagerExamples.socket_11_closed (Text "tick")
              ManagerExamples.three_clients_monitored)
    as (Hret & _ & Hconns & _ & Hmon & _).
  - apply (bool_decide_unpack _). vm_compute. exact I.
  - intros ws Hws. vm_compute in Hws.
    destruct Hws as [<-|[<-|[<-|[]]]]; reflexivity.
  - vm_compute. lia.
  - split; [exact Hret|]. split; [exact Hconns|].
    apply (f_equal (fun s => fst (fst (fst s)))) in Hmon. exact Hmon.
Defined.




(** C9, the code at the failing input.  Monitoring is started (task 0), one
    client connects, and the loop of task 0 broadcasts to its closed socket:
    the pruning empties the registry and reaches [stop_monitoring] inside
    task 0, which cancels and awaits itself.  The flag is off and the
    manager has dropped its reference, but task 0 is still alive.  A
    [start_monitoring] before task 0 tests the flag again creates task 1;
    task 0 then finds the flag on and stays: two monitor loops run.  When
    the last client is removed from its own endpoint instead, the task is
    cancelled from outside and no task is left. *)
Lemma C9_second_loop_after_self_stop :
  let w1 := WebsocketManager.run ManagerExamples.loop_prunes_last_client
              (WebsocketManager.initial_world "M") in
  let w2 := WebsocketManager.run
              [WebsocketManager.StartMonitoring; WebsocketManager.LoopCheck 0] w1 in
  let w3 := WebsocketManager.run
              [WebsocketManager.StartMonitoring; WebsocketManager.Connect 1 10;
               WebsocketManager.Disconnect 10]
              (WebsocketManager.initial_world "M") in
  (active_connections (manager w1) = [] /\
   is_monitoring (manager w1) = false /\
   monitor_task (manager w1) = None /\
   running w1 = [0%nat]) /\
  (is_monitoring (manager w2) = true /\
   monitor_task (manager w2) = Some 1%nat /\
   running w2 = [0%nat; 1%nat] /\
   ~ (List.length (running w2) <= 1)%nat) /\
  (is_monitoring (manager w3) = false /\ running w3 = []).
Proof.
  repeat split; try (vm_compute; reflexivity).
  intros H. vm_compute in H. lia.
Qed.

(** * The feed generator *)

Section Feed.
Import WebsocketManager.

Lemma random_choice_In {A} (draw : nat) (seq : list A) :
  seq <> [] -> exists x, random_choice draw seq = Some x /\ In x seq.
Proof.
  intros Hne. unfold random_choice.
  assert (Hlt : (draw mod List.length seq < List.length seq)%nat).
  { apply Nat.mod_upper_bound. destruct seq; [congruence|discriminate]. }
  destruct (nth_error seq (draw mod List.length seq)) as [x|] eqn:E.
  - exists x. split; [reflexivity|]. eapply nth_error_In, E.
  - apply nth_error_None in E. lia.
Qed.

Lemma random_uniform_bounds (r : Q) :
  (0 <= r)%Q -> (r < 1)%Q ->
  (10 <= random_uniform 10 1000 r)%Q /\ (random_uniform 10 1000 r < 1000)%Q.
Proof. unfold random_uniform. intros H0 H1. split; lra. Qed.

Lemma round_half_even_floor (x : Q) :
  round_half_even x = Qfloor x \/
  (round_half_even x = (Qfloor x + 1)%Z /\ (inject_Z (Qfloor x) < x)%Q).
Proof.
  unfold round_half_even.
  destruct (Qltb (x - inject_Z (Qfloor x)) (1 # 2)) eqn:E; [now left|].
  apply Qltb_ge in E.
  assert (Hgt : (inject_Z (Qfloor x) < x)%Q) by lra.
  destruct (Qltb (1 # 2) (x - inject_Z (Qfloor x))); [now right|].
  destruct (Z.even (Qfloor x)); [now left|now right].
Qed.

Lemma round_half_even_lower (a : Z) (x : Q) :
  (inject_Z a <= x)%Q -> (a <= round_half_even x)%Z.
Proof.
  intros H. apply Qfloor_resp_le in H. rewrite Qfloor_Z in H.
  destruct (round_half_even_floor x) as [->|[-> _]]; lia.
Qed.

Lemma round_half_even_upper (b : Z) (x : Q) :
  (x <= inject_Z b)%Q -> (round_half_even x <= b)%Z.
Proof.
  intros H.
  assert (Hf : (Qfloor x <= b)%Z).
  { apply Qfloor_resp_le in H. now rewrite Qfloor_Z in H. }
  destruct (round_half_even_floor x) as [->|[-> Hgt]]; [exact Hf|].
  assert (Hlt : (inject_Z (Qfloor x) < inject_Z b)%Q) by lra.
  rewrite <- Zlt_Qlt in Hlt. lia.
Qed.

(** Rounding to four digits keeps a value within integer bounds. *)
Lemma py_round_bounds (a b : Z) (x : Q) :
  (inject_Z a <= x)%Q -> (x <= inject_Z b)%Q ->
  (inject_Z a <= py_round x 4)%Q /\ (py_round x 4 <= inject_Z b)%Q.
Proof.
  intros Ha Hb. unfold py_round.
  change (10 ^ Z.of_nat 4)%Z with 10000%Z.
  set (k := round_half_even (x * inject_Z 10000)).
  assert (Hk1 : (a * 10000 <= k)%Z).
  { apply round_half_even_lower. rewrite inject_Z_mult.
    apply Qmult_le_compat_r; [exact Ha|discriminate]. }
  assert (Hk2 : (k <= b * 10000)%Z).
  { apply round_half_even_upper. rewrite inject_Z_mult.
    apply Qmult_le_compat_r; [exact Hb|discriminate]. }
  rewrite Zle_Qle, inject_Z_mult in Hk1, Hk2.
  split.
  - apply Qle_shift_div_l; [reflexivity|exact Hk1].
  - apply Qle_shift_div_r; [reflexivity|exact Hk2].
Qed.

(** The generator writes its record once when the insertion goes
    through, whatever the sockets do. *)
Lemma generate_inserts rnd net w tx :
  tracked_wallets (manager w) <> [] ->
  mock_transaction rnd (manager w) = Some tx ->
  let run := generate_and_broadcast_mock_transaction rnd true net w in
  fst run = inr tt /\
  realtime_transactions (db (snd run)) = realtime_transactions (db w) ++ [tx].
Proof.
  intros Hne Hmock. unfold generate_and_broadcast_mock_transaction,
    DbService.insert_realtime_transaction.
  rewrite bind_run. cbn [gets].
  destruct (tracked_wallets (manager w)) eqn:Etw; [congruence|].
  rewrite Hmock. run_M.
  match goal with |- context [broadcast net ?msg ?w1] =>
    pose proof (broadcast_general net msg w1) as (_ & (_ & _ & Hdb) & _);
    destruct (broadcast net msg w1) as [[e|[]] w2] end;
    cbn [fst snd] in *; (split; [reflexivity|]); cbn; rewrite Hdb; reflexivity.
Qed.
End Feed.

(** C8, counterexample.  The amount is [round(random.uniform(10, 1000), 4)].
    With [random.random()] equal to 1 - 2^-53 the uniform value is below
    1000 by less than 0.00005 and rounds to 1000, which is outside the
    half-open interval. *)
Lemma C8_amount_can_be_1000 :
  let rnd := ManagerExamples.draws_near_one in
  (0 <= WebsocketManager.uniform_draw rnd)%Q /\
  (WebsocketManager.uniform_draw rnd < 1)%Q /\
  (WebsocketManager.random_uniform 10 1000 (WebsocketManager.uniform_draw rnd) < 1000)%Q /\
  exists tx,
    WebsocketManager.mock_transaction rnd ManagerExamples.tracks_W1 = Some tx /\
    (amount tx == 1000)%Q /\
    ~ (amount tx < 1000)%Q.
Proof.
  split; [discriminate|]. split; [reflexivity|]. split; [reflexivity|].
  eexists. split; [vm_compute; reflexivity|]. split.
  - reflexivity.
  - cbn [amount]. intros H. vm_compute in H. discriminate H.
Qed.

(** C8, amended.  With a non-empty tracked-wallet set and a
    [random.random()] in [0, 1), the generator builds one record: its wallet
    is a tracked wallet (the wallet W1 when W1 alone is tracked), its action
    is buy or sell, its amount lies in the closed interval [10, 1000], and
    its protocol is a value of the program-id table, hence one of Jupiter,
    Raydium, Orca, Saber, Serum.  When the insertion goes through, the
    transaction collection grows by exactly this record. *)
Theorem C8_mock_transaction_shape (rnd : WebsocketManager.draws) (m : WalletManager) :
  tracked_wallets m <> [] ->
  (0 <= WebsocketManager.uniform_draw rnd)%Q ->
  (WebsocketManager.uniform_draw rnd < 1)%Q ->
  exists tx,
    WebsocketManager.mock_transaction rnd m = Some tx /\
    In (wallet tx) (dict_keys (tracked_wallets m)) /\
    (forall W1 t, tracked_wallets m = [(W1, t)] -> wallet tx = W1) /\
    (action_type tx = "buy" \/ action_type tx = "sell") /\
    (10 <= amount tx)%Q /\ (amount tx <= 1000)%Q /\
    (exists program_id, In (program_id, protocol tx) WebsocketManager.PROTOCOL_PROGRAM_IDS) /\
    In (protocol tx) ["Jupiter"; "Raydium"; "Orca"; "Saber"; "Serum"] /\
    (forall (w : world) (net : WebsocketManager.sockets),
       manager w = m ->
       let run := WebsocketManager.generate_and_broadcast_mock_transaction rnd true net w in
       fst run = inr tt /\
       realtime_transactions (db (snd run)) = realtime_transactions (db w) ++ [tx]).
Proof.
  intros Hne H0 H1.
  destruct (random_choice_In (WebsocketManager.wallet_draw rnd) (dict_keys (tracked_wallets m)))
    as (wa & Hwa & Hwin).
  { destruct (tracked_wallets m); [congruence|discriminate]. }
  destruct (random_choice_In (WebsocketManager.action_draw rnd) ["buy"; "sell"])
    as (ac & Hac & Hacin); [discriminate|].
  destruct (random_choice_In (WebsocketManager.protocol_draw rnd)
              (dict_values WebsocketManager.PROTOCOL_PROGRAM_IDS))
    as (pr & Hpr & Hprin); [discriminate|].
  destruct (random_uniform_bounds _ H0 H1) as [Hu0 Hu1].
  destruct (py_round_bounds 10 1000
              (WebsocketManager.random_uniform 10 1000 (WebsocketManager.uniform_draw rnd)))
    as [Hr0 Hr1]; [exact Hu0|now apply Qlt_le_weak|].
  assert (Hmock : WebsocketManager.mock_transaction rnd m =
                  Some {| signature := WebsocketManager.signature_draw rnd;
                          timestamp := WebsocketManager.clock rnd;
                          wallet := wa;
                          tx_token_address := TOKEN_CONTRACT m;
                          amount := py_round (WebsocketManager.random_uniform 10 1000
                                                (WebsocketManager.uniform_draw rnd)) 4;
                          action_type := ac;
                          protocol := pr;
                          block_time := WebsocketManager.clock rnd;
                          slot := WebsocketManager.random_randint 100000000 200000000
                                    (WebsocketManager.slot_draw rnd);
                          from_address := None; to_address := None;
                          pre_balance := None; post_balance := None |}).
  { unfold WebsocketManager.mock_transaction. rewrite Hwa, Hac, Hpr. reflexivity. }
  eexists. split; [exact Hmock|]. cbn [wallet action_type amount protocol].
  split; [exact Hwin|]. split; [|split; [|split; [exact Hr0|split; [exact Hr1|split; [|split]]]]].
  - intros W1 t Hone. rewrite Hone in Hwin. cbn in Hwin. destruct Hwin as [<-|[]]. reflexivity.
  - cbn in Hacin. destruct Hacin as [<-|[<-|[]]]; auto.
  - unfold dict_values in Hprin. apply in_map_iff in Hprin.
    destruct Hprin as ([pid name] & <- & Hin). exists pid. exact Hin.
  - cbn in Hprin. cbn.
    repeat (destruct Hprin as [<-|Hprin]; [tauto|]). destruct Hprin.
  - intros w net <-. now apply generate_inserts.
Qed.

(** W1 alone is tracked: the record is for W1. *)
Lemma C8_mock_transaction_shape_witness :
  exists tx,
    WebsocketManager.mock_transaction ManagerExamples.draws_half ManagerExamples.tracks_W1
      = Some tx /\
    wallet tx = "W1" /\ (10 <= amount tx)%Q /\ (amount tx <= 1000)%Q.
Proof.
  destruct (C8_mock_transaction_shape ManagerExamples.draws_half ManagerExamples.tracks_W1)
    as (tx & Hmock & _ & Hone & _ & Hlo & Hhi & _).
  - discriminate.
  - discriminate.
  - reflexivity.
  - exists tx. split; [exact Hmock|]. split; [|split; [exact Hlo|exact Hhi]].
    eapply Hone. reflexivity.
Defined.
(** * Further properties of the Chain Query Client *)

Section RpcLoop.
Import SolanaRpc RpcSpec RpcTiming.
Context {R : Type}.
Variable net : nat -> response R.
Variable method : string.
Variable retries : Z.
Variable initial_delay : Q.

Local Abbreviation loop := (rpc_loop net method retries initial_delay).

(** A result that the loop returns is the reply of its last request, and
    the first reply that is a result. *)
Lemma rpc_loop_result rem : forall a r,
  fst (loop rem a) = inr r ->
  exists k, (k < rem)%nat /\
    net (a + k) = JsonResult r /\
    (forall i r', (i < k)%nat -> net (a + i) <> JsonResult r') /\
    snd (loop rem a) = retry_trace initial_delay a k ++ [Posted (a + k)].
Proof.
  induction rem as [|rem IH]; intros a r Hres; [discriminate|].
  assert (Hagain : fst (loop rem (S a)) = inr r ->
            (forall r', net a <> JsonResult r') ->
            exists k, (k < S rem)%nat /\
              net (a + k) = JsonResult r /\
              (forall i r', (i < k)%nat -> net (a + i) <> JsonResult r') /\
              Posted a :: Slept (backoff initial_delay a) :: snd (loop rem (S a)) =
              retry_trace initial_delay a k ++ [Posted (a + k)]).
  { intros H Hno. destruct (IH (S a) r H) as (k & Hk & Hnet & Hbefore & Htr).
    exists (S k). rewrite Nat.add_succ_r. split; [lia|]. split; [exact Hnet|]. split.
    - intros [|i] r' Hi; [rewrite Nat.add_0_r; apply Hno|].
      rewrite Nat.add_succ_r. apply Hbefore. lia.
    - rewrite retry_trace_S, Htr. reflexivity. }
  revert Hres. cbn [rpc_loop].
  destruct (net a) as [|e0|err|r0] eqn:Hnet.
  - destruct (loop rem (S a)) eqn:E. cbn [fst snd] in *. intros H.
    apply Hagain; [exact H|discriminate].
  - destruct (Z.of_nat a <? retries - 1)%Z; [|discriminate].
    destruct (loop rem (S a)) eqn:E. cbn [fst snd] in *. intros H.
    apply Hagain; [exact H|discriminate].
  - destruct (Z.of_nat a <? retries - 1)%Z; [|discriminate].
    destruct (loop rem (S a)) eqn:E. cbn [fst snd] in *. intros H.
    apply Hagain; [exact H|discriminate].
  - cbn. intros H. injection H as ->. exists 0%nat. rewrite Nat.add_0_r.
    split; [lia|]. split; [exact Hnet|]. split; [intros i r' Hi; lia|reflexivity].
Qed.

(** The sum of the first [k] delays from attempt [a] on. *)
Lemma backoff_sum a k :
  (fold_right Qplus 0 (map (backoff initial_delay) (seq a k)) ==
   initial_delay * inject_Z (2 ^ Z.of_nat a) * (inject_Z (2 ^ Z.of_nat k) - 1))%Q.
Proof.
  revert a. induction k as [|k IH]; intros a.
  - cbn [seq map fold_right]. change (2 ^ Z.of_nat 0)%Z with 1%Z.
    change (inject_Z 1) with 1%Q. ring.
  - cbn [seq map fold_right]. rewrite IH. unfold backoff.
    rewrite !Nat2Z.inj_succ, !Z.pow_succ_r by lia.
    rewrite !inject_Z_mult. change (inject_Z 2) with 2%Q. ring.
Qed.

Lemma pow2_le (k n : nat) : (k <= n)%nat -> (2 ^ Z.of_nat k <= 2 ^ Z.of_nat n)%Z.
Proof. intros H. apply Z.pow_le_mono_r; lia. Qed.
End RpcLoop.



(** A value that [call_solana_rpc] returns is the result of the last
    request it posted, no earlier reply was a result, and the call slept
    once after each of the earlier requests: the call never returns a
    value that the node did not send, and never asks again once it has an
    answer. *)
Theorem call_solana_rpc_returns_first_result (R : Type) (net : nat -> SolanaRpc.response R)
    (method : string) (retries : Z) (initial_delay : Q) (r : R) :
  let run := SolanaRpc.call_solana_rpc net method retries initial_delay in
  fst run = inr r ->
  exists k, (Z.of_nat k < retries)%Z /\
    net k = SolanaRpc.JsonResult r /\
    RpcTiming.no_result_before net k /\
    snd run = RpcSpec.retry_trace initial_delay 0 k ++ [SolanaRpc.Posted k] /\
    SolanaRpc.attempts_of (snd run) = S k /\
    SolanaRpc.delays_of (snd run) = map (SolanaRpc.backoff initial_delay) (seq 0 k).
Proof.
  intros run Hres. subst run. unfold SolanaRpc.call_solana_rpc in *.
  destruct (rpc_loop_result net method retries initial_delay _ 0 r Hres)
    as (k & Hk & Hnet & Hbefore & Htr).
  exists k. cbn [Nat.add] in *. split; [lia|]. split; [exact Hnet|].
  split; [exact Hbefore|]. split; [exact Htr|]. rewrite Htr. split.
  - unfold SolanaRpc.attempts_of. rewrite List.filter_app, List.length_app.
    fold (SolanaRpc.attempts_of (RpcSpec.retry_trace initial_delay 0 k)).
    rewrite attempts_of_retry_trace. cbn. lia.
  - rewrite delays_of_app, delays_of_retry_trace. cbn. now rewrite app_nil_r.
Qed.

(** A rate limit, an RPC error, then the answer. *)
Lemma call_solana_rpc_returns_first_result_witness :
  exists k, (Z.of_nat k < 3)%Z /\
    SolanaRpc.script
      [SolanaRpc.Status429;
       SolanaRpc.JsonError {| SolanaRpc.err_code := None; SolanaRpc.err_message := None |};
       SolanaRpc.JsonResult 7%Z] k = SolanaRpc.JsonResult 7%Z /\
    SolanaRpc.attempts_of
      (snd (SolanaRpc.call_solana_rpc
              (SolanaRpc.script
                 [SolanaRpc.Status429;
                  SolanaRpc.JsonError {| SolanaRpc.err_code := None;
                                         SolanaRpc.err_message := None |};
                  SolanaRpc.JsonResult 7%Z]) "getSlot" 3 5)) = S k.
Proof.
  destruct (call_solana_rpc_returns_first_result Z
              (SolanaRpc.script
                 [SolanaRpc.Status429;
                  SolanaRpc.JsonError {| SolanaRpc.err_code := None;
                                         SolanaRpc.err_message := None |};
                  SolanaRpc.JsonResult 7%Z]) "getSlot" 3 5 7%Z eq_refl)
    as (k & Hk & Hnet & _ & _ & Hat & _).
  exists k. split; [exact Hk|]. split; [exact Hnet|exact Hat].
Defined.

(** The time slept by a call is [initial_delay * (2^k - 1)] for the [k]
    sleeps it makes; with a non-negative initial delay this is at most
    [initial_delay * (2^retries - 1)], which is 35 seconds for the default
    three attempts of five seconds. *)
Theorem call_solana_rpc_total_sleep (R : Type) (net : nat -> SolanaRpc.response R)
    (method : string) (retries : Z) (initial_delay : Q) :
  (0 <= initial_delay)%Q ->
  let run := SolanaRpc.call_solana_rpc net method retries initial_delay in
  let k := List.length (SolanaRpc.delays_of (snd run)) in
  (RpcTiming.total_sleep (snd run) == initial_delay * (inject_Z (2 ^ Z.of_nat k) - 1))%Q /\
  (RpcTiming.total_sleep (snd run)
   <= initial_delay * (inject_Z (2 ^ Z.of_nat (Z.to_nat retries)) - 1))%Q /\
  (retries = 3%Z -> (initial_delay == 5)%Q -> (RpcTiming.total_sleep (snd run) <= 35)%Q).
Proof.
  intros Hd run k. subst run k. unfold SolanaRpc.call_solana_rpc, RpcTiming.total_sleep.
  destruct (rpc_loop_bounds net method retries initial_delay (Z.to_nat retries) 0)
    as (k & Hk & _ & Hde).
  rewrite Hde, length_map, length_seq.
  assert (Hsum : (fold_right Qplus 0 (map (SolanaRpc.backoff initial_delay) (seq 0 k)) ==
                  initial_delay * (inject_Z (2 ^ Z.of_nat k) - 1))%Q).
  { rewrite backoff_sum. change (2 ^ Z.of_nat 0)%Z with 1%Z.
    change (inject_Z 1) with 1%Q. ring. }
  assert (Hbound : (fold_right Qplus 0 (map (SolanaRpc.backoff initial_delay) (seq 0 k)) <=
                    initial_delay * (inject_Z (2 ^ Z.of_nat (Z.to_nat retries)) - 1))%Q).
  { rewrite Hsum, !(Qmult_comm initial_delay).
    apply Qmult_le_compat_r; [|exact Hd].
    apply Qplus_le_l with (z := 1%Q). ring_simplify.
    rewrite <- Zle_Qle. now apply pow2_le. }
  split; [exact Hsum|]. split; [exact Hbound|].
  intros -> Hfive. eapply Qle_trans; [exact Hbound|].
  rewrite Hfive. vm_compute. discriminate.
Qed.

(** Three rate limits with the defaults: 5 + 10 + 20 seconds. *)
Lemma call_solana_rpc_total_sleep_witness :
  (RpcTiming.total_sleep
     (snd (SolanaRpc.call_solana_rpc (R := Z) (fun _ => SolanaRpc.Status429) "getSlot" 3 5))
   <= 35)%Q.
Proof.
  apply (call_solana_rpc_total_sleep Z (fun _ => SolanaRpc.Status429) "getSlot" 3 5);
    [discriminate|reflexivity|reflexivity].
Defined.



(** The three query helpers never raise.  [get_signatures_for_address]
    returns the list of the reply, the empty list for a reply that is
    [null] or empty, and [None] when the call failed;
    [get_transaction] returns the reply, so that [None] stands both for a
    transaction that is unknown and for a call that failed;
    [get_account_balance] returns the reply, and the integer 0 when the
    call failed.  A failure is logged, and in all cases the database, the
    manager and the sockets are left alone. *)
Theorem rpc_query_helpers_never_raise (w : world) (address : string) :
  (forall (S : Type) (net : nat -> SolanaRpc.response (option (list S))) (limit : Z),
     let run := RpcQueries.get_signatures_for_address net address limit w in
     let reply := fst (SolanaRpc.call_solana_rpc net "getSignaturesForAddress" 3 5) in
     fst run = inr match reply with
                   | inr result => Some (RpcQueries.or_empty result)
                   | inl _ => None
                   end /\
     (reply = inr None \/ reply = inr (Some []) -> run = (inr (Some []), w)) /\
     (fst run = inr None ->
      In (ERROR, "Error getting signatures") (logs (snd run)) /\
      SolanaRpc.attempts_of (snd (SolanaRpc.call_solana_rpc net "getSignaturesForAddress" 3 5))
        = 3%nat) /\
     db (snd run) = db w /\ manager (snd run) = manager w /\ trace (snd run) = trace w) /\
  (forall (T : Type) (net : nat -> SolanaRpc.response (option T)),
     let run := RpcQueries.get_transaction net address w in
     let reply := fst (SolanaRpc.call_solana_rpc net "getTransaction" 3 5) in
     fst run = inr match reply with inr result => result | inl _ => None end /\
     db (snd run) = db w /\ manager (snd run) = manager w /\ trace (snd run) = trace w) /\
  (forall (B : Type) (net : nat -> SolanaRpc.response B),
     let run := RpcQueries.get_account_balance net address w in
     let reply := fst (SolanaRpc.call_solana_rpc net "getBalance" 3 5) in
     fst run = inr match reply with inr result => inl result | inl _ => inr 0%Z end /\
     db (snd run) = db w /\ manager (snd run) = manager w /\ trace (snd run) = trace w).
Proof.
  split; [|split].
  - intros S net limit run reply. subst run reply.
    unfold RpcQueries.get_signatures_for_address. run_M.
    pose proof (rpc_loop_failure_is_late net "getSignaturesForAddress" 3 5 3 0) as Hlate.
    unfold SolanaRpc.call_solana_rpc in *. change (Z.to_nat 3) with 3%nat.
    destruct (SolanaRpc.rpc_loop net "getSignaturesForAddress" 3 5 3 0) as [[e|result] tr];
      cbn [fst snd] in *.
    + split; [reflexivity|]. split; [intros [H|H]; discriminate|].
      split; [|repeat split].
      intros _. split; [cbn; apply in_or_app; right; now left|].
      now apply (Hlate e).
    + split; [reflexivity|]. split; [intros [H|H]; injection H as ->; reflexivity|].
      split; [discriminate|repeat split].
  - intros T net run reply. subst run reply.
    unfold RpcQueries.get_transaction. run_M.
    destruct (SolanaRpc.call_solana_rpc net "getTransaction" 3 5) as [[e|result] tr];
      cbn [fst snd]; repeat split.
  - intros B net run reply. subst run reply.
    unfold RpcQueries.get_account_balance. run_M.
    destruct (SolanaRpc.call_solana_rpc net "getBalance" 3 5) as [[e|result] tr];
      cbn [fst snd]; repeat split.
Qed.

(** The node is unreachable: no signatures, after three requests. *)
Lemma rpc_query_helpers_never_raise_witness :
  let run := RpcQueries.get_signatures_for_address (S := string)
               Examples.network_down "W1" 50 Examples.world0 in
  fst run = inr None /\
  In (ERROR, "Error getting signatures") (logs (snd run)).
Proof.
  intros run. split; [reflexivity|].
  destruct (rpc_query_helpers_never_raise Examples.world0 "W1") as (H & _).
  destruct (H string Examples.network_down 50%Z) as (_ & _ & Hnone & _).
  apply Hnone. reflexivity.
Defined.
(** * Further properties of the Holder Discovery Engine *)

Section Trackers.
Import WalletDiscovery DiscoverySpec.
Variable faults : db_faults.
Variable now : Z.

Lemma upsert_trackers_cons h hs m :
  upsert_trackers faults now (h :: hs) m =
  upsert_trackers faults now hs
    (if wallet_write_ok faults (owner h) then <[owner h := tracker_of now h]> m else m).
Proof. reflexivity. Qed.

(** A wallet that is not the owner of a listed holder is not written. *)
Lemma upsert_trackers_other hs : forall m a,
  (forall h, In h hs -> owner h <> a) ->
  upsert_trackers faults now hs m !! a = m !! a.
Proof.
  induction hs as [|h hs IH]; intros m a Hne; [reflexivity|].
  rewrite upsert_trackers_cons, IH by (intros h' Hh'; apply Hne; now right).
  destruct (wallet_write_ok faults (owner h)); [|reflexivity].
  apply lookup_insert_ne, Hne. now left.
Qed.

(** What is found after the writes was there before or was written. *)
Lemma upsert_trackers_lookup hs : forall m a t,
  upsert_trackers faults now hs m !! a = Some t ->
  m !! a = Some t \/
  exists h, In h hs /\ owner h = a /\ wallet_write_ok faults a = true /\ t = tracker_of now h.
Proof.
  induction hs as [|h hs IH]; intros m a t Hlook; [now left|].
  rewrite upsert_trackers_cons in Hlook.
  destruct (IH _ _ _ Hlook) as [Hm|(h' & Hin & Hown & Hok & Ht)].
  - destruct (wallet_write_ok faults (owner h)) eqn:Hok; [|now left].
    destruct (decide (owner h = a)) as [Heq|Hne].
    + subst a. rewrite lookup_insert_eq in Hm. injection Hm as <-.
      right. exists h. repeat split; [now left|exact Hok].
    + rewrite lookup_insert_ne in Hm by exact Hne. now left.
  - right. exists h'. repeat split; [now right|exact Hown|exact Hok|exact Ht].
Qed.

(** No wallet is removed. *)
Lemma upsert_trackers_keeps hs : forall m a,
  is_Some (m !! a) -> is_Some (upsert_trackers faults now hs m !! a).
Proof.
  induction hs as [|h hs IH]; intros m a Hin; [exact Hin|].
  rewrite upsert_trackers_cons. apply IH.
  destruct (wallet_write_ok faults (owner h)); [|exact Hin].
  destruct (decide (owner h = a)) as [->|Hne].
  - rewrite lookup_insert_eq. eauto.
  - now rewrite lookup_insert_ne.
Qed.

(** With distinct owners, each holder whose write goes through is found
    with its own tracker, and each holder whose write fails is found as
    before. *)
Lemma upsert_trackers_written hs : forall m h,
  NoDup (map owner hs) -> In h hs ->
  upsert_trackers faults now hs m !! owner h =
  if wallet_write_ok faults (owner h) then Some (tracker_of now h) else m !! owner h.
Proof.
  induction hs as [|h0 hs IH]; intros m h Hnd Hin; [destruct Hin|].
  cbn [map] in Hnd. apply NoDup_cons in Hnd as [Hnotin Hnd].
  rewrite upsert_trackers_cons.
  destruct Hin as [->|Hin].
  - rewrite upsert_trackers_other.
    + destruct (wallet_write_ok faults (owner h)); [apply lookup_insert_eq|reflexivity].
    + intros h' Hh' Heq. apply Hnotin. rewrite <- Heq.
      apply list_elem_of_In, in_map, Hh'.
  - rewrite (IH _ h Hnd Hin).
    destruct (wallet_write_ok faults (owner h)); [reflexivity|].
    destruct (wallet_write_ok faults (owner h0)); [|reflexivity].
    apply lookup_insert_ne. intros Heq. apply Hnotin. rewrite Heq.
    apply list_elem_of_In, in_map, Hin.
Qed.
End Trackers.

Section Totals.
Import SolanaRpc WalletDiscovery DiscoverySpec DiscoveryTotals.
Variable token_decimals : Z.







End Totals.

Section TopHolders.
Import SolanaRpc WalletDiscovery DiscoverySpec DiscoveryTotals.

(** The holders of a run have distinct owners. *)
Lemma top_holders_NoDup token_decimals top_n accounts st :
  aggregate token_decimals ([], []) accounts = inr st ->
  NoDup (map owner (top_holders token_decimals top_n st)).
Proof.
  intros Hagg.
  destruct (aggregate_invariant token_decimals accounts _ _ Hagg) as [Hnd Hpos];
    [constructor|constructor|].
  unfold top_holders, ranked_holders.
  destruct (py_slice_to_prefix top_n
              (sorted_reverse balance (aggregated_holders token_decimals st))) as [rest Hrest].
  assert (Hall : NoDup (map owner (sorted_reverse balance (aggregated_holders token_decimals st)))).
  { rewrite (Permutation_map owner (sorted_reverse_perm balance _)).
    rewrite (aggregated_holders_all token_decimals st Hpos), List.map_map. exact Hnd. }
  rewrite Hrest, map_app in Hall. now apply NoDup_app in Hall.
Qed.

(** Every holder of a run is one of the aggregated holders. *)
Lemma top_holders_incl token_decimals top_n st h :
  In h (top_holders token_decimals top_n st) ->
  In h (aggregated_holders token_decimals st).
Proof.
  unfold top_holders, ranked_holders. intros Hin.
  destruct (py_slice_to_prefix top_n
              (sorted_reverse balance (aggregated_holders token_decimals st))) as [rest Hrest].
  eapply Permutation_in; [apply sorted_reverse_perm|].
  rewrite Hrest. apply in_or_app. now left.
Qed.
End TopHolders.

(** A run of the discovery only adds to what is stored.  Whatever the
    node replies and whichever writes fail, the run leaves the manager, the
    sockets, the transactions and the snapshots of the other mints as they
    are; no wallet tracker is removed; and a tracker that is new or changed
    after the run is the active tracker, created at the time of the run
    with zeroed counters, of a wallet whose balance it carries. *)
Theorem discovery_only_adds
    (net_accounts : nat -> SolanaRpc.response (option (list WalletDiscovery.raw_account)))
    (net_mint : nat -> SolanaRpc.response (option SolanaRpc.mint_info))
    (faults : WalletDiscovery.db_faults) (now : Z) (mint : string) (top_n : Z) (w : world) :
  let w' := snd (WalletDiscovery.discover_top_wallets
                   net_accounts net_mint faults now mint top_n w) in
  manager w' = manager w /\ trace w' = trace w /\
  running w' = running w /\ spawned w' = spawned w /\
  realtime_transactions (db w') = realtime_transactions (db w) /\
  (forall other, other <> mint ->
     token_holders (db w') !! other = token_holders (db w) !! other) /\
  (forall a, is_Some (wallets (db w) !! a) -> is_Some (wallets (db w') !! a)) /\
  (forall a t, wallets (db w') !! a = Some t ->
     wallets (db w) !! a = Some t \/
     (wt_address t = a /\ active t = true /\ tracked_since t = now /\
      total_buys t = 0%Z /\ total_sells t = 0%Z /\
      token_amount t = wt_balance t /\
      exists b, wt_balance t = Some b /\ (0 < b)%Q)).
Proof.
  intros w'. subst w'.
  destruct (discover_run net_accounts net_mint faults now mint top_n w)
    as (d & entries & -> & Hd).
  cbn [snd]. unfold DiscoverySpec.writes_and_logs. cbn [manager trace running spawned db].
  do 4 (split; [reflexivity|]).
  assert (Hsame : d = db w ->
            realtime_transactions d = realtime_transactions (db w) /\
            (forall other, other <> mint ->
               token_holders d !! other = token_holders (db w) !! other) /\
            (forall a, is_Some (wallets (db w) !! a) -> is_Some (wallets d !! a)) /\
            (forall a t, wallets d !! a = Some t ->
               wallets (db w) !! a = Some t \/
               (wt_address t = a /\ active t = true /\ tracked_since t = now /\
                total_buys t = 0%Z /\ total_sells t = 0%Z /\
                token_amount t = wt_balance t /\
                exists b, wt_balance t = Some b /\ (0 < b)%Q))).
  { intros ->. repeat split; auto. }
  destruct (fst (SolanaRpc.call_solana_rpc net_accounts "getProgramAccounts" 3 5))
    as [e|[[|a accounts]|]].
  - apply Hsame, Hd.
  - apply Hsame, Hd.
  - cbv zeta in Hd.
    destruct (WalletDiscovery.aggregate
                (DiscoverySpec.decimals_seen (DiscoverySpec.supply_seen net_mint))
                ([], []) (a :: accounts)) as [e|st] eqn:Hagg.
    + apply Hsame, Hd.
    + subst d. unfold DiscoverySpec.persisted.
      cbn [realtime_transactions token_holders wallets].
      split; [reflexivity|]. split; [|split].
      * intros other Hne. destruct (WalletDiscovery.snapshot_write_ok faults); [|reflexivity].
        apply lookup_insert_ne. congruence.
      * intros a0. apply upsert_trackers_keeps.
      * intros a0 t Hlook.
        apply upsert_trackers_lookup in Hlook as [Hold|(h & Hin & Hown & _ & ->)];
          [now left|right].
        cbn. repeat split; [exact Hown|].
        exists (balance h). split; [reflexivity|].
        apply (top_holders_incl _ top_n) in Hin.
        destruct (aggregate_invariant _ _ _ _ Hagg) as [_ Hpos]; [constructor|constructor|].
        rewrite (aggregated_holders_all _ st Hpos) in Hin.
        apply in_map_iff in Hin as ([own bal] & <- & Hkv).
        rewrite List.Forall_forall in Hpos. exact (Hpos _ Hkv).
  - apply Hsame, Hd.
Qed.

(** Every holder of the stored snapshot is tracked.  In a run that reaches
    its writes, the snapshot that is stored holds the ranked holders cut at
    [top_n]; for each of them the wallet collection then holds, under the
    owner, the tracker built from the holder when the write went through,
    and what it held before when the write failed; and no other wallet is
    written. *)
Theorem discovery_tracks_stored_holders
    (net_accounts : nat -> SolanaRpc.response (option (list WalletDiscovery.raw_account)))
    (net_mint : nat -> SolanaRpc.response (option SolanaRpc.mint_info))
    (faults : WalletDiscovery.db_faults) (now : Z) (mint : string) (top_n : Z) (w : world)
    (accounts : list WalletDiscovery.raw_account) (st : WalletDiscovery.aggregation) :
  fst (SolanaRpc.call_solana_rpc net_accounts "getProgramAccounts" 3 5) = inr (Some accounts) ->
  accounts <> [] ->
  WalletDiscovery.aggregate (DiscoverySpec.decimals_seen (DiscoverySpec.supply_seen net_mint))
    ([], []) accounts = inr st ->
  let w' := snd (WalletDiscovery.discover_top_wallets
                   net_accounts net_mint faults now mint top_n w) in
  let top := DiscoveryTotals.top_holders
               (DiscoverySpec.decimals_seen (DiscoverySpec.supply_seen net_mint)) top_n st in
  (WalletDiscovery.snapshot_write_ok faults = true ->
   holders <$> (token_holders (db w') !! mint) = Some top) /\
  (WalletDiscovery.snapshot_write_ok faults = false ->
   token_holders (db w') = token_holders (db w)) /\
  (forall h, In h top ->
     wallets (db w') !! owner h =
     if WalletDiscovery.wallet_write_ok faults (owner h)
     then Some (WalletDiscovery.tracker_of now h)
     else wallets (db w) !! owner h) /\
  (forall h, In h top ->
     wt_balance (WalletDiscovery.tracker_of now h) = Some (balance h) /\
     token_amount (WalletDiscovery.tracker_of now h) = Some (balance h) /\
     active (WalletDiscovery.tracker_of now h) = true) /\
  (forall a, (forall h, In h top -> owner h <> a) ->
     wallets (db w') !! a = wallets (db w) !! a).
Proof.
  intros Hquery Hne Hagg w' top. subst w' top.
  destruct (discover_run net_accounts net_mint faults now mint top_n w)
    as (d & entries & -> & Hd).
  rewrite Hquery in Hd. destruct accounts as [|a accounts]; [congruence|].
  cbv zeta in Hd. rewrite Hagg in Hd. subst d.
  cbn [snd]. unfold DiscoverySpec.writes_and_logs, DiscoverySpec.persisted.
  cbn [db token_holders wallets].
  fold (DiscoveryTotals.top_holders
          (DiscoverySpec.decimals_seen (DiscoverySpec.supply_seen net_mint)) top_n st).
  split; [|split; [|split; [|split]]].
  - intros ->. now rewrite lookup_insert_eq.
  - intros ->. reflexivity.
  - intros h Hin. apply upsert_trackers_written; [|exact Hin].
    eapply top_holders_NoDup, Hagg.
  - intros h _. repeat split.
  - intros a0 Hother. now apply upsert_trackers_other.
Qed.

(** The three accounts of two owners: A and B are tracked with 150 and 30. *)
Lemma discovery_tracks_stored_holders_witness :
  let w' := snd (WalletDiscovery.discover_top_wallets
                   (Examples.accounts_reply Examples.three_accounts)
                   (Examples.mint_reply 1000 0) WalletDiscovery.no_faults 0 "M" 100
                   Examples.world0) in
  wallets (db w') !! "A" =
    Some (WalletDiscovery.tracker_of 0 (Examples.holder "A" "a1" 150)) /\
  wallets (db w') !! "C" = None.
Proof.
  intros w'.
  destruct (discovery_tracks_stored_holders
              (Examples.accounts_reply Examples.three_accounts)
              (Examples.mint_reply 1000 0) WalletDiscovery.no_faults 0 "M" 100
              Examples.world0 Examples.three_accounts
              ([("A", 150%Q); ("B", 30%Q)], [("A", "a1"); ("B", "b1")])
              eq_refl ltac:(discriminate) eq_refl)
    as (_ & _ & Hin & _ & Hout).
  split.
  - apply (Hin (Examples.holder "A" "a1" 150)). now left.
  - rewrite Hout; [reflexivity|].
    intros h [<-|[<-|[]]]; discriminate.
Defined.


(** * Further properties of the registry and of the senders *)

Section RegistryMore.
Import WebsocketManager ManagerSpec BroadcastSpec WorldOrder.
Implicit Types (conns : dict client_id WebSocket) (ws : WebSocket).

Lemma dict_set_fresh conns cid ws :
  ~ In cid (dict_keys conns) -> dict_set cid ws conns = conns ++ [(cid, ws)].
Proof.
  induction conns as [|[c v] rest IH]; cbn; [reflexivity|].
  intros Hnotin. destruct (decide (cid = c)) as [->|Hne]; [exfalso; auto|].
  f_equal. apply IH. auto.
Qed.

Lemma entry_of_absent ws conns : ~ In ws (dict_values conns) -> entry_of ws conns = None.
Proof.
  induction conns as [|[c v] rest IH]; cbn; [reflexivity|].
  intros Hnotin. destruct (Nat.eqb v ws) eqn:E.
  - apply Nat.eqb_eq in E. exfalso. auto.
  - apply IH. auto.
Qed.

Lemma entry_of_present ws conns :
  In ws (dict_values conns) -> exists cid, entry_of ws conns = Some (cid, ws).
Proof.
  induction conns as [|[c v] rest IH]; cbn; [tauto|].
  intros Hin. destruct (Nat.eqb v ws) eqn:E.
  - apply Nat.eqb_eq in E. subst. eauto.
  - apply IH. destruct Hin as [->|Hin]; [|exact Hin].
    rewrite Nat.eqb_refl in E. discriminate.
Qed.

Lemma entry_of_app ws conns rest :
  ~ In ws (dict_values conns) -> entry_of ws (conns ++ rest) = entry_of ws rest.
Proof.
  induction conns as [|[c v] conns IH]; cbn; [reflexivity|].
  intros Hnotin. destruct (Nat.eqb v ws) eqn:E.
  - apply Nat.eqb_eq in E. exfalso. auto.
  - apply IH. auto.
Qed.

Lemma dict_del_fresh conns cid ws :
  ~ In cid (dict_keys conns) -> dict_del cid (conns ++ [(cid, ws)]) = conns.
Proof.
  induction conns as [|[c v] rest IH]; cbn.
  - intros _. destruct (decide (cid = cid)); [reflexivity|congruence].
  - intros Hnotin. destruct (decide (cid = c)) as [->|Hne]; [exfalso; auto|].
    f_equal. apply IH. auto.
Qed.

Lemma drop_absent ws conns : ~ In ws (dict_values conns) -> drop ws conns = conns.
Proof.
  intros Hnotin. unfold drop. rewrite find_client_entry, entry_of_absent by exact Hnotin.
  reflexivity.
Qed.

Lemma without_socket_registrations ws conns ws' :
  registrations ws' (without_socket ws conns) =
  if Nat.eq_dec ws ws' then Nat.pred (registrations ws' conns) else registrations ws' conns.
Proof.
  unfold registrations, dict_values.
  induction conns as [|[c v] rest IH]; cbn [without_socket map snd count_occ].
  - now destruct (Nat.eq_dec ws ws').
  - destruct (Nat.eqb v ws) eqn:E.
    + apply Nat.eqb_eq in E. subst v.
      destruct (Nat.eq_dec ws ws'); [reflexivity|reflexivity].
    + apply Nat.eqb_neq in E. cbn [map snd count_occ]. rewrite IH.
      destruct (Nat.eq_dec v ws') as [->|Hv]; destruct (Nat.eq_dec ws ws') as [Heq|Hne];
        try congruence; try reflexivity.
Qed.

Lemma without_socket_length ws conns :
  List.length (without_socket ws conns) =
  (List.length conns - match entry_of ws conns with Some _ => 1 | None => 0 end)%nat.
Proof.
  induction conns as [|[c v] rest IH]; cbn [without_socket entry_of List.length];
    [reflexivity|].
  destruct (Nat.eqb v ws); cbn [List.length]; [lia|].
  rewrite IH. destruct (entry_of ws rest) eqn:E; [|lia].
  destruct rest; [discriminate|cbn; lia].
Qed.

(** The log only grows in a call of [disconnect]. *)
Lemma disconnect_logs_grow ws : preserves logs_grow (disconnect ws).
Proof.
  intros w. unfold logs_grow, disconnect, stop_monitoring, cancel_and_await. run_M.
  destruct w as [d [ac tw im mt ldr dis lps tc] lg tr rn sp ct]. cbn.
  destruct (find_client ws ac) as [cid|]; cbn.
  - destruct (dict_del cid ac); cbn; [|eexists; reflexivity].
    destruct im; cbn; [|eexists; reflexivity].
    destruct mt as [t|]; cbn.
    + destruct (bool_decide (ct = Some t)); cbn;
        [|destruct (bool_decide (t ∈ rn)); cbn];
        rewrite <- ?app_assoc; eexists; reflexivity.
    + rewrite <- ?app_assoc; eexists; reflexivity.
  - destruct ac; cbn; [|eexists; reflexivity].
    destruct im; cbn; [|eexists; reflexivity].
    destruct mt as [t|]; cbn.
    + destruct (bool_decide (ct = Some t)); cbn;
        [|destruct (bool_decide (t ∈ rn)); cbn];
        rewrite <- ?app_assoc; eexists; reflexivity.
    + rewrite <- ?app_assoc; eexists; reflexivity.
Qed.

Lemma logs_grow_refl w : logs_grow w w.
Proof. exists []. now rewrite app_nil_r. Qed.

Lemma logs_grow_trans w1 w2 w3 : logs_grow w1 w2 -> logs_grow w2 w3 -> logs_grow w1 w3.
Proof.
  intros [e1 H1] [e2 H2]. exists (e1 ++ e2). now rewrite H2, H1, app_assoc.
Qed.

Lemma logs_grow_In w w' entry : logs_grow w w' -> In entry (logs w) -> In entry (logs w').
Proof. intros [es ->] Hin. apply in_or_app. now left. Qed.

(** The log only grows in a call of [broadcast]. *)
Lemma broadcast_logs_grow net msg : preserves logs_grow (broadcast net msg).
Proof.
  intros w. unfold broadcast. rewrite bind_run. cbn [gets]. rewrite bind_run.
  destruct (send_all_run net msg (dict_values (active_connections (manager w))) w)
    as [entries ->].
  set (w1 := after_events _ entries w).
  assert (H1 : logs_grow w w1) by (exists entries; reflexivity).
  destruct (send_all_result net (dict_values (active_connections (manager w))))
    as [e|gone]; cbn [snd]; [exact H1|].
  rewrite bind_run.
  pose proof (preserves_for_each logs_grow logs_grow_refl logs_grow_trans disconnect gone
                disconnect_logs_grow w1) as H2.
  destruct (for_each disconnect gone w1) as [[e|[]] w2]; cbn [snd] in *;
    [eapply logs_grow_trans; eassumption|].
  destruct gone; cbn [snd mret M_ret ret log modify].
  - eapply logs_grow_trans; eassumption.
  - eapply logs_grow_trans; [eapply logs_grow_trans; eassumption|].
    eexists. reflexivity.
Qed.
End RegistryMore.

(** A client that connects and leaves is forgotten.  For a fresh id and a
    socket that is not registered, [connect] appends one entry and a later
    [disconnect] of the socket gives the registry back as it was, leaving
    one removal in the trace and the database untouched.  When other
    connections are registered, the monitoring state is the same as
    before; when there are none, the [disconnect] ends with monitoring
    switched off, whether it was on before or not. *)
Theorem connect_then_disconnect_restores_registry
    (uuid4 : client_id) (ws : WebSocket) (w : world) :
  let conns := active_connections (manager w) in
  ~ In uuid4 (dict_keys conns) ->
  ~ In ws (dict_values conns) ->
  let w1 := snd (WebsocketManager.connect uuid4 ws w) in
  let w2 := snd (WebsocketManager.disconnect ws w1) in
  active_connections (manager w1) = conns ++ [(uuid4, ws)] /\
  active_connections (manager w2) = conns /\
  trace w2 = trace w ++ [Unregistered uuid4 ws] /\
  db w2 = db w /\
  tracked_wallets (manager w2) = tracked_wallets (manager w) /\
  (conns <> [] -> ManagerSpec.monitoring_state w2 = ManagerSpec.monitoring_state w) /\
  (conns = [] -> is_monitoring (manager w2) = false).
Proof.
  intros conns Hid Hws w1 w2. subst conns w1 w2.
  destruct (connect_spec uuid4 ws w) as (_ & Hc1 & Hm1 & Ht1 & Hd1).
  rewrite (dict_set_fresh _ _ _ Hid) in Hc1.
  assert (Htw1 : tracked_wallets (manager (snd (WebsocketManager.connect uuid4 ws w))) =
                 tracked_wallets (manager w)).
  { unfold WebsocketManager.connect. run_M. reflexivity. }
  destruct (disconnect_spec ws (snd (WebsocketManager.connect uuid4 ws w)))
    as (_ & Hc2 & Ht2 & Hd2 & _ & Htw2 & Hkeep & Hoff & _).
  rewrite Hc1 in Hc2, Ht2, Hkeep, Hoff.
  assert (Hentry : ManagerSpec.entry_of ws (active_connections (manager w) ++ [(uuid4, ws)]) =
                   Some (uuid4, ws)).
  { rewrite entry_of_app by exact Hws. cbn. now rewrite Nat.eqb_refl. }
  assert (Hdrop : BroadcastSpec.drop ws (active_connections (manager w) ++ [(uuid4, ws)]) =
                  active_connections (manager w)).
  { unfold BroadcastSpec.drop. rewrite find_client_entry, Hentry. cbn.
    now apply dict_del_fresh. }
  rewrite Hentry in Ht2. rewrite Hdrop in Hc2, Hkeep, Hoff.
  split; [exact Hc1|]. split; [exact Hc2|].
  split; [rewrite Ht2, Ht1; reflexivity|].
  split; [congruence|]. split; [congruence|].
  split; [intros Hne; rewrite (Hkeep Hne); exact Hm1|exact Hoff].
Qed.

(** A second client comes and goes beside a first one. *)
Lemma connect_then_disconnect_restores_registry_witness :
  let w := WebsocketManager.run
             [WebsocketManager.StartMonitoring; WebsocketManager.Connect 1 10]
             (WebsocketManager.initial_world "M") in
  let w2 := snd (WebsocketManager.disconnect 11
                   (snd (WebsocketManager.connect 2 11 w))) in
  active_connections (manager w2) = [(1, 10)]%nat /\
  is_monitoring (manager w2) = true.
Proof.
  intros w w2.
  destruct (connect_then_disconnect_restores_registry 2%nat 11%nat w)
    as (_ & Hc & _ & _ & _ & Hm & _).
  - cbn. intros [H|[]]. discriminate H.
  - cbn. intros [H|[]]. discriminate H.
  - split; [exact Hc|].
    assert (Hs : ManagerSpec.monitoring_state w2 = ManagerSpec.monitoring_state w)
      by (apply Hm; discriminate).
    apply (f_equal (fun s => fst (fst (fst s)))) in Hs. exact Hs.
Defined.

(** [disconnect] removes at most one entry: the first one registered for
    the socket.  It never raises; the other entries keep their order; a
    socket that is registered under several ids stays registered under
    the others; and for a socket that is not registered the registry and
    the trace are left as they are. *)
Theorem disconnect_removes_first_entry (ws : WebSocket) (w : world) :
  let conns := active_connections (manager w) in
  NoDup (dict_keys conns) ->
  let run := WebsocketManager.disconnect ws w in
  let conns' := active_connections (manager (snd run)) in
  fst run = inr tt /\
  conns' = ManagerSpec.without_socket ws conns /\
  WorldOrder.registrations ws conns' = Nat.pred (WorldOrder.registrations ws conns) /\
  (forall ws', ws' <> ws ->
     WorldOrder.registrations ws' conns' = WorldOrder.registrations ws' conns) /\
  (In ws (dict_values conns) ->
   S (List.length conns') = List.length conns /\
   exists cid, trace (snd run) = trace w ++ [Unregistered cid ws]) /\
  (~ In ws (dict_values conns) -> conns' = conns /\ trace (snd run) = trace w) /\
  db (snd run) = db w /\
  tracked_wallets (manager (snd run)) = tracked_wallets (manager w).
Proof.
  intros conns Hnd run conns'. subst conns run conns'.
  destruct (disconnect_spec ws w) as (Hret & Hc & Ht & Hd & _ & Htw & _).
  rewrite (drop_without _ _ Hnd) in Hc. rewrite Hc.
  split; [exact Hret|]. split; [reflexivity|]. split; [|split; [|split; [|split]]].
  - rewrite without_socket_registrations.
    destruct (Nat.eq_dec ws ws); [reflexivity|congruence].
  - intros ws' Hne. rewrite without_socket_registrations.
    destruct (Nat.eq_dec ws ws'); [congruence|reflexivity].
  - intros Hin. destruct (entry_of_present _ _ Hin) as [cid Hentry].
    rewrite without_socket_length, Hentry. rewrite Hentry in Ht. split.
    + destruct (active_connections (manager w)); [discriminate|cbn; lia].
    + exists cid. exact Ht.
  - intros Hnotin. rewrite (entry_of_absent _ _ Hnotin), app_nil_r in Ht.
    split; [|exact Ht].
    rewrite <- (drop_without _ _ Hnd). now apply drop_absent.
  - split; [exact Hd|exact Htw].
Qed.

(** Three clients; the second one leaves. *)
Lemma disconnect_removes_first_entry_witness :
  active_connections
    (manager (snd (WebsocketManager.disconnect 11 ManagerExamples.three_clients_monitored)))
  = ManagerSpec.without_socket 11
      (active_connections (manager ManagerExamples.three_clients_monitored)).
Proof.
  apply (disconnect_removes_first_entry 11%nat ManagerExamples.three_clients_monitored).
  apply (bool_decide_unpack _). vm_compute. exact I.
Defined.

(** The three outcomes of [send_personal_message].  A socket that takes
    the frame gets it and nothing else happens.  A socket that raises
    [RuntimeError] is unregistered by the call, which returns normally.
    Any other exception reaches the caller with the registry unchanged.
    In no case is a frame sent to another socket, and the database and the
    tracked wallets are left alone. *)
Theorem send_personal_message_outcomes
    (net : WebsocketManager.sockets) (msg : message) (ws : WebSocket) (w : world) :
  let conns := active_connections (manager w) in
  let run := WebsocketManager.send_personal_message net msg ws w in
  (ManagerSpec.delivers net ws = true ->
   run = (inr tt, BroadcastSpec.after_events [Delivered ws msg] [] w)) /\
  (ManagerSpec.closed net ws = true ->
   fst run = inr tt /\
   active_connections (manager (snd run)) = BroadcastSpec.drop ws conns /\
   ManagerSpec.delivered (trace (snd run)) = ManagerSpec.delivered (trace w)) /\
  (forall e, net ws = Some e -> ManagerSpec.breaks net ws = true ->
   fst run = inl e /\
   active_connections (manager (snd run)) = conns /\
   trace (snd run) = trace w ++ [SendFailed ws e]) /\
  (forall ws', In ws' (ManagerSpec.targets (trace (snd run))) ->
     In ws' (ManagerSpec.targets (trace w)) \/ ws' = ws) /\
  db (snd run) = db w /\
  tracked_wallets (manager (snd run)) = tracked_wallets (manager w).
Proof.
  intros conns run. subst conns run.
  unfold WebsocketManager.send_personal_message, ManagerSpec.delivers, ManagerSpec.closed,
    ManagerSpec.breaks.
  rewrite bind_run, guarded_send_run.
  destruct (net ws) as [e|] eqn:Enet.
  - destruct e as [s| |s|s|c d]; cbn [fst snd when];
      try (split; [discriminate|]; split; [discriminate|];
           split; [intros e' He' _; injection He' as <-; cbn; auto|];
           split; [|split; reflexivity];
           cbn; intros ws'; rewrite targets_app; cbn;
           rewrite in_app_iff; cbn; intuition congruence).
    set (w1 := BroadcastSpec.after_events _ _ w).
    destruct (disconnect_spec ws w1) as (Hret & Hc & Ht & Hd & _ & Htw & _).
    split; [discriminate|]. split; [|split; [|split; [|split]]].
    + intros _. split; [exact Hret|]. split; [exact Hc|].
      rewrite Ht. cbn [w1 BroadcastSpec.after_events trace manager].
      rewrite !delivered_app. cbn.
      destruct (ManagerSpec.entry_of ws (active_connections (manager w)));
        cbn; now rewrite !app_nil_r.
    + intros e' He' Hb. discriminate Hb.
    + intros ws'. rewrite Ht. cbn [w1 BroadcastSpec.after_events trace manager].
      rewrite !targets_app. cbn.
      destruct (ManagerSpec.entry_of ws (active_connections (manager w)));
        cbn; rewrite !in_app_iff; cbn; intuition congruence.
    + exact Hd.
    + exact Htw.
  - cbn [fst snd when].
    split; [reflexivity|]. split; [discriminate|].
    split; [intros e' He'; discriminate He'|].
    split; [|split; reflexivity].
    cbn. intros ws'. rewrite targets_app. cbn. rewrite in_app_iff. cbn. intuition congruence.
Qed.

(** A personal message to the closed socket 11 of three clients. *)
Lemma send_personal_message_outcomes_witness :
  let run := WebsocketManager.send_personal_message ManagerExamples.socket_11_closed
               (Text "pong") 11 ManagerExamples.three_clients_monitored in
  fst run = inr tt /\
  active_connections (manager (snd run)) = [(1, 10); (3, 12)]%nat.
Proof.
  intros run.
  destruct (send_personal_message_outcomes ManagerExamples.socket_11_closed
              (Text "pong") 11%nat ManagerExamples.three_clients_monitored)
    as (_ & H & _).
  destruct (H eq_refl) as (Hret & Hc & _).
  split; [exact Hret|exact Hc].
Defined.
(** * Further properties of the feed generator and of the lifecycle *)

Section FeedMore.
Import WebsocketManager ManagerSpec BroadcastSpec WorldOrder.

(** With a tracked wallet, the generator can build its record. *)
Lemma mock_transaction_Some rnd m :
  tracked_wallets m <> [] -> exists tx, mock_transaction rnd m = Some tx.
Proof.
  intros Hne. unfold mock_transaction.
  destruct (random_choice_In (wallet_draw rnd) (dict_keys (tracked_wallets m)))
    as (wallet_address & -> & _).
  { unfold dict_keys. destruct (tracked_wallets m); [congruence|discriminate]. }
  destruct (random_choice_In (action_draw rnd) ["buy"; "sell"]) as (action & -> & _);
    [discriminate|].
  destruct (random_choice_In (protocol_draw rnd) (dict_values PROTOCOL_PROGRAM_IDS))
    as (protocol & -> & _); [discriminate|].
  eexists. reflexivity.
Qed.
End FeedMore.

(** The generator never raises, and a failed insertion does not stop the
    broadcast.  With no tracked wallet the call only logs a warning.
    Otherwise it builds one record and sends it to the connections of the
    registry, in order, up to the first socket that raises something else
    than [RuntimeError]; such an exception is logged and does not reach
    the caller.  The record is added to the transactions when the
    insertion goes through; when it fails, the error is logged, nothing is
    stored, and the record is announced as saved and broadcast all the
    same. *)
Theorem mock_generator_survives_failures
    (rnd : WebsocketManager.draws) (insert_ok : bool)
    (net : WebsocketManager.sockets) (w : world) :
  let run := WebsocketManager.generate_and_broadcast_mock_transaction rnd insert_ok net w in
  let snapshot := dict_values (active_connections (manager w)) in
  fst run = inr tt /\
  (tracked_wallets (manager w) = [] ->
   snd run =
   with_logs (fun l => l ++ [(WARNING, "No tracked wallets available to generate mock transactions.")]) w) /\
  (tracked_wallets (manager w) <> [] ->
   exists tx,
     WebsocketManager.mock_transaction rnd (manager w) = Some tx /\
     realtime_transactions (db (snd run)) =
       realtime_transactions (db w) ++ (if insert_ok then [tx] else []) /\
     (exists evs,
        trace (snd run) =
          trace w ++
          map (ManagerSpec.send_event net (NewTransaction tx (WebsocketManager.clock rnd)))
              (ManagerSpec.attempted net snapshot) ++ evs /\
        ManagerSpec.targets evs = []) /\
     In (INFO, "Generated and saved mock transaction") (logs (snd run)) /\
     (insert_ok = false -> In (ERROR, "Error inserting transaction") (logs (snd run)))).
Proof.
  intros run snapshot. subst run snapshot.
  unfold WebsocketManager.generate_and_broadcast_mock_transaction,
    DbService.insert_realtime_transaction.
  rewrite bind_run. cbn [gets].
  destruct (tracked_wallets (manager w)) as [|entry rest] eqn:Etw.
  { split; [reflexivity|]. split; [reflexivity|congruence]. }
  destruct (mock_transaction_Some rnd (manager w)) as [tx Hmock]; [congruence|].
  rewrite Hmock.
  split; [|split; [discriminate|]].
  - destruct insert_ok; run_M;
      match goal with |- context [WebsocketManager.broadcast net ?msg ?w1] =>
        destruct (WebsocketManager.broadcast net msg w1) as [[e|[]] w2] end; reflexivity.
  - intros _. exists tx. split; [reflexivity|].
    destruct insert_ok; run_M;
      match goal with |- context [WebsocketManager.broadcast net ?msg ?w1] =>
        pose proof (broadcast_general net msg w1) as (Htr & (_ & _ & Hdb) & _);
        pose proof (broadcast_logs_grow net msg w1) as Hlogs;
        destruct (WebsocketManager.broadcast net msg w1) as [[e|[]] w2]
      end;
      cbn [fst snd db trace logs manager with_logs with_db realtime_transactions] in *;
      (split; [rewrite Hdb; cbn; now rewrite ?app_nil_r|]);
      (split; [exact Htr|]);
      (split; [try (apply in_or_app; left);
               apply (logs_grow_In _ _ _ Hlogs); cbn;
               apply in_or_app; right; now left|]);
      try discriminate;
      intros _; try (apply in_or_app; left);
      apply (logs_grow_In _ _ _ Hlogs); cbn;
      apply in_or_app; left; apply in_or_app; right; now left.
Qed.

(** W1 is tracked, the insertion fails, socket 11 of three is closed: the
    two open sockets still get the record. *)
Lemma mock_generator_survives_failures_witness :
  let w := with_manager
             (fun m => WebsocketManager.set_active_connections (active_connections m)
                         ManagerExamples.tracks_W1)
             ManagerExamples.three_clients_monitored in
  let run := WebsocketManager.generate_and_broadcast_mock_transaction
               ManagerExamples.draws_half false ManagerExamples.socket_11_closed w in
  fst run = inr tt /\
  realtime_transactions (db (snd run)) = [] /\
  map fst (ManagerSpec.delivered (trace (snd run))) = [10; 12]%nat.
Proof.
  intros w run.
  destruct (mock_generator_survives_failures ManagerExamples.draws_half false
              ManagerExamples.socket_11_closed w) as (Hret & _ & H).
  split; [exact Hret|].
  destruct H as (tx & _ & Hdb & _); [discriminate|].
  split; [exact Hdb|reflexivity].
Defined.

(** Monitoring that is started and stopped from a request handler leaves
    no task behind.  On a manager that is not monitoring, with a task id
    that is not in use, [start_monitoring] creates the task, records it and
    sets the flag; a [stop_monitoring] that follows, made outside that task,
    clears the flag and the reference and ends the task: the tasks that run
    are those that ran before, and the registry, the database and the
    trace are untouched. *)
Theorem start_then_stop_leaves_no_task (w : world) :
  is_monitoring (manager w) = false ->
  current_task w = None ->
  ~ In (spawned w) (running w) ->
  let w1 := snd (WebsocketManager.start_monitoring w) in
  let w2 := snd (WebsocketManager.stop_monitoring w1) in
  (is_monitoring (manager w1) = true /\
   monitor_task (manager w1) = Some (spawned w) /\
   running w1 = running w ++ [spawned w]) /\
  (is_monitoring (manager w2) = false /\
   monitor_task (manager w2) = None /\
   running w2 = running w) /\
  active_connections (manager w2) = active_connections (manager w) /\
  tracked_wallets (manager w2) = tracked_wallets (manager w) /\
  db w2 = db w /\ trace w2 = trace w /\
  logs w2 = logs w ++ [(INFO, "Starting wallet monitoring.");
                       (INFO, "Wallet monitoring task explicitly cancelled.");
                       (INFO, "Wallet monitoring stopped.")].
Proof.
  intros Hoff Hct Hfresh w1 w2. subst w1 w2.
  unfold WebsocketManager.start_monitoring, WebsocketManager.stop_monitoring,
    WebsocketManager.create_task, WebsocketManager.cancel_and_await. run_M.
  destruct w as [d [ac tw im mt ldr dis lps tc] lg tr rn sp ct].
  cbn in Hoff, Hct, Hfresh. subst im ct. cbn.
  rewrite bool_decide_eq_false_2 by discriminate.
  rewrite bool_decide_eq_true_2
    by (apply elem_of_app; right; apply list_elem_of_singleton; reflexivity).
  cbn. rewrite List.filter_app. cbn. rewrite Nat.eqb_refl. cbn.
  assert (Hfilter : List.filter (fun t' => negb (Nat.eqb sp t')) rn = rn).
  { clear -Hfresh. induction rn as [|t rn IH]; [reflexivity|]. cbn.
    destruct (Nat.eqb sp t) eqn:E.
    - apply Nat.eqb_eq in E. subst. exfalso. apply Hfresh. now left.
    - cbn. f_equal. apply IH. intros H. apply Hfresh. now right. }
  repeat split.
  - rewrite app_nil_r. exact Hfilter.
  - now rewrite <- !app_assoc.
Qed.

(** On a fresh manager: task 0 is created and ended. *)
Lemma start_then_stop_leaves_no_task_witness :
  let w := WebsocketManager.initial_world "M" in
  let w2 := snd (WebsocketManager.stop_monitoring
                   (snd (WebsocketManager.start_monitoring w))) in
  is_monitoring (manager w2) = false /\ monitor_task (manager w2) = None /\ running w2 = [].
Proof.
  intros w w2.
  destruct (start_then_stop_leaves_no_task w eq_refl eq_refl) as (_ & H & _).
  - cbn. tauto.
  - exact H.
Defined.
(** * The cache of tracked wallets, the dashboard and the monitoring loop *)

Section Cache.
Import WebsocketManager ManagerLoop LoopSpec DbQueries.

Lemma dict_set_append {K V} `{EqDecision K} (d : dict K V) k v :
  ~ In k (dict_keys d) -> dict_set k v d = d ++ [(k, v)].
Proof.
  induction d as [|[k' v'] d IH]; cbn; [reflexivity|].
  intros Hnotin. destruct (decide (k = k')) as [->|Hne]; [exfalso; auto|].
  f_equal. apply IH. auto.
Qed.

(** A comprehension over wallets with distinct addresses lists them in
    order. *)
Lemma cache_of_distinct (l : list WalletTracker) :
  List.NoDup (map wt_address l) -> cache_of l = map (fun t => (wt_address t, t)) l.
Proof.
  unfold cache_of.
  assert (H : forall d,
            List.NoDup (dict_keys d ++ map wt_address l) ->
            fold_left (fun d wallet => dict_set (wt_address wallet) wallet d) l d =
            d ++ map (fun t => (wt_address t, t)) l).
  { induction l as [|t l IH]; intros d Hnd; cbn [fold_left map].
    - now rewrite app_nil_r.
    - rewrite dict_set_append.
      + rewrite IH.
        * now rewrite <- app_assoc.
        * unfold dict_keys in *. rewrite map_app, <- app_assoc. exact Hnd.
      + intros Hin. apply NoDup_remove_2 in Hnd. apply Hnd.
        apply in_or_app. now left. }
  intros Hnd. apply (H []). exact Hnd.
Qed.

Lemma documents_lookup m t :
  In t (documents m) <-> exists a, m !! a = Some t.
Proof.
  unfold documents. rewrite <- list_elem_of_In, list_elem_of_fmap. split.
  - intros ([a t'] & -> & Hin). exists a. now apply elem_of_map_to_list in Hin.
  - intros [a Ha]. exists (a, t). split; [reflexivity|]. now apply elem_of_map_to_list.
Qed.

Lemma documents_distinct m :
  keyed_by_address m -> List.NoDup (map wt_address (documents m)).
Proof.
  intros Hkeyed. unfold documents.
  assert (Heq : map wt_address (map_to_list m).*2 = (map_to_list m).*1).
  { rewrite <- list_fmap_compose. apply list_fmap_ext.
    intros i [a t] Hin. cbn. apply Hkeyed.
    apply elem_of_map_to_list. eapply list_elem_of_lookup_2, Hin. }
  rewrite Heq. apply NoDup_ListNoDup, NoDup_fst_map_to_list.
Qed.

Lemma NoDup_map_filter {A B} (f : A -> B) (P : A -> bool) (l : list A) :
  List.NoDup (map f l) -> List.NoDup (map f (List.filter P l)).
Proof.
  induction l as [|x l IH]; cbn; [auto|].
  intros Hnd. apply List.NoDup_cons_iff in Hnd as [Hx Hnd].
  destruct (P x); cbn; [|now apply IH].
  constructor; [|now apply IH].
  intros Hin. apply Hx. apply in_map_iff in Hin as (y & Hy & Hin).
  apply in_map_iff. exists y. split; [exact Hy|]. now apply List.filter_In in Hin.
Qed.

Lemma In_take {A} (n : nat) (l : list A) x : In x (take n l) -> In x l.
Proof.
  revert n. induction l as [|y l IH]; intros [|n]; cbn; try tauto.
  intros [->|H]; [now left|right; eapply IH, H].
Qed.

Lemma NoDup_map_take {A B} (f : A -> B) (n : nat) (l : list A) :
  List.NoDup (map f l) -> List.NoDup (map f (take n l)).
Proof.
  revert n. induction l as [|x l IH]; intros n Hnd.
  - destruct n; cbn; constructor.
  - destruct n as [|n]; cbn [firstn map]; [constructor|].
    cbn [map] in Hnd. apply List.NoDup_cons_iff in Hnd as [Hx Hnd].
    constructor; [|now apply IH].
    intros Hin. apply Hx. apply in_map_iff in Hin as (y & Hy & Hin).
    apply in_map_iff. exists y. split; [exact Hy|].
    eapply In_take, Hin.
Qed.

Lemma loaded_sound order m t :
  scans_all order -> In t (loaded order m) ->
  active t = true /\ exists a, m !! a = Some t.
Proof.
  intros Hscan Hin. unfold loaded in Hin.
  apply In_take in Hin.
  apply List.filter_In in Hin as [Hin Hactive]. split; [exact Hactive|].
  apply documents_lookup. eapply Permutation_in; [apply Hscan|exact Hin].
Qed.

Lemma loaded_complete order m a t :
  scans_all order ->
  (count_documents active (documents m) <= 1000)%Z ->
  m !! a = Some t -> active t = true -> In t (loaded order m).
Proof.
  intros Hscan Hcount Hlook Hactive. unfold loaded.
  assert (Hlen : (List.length (List.filter active (order m)) <= 1000)%nat).
  { unfold count_documents in Hcount.
    assert (Hperm : Permutation (List.filter active (order m))
                      (List.filter active (documents m))).
    { clear -Hscan. specialize (Hscan m). induction Hscan; cbn.
      - constructor.
      - destruct (active x); [now constructor|assumption].
      - destruct (active x), (active y); try reflexivity. apply perm_swap.
      - etransitivity; eassumption. }
    rewrite (Permutation_length Hperm). lia. }
  rewrite take_ge by exact Hlen.
  apply List.filter_In. split; [|exact Hactive].
  eapply Permutation_in; [symmetry; apply Hscan|].
  apply documents_lookup. eauto.
Qed.

Lemma loaded_distinct order m :
  scans_all order -> keyed_by_address m ->
  List.NoDup (map wt_address (loaded order m)).
Proof.
  intros Hscan Hkeyed. unfold loaded.
  apply NoDup_map_take, NoDup_map_filter.
  eapply Permutation_NoDup; [|apply documents_distinct, Hkeyed].
  apply Permutation_map. symmetry. apply Hscan.
Qed.

(** The run of [load_tracked_wallets]. *)
Lemma load_tracked_wallets_run reads w :
  load_tracked_wallets reads w =
  if tracked_read_ok reads then
    (inr tt,
     with_logs (fun l => l ++ [(INFO, "Loaded tracked wallets from DB into manager cache.")])
       (with_manager
          (set_tracked_wallets (cache_of (loaded (natural_order reads) (wallets (db w))))) w))
  else
    (inr tt,
     with_logs (fun l => l ++ [(INFO, "Loaded tracked wallets from DB into manager cache.")])
       (with_manager (set_tracked_wallets [])
          (with_logs (fun l => l ++ [(ERROR, "Error loading tracked wallets from DB")]) w))).
Proof.
  unfold load_tracked_wallets, get_tracked_wallets_from_db. run_M.
  destruct (tracked_read_ok reads); reflexivity.
Qed.

(** What the cache holds after a load that goes through. *)
Lemma cache_after_load order m :
  scans_all order -> keyed_by_address m ->
  let cache := cache_of (loaded order m) in
  NoDup (dict_keys cache) /\
  (forall a t, dict_get a cache = Some t -> m !! a = Some t /\ active t = true) /\
  ((count_documents active (documents m) <= 1000)%Z ->
   forall a t, m !! a = Some t -> active t = true -> dict_get a cache = Some t).
Proof.
  intros Hscan Hkeyed cache. subst cache.
  pose proof (loaded_distinct order m Hscan Hkeyed) as Hnd.
  rewrite (cache_of_distinct _ Hnd).
  assert (Hkeys : dict_keys (map (fun t => (wt_address t, t)) (loaded order m)) =
                  map wt_address (loaded order m)).
  { unfold dict_keys. rewrite List.map_map. reflexivity. }
  assert (Hnd' : NoDup (dict_keys (map (fun t => (wt_address t, t)) (loaded order m)))).
  { rewrite Hkeys. now apply NoDup_ListNoDup. }
  split; [exact Hnd'|]. split.
  - intros a t Hget. apply dict_get_Some_In in Hget.
    apply in_map_iff in Hget as (t' & Heq & Hin). injection Heq as <- ->.
    destruct (loaded_sound _ _ _ Hscan Hin) as [Hactive [a Ha]].
    rewrite (Hkeyed _ _ Ha). auto.
  - intros Hcount a t Hlook Hactive.
    apply dict_get_In; [exact Hnd'|].
    apply in_map_iff. exists t. split; [now rewrite (Hkeyed _ _ Hlook)|].
    eapply loaded_complete; eassumption.
Qed.

(** The writes of the discovery keep the collection keyed by address. *)
Lemma upsert_trackers_keyed faults now hs : forall m,
  keyed_by_address m ->
  keyed_by_address (DiscoverySpec.upsert_trackers faults now hs m).
Proof.
  induction hs as [|h hs IH]; intros m Hkeyed; [exact Hkeyed|].
  rewrite upsert_trackers_cons. apply IH.
  destruct (WalletDiscovery.wallet_write_ok faults (owner h)); [|exact Hkeyed].
  intros a t Hlook. destruct (decide (owner h = a)) as [<-|Hne].
  - rewrite lookup_insert_eq in Hlook. now injection Hlook as <-.
  - rewrite lookup_insert_ne in Hlook by exact Hne. now apply Hkeyed.
Qed.

Lemma discover_keeps_keyed net_accounts net_mint faults now mint top_n w :
  keyed_by_address (wallets (db w)) ->
  keyed_by_address
    (wallets (db (snd (WalletDiscovery.discover_top_wallets
                         net_accounts net_mint faults now mint top_n w)))).
Proof.
  intros Hkeyed.
  destruct (discover_run net_accounts net_mint faults now mint top_n w)
    as (d & entries & -> & Hd).
  cbn [snd]. rewrite db_writes.
  destruct (fst (SolanaRpc.call_solana_rpc net_accounts "getProgramAccounts" 3 5))
    as [e|[[|a accounts]|]].
  - destruct Hd as [-> _]. exact Hkeyed.
  - destruct Hd as [-> _]. exact Hkeyed.
  - cbv zeta in Hd.
    destruct (WalletDiscovery.aggregate _ _ _) as [e|st].
    + destruct Hd as [-> _]. exact Hkeyed.
    + subst d. unfold DiscoverySpec.persisted. cbn [wallets].
      now apply upsert_trackers_keyed.
  - destruct Hd as [-> _]. exact Hkeyed.
Qed.
End Cache.

(** [load_tracked_wallets] replaces the cache by the active wallets of the
    database.  It never raises and touches neither the database nor the
    registry nor the monitoring state.  When the read goes through, on a
    collection that the driver scans in any order, the cache has one entry
    per address, each entry is an active wallet stored under that address,
    and, with at most 1000 active wallets, every active wallet is cached:
    entries of the old cache that are no longer active wallets are gone.
    When the read fails, the cache is not kept: it is emptied. *)
Theorem load_tracked_wallets_mirrors_active_wallets
    (reads : ManagerLoop.wallet_reads) (w : world) :
  let run := ManagerLoop.load_tracked_wallets reads w in
  let cache := tracked_wallets (manager (snd run)) in
  fst run = inr tt /\
  db (snd run) = db w /\ trace (snd run) = trace w /\
  active_connections (manager (snd run)) = active_connections (manager w) /\
  ManagerSpec.monitoring_state (snd run) = ManagerSpec.monitoring_state w /\
  (ManagerLoop.tracked_read_ok reads = false ->
   cache = [] /\
   In (ERROR, "Error loading tracked wallets from DB") (logs (snd run))) /\
  (ManagerLoop.tracked_read_ok reads = true ->
   LoopSpec.scans_all (ManagerLoop.natural_order reads) ->
   LoopSpec.keyed_by_address (wallets (db w)) ->
   NoDup (dict_keys cache) /\
   (forall a t, dict_get a cache = Some t ->
      wallets (db w) !! a = Some t /\ active t = true) /\
   ((DbQueries.count_documents active (DbQueries.documents (wallets (db w))) <= 1000)%Z ->
    forall a t, wallets (db w) !! a = Some t -> active t = true ->
      dict_get a cache = Some t)).
Proof.
  intros run cache. subst run cache. rewrite load_tracked_wallets_run.
  destruct (ManagerLoop.tracked_read_ok reads); cbn [fst snd].
  - do 5 (split; [reflexivity|]). split; [discriminate|].
    intros _ Hscan Hkeyed. exact (cache_after_load _ _ Hscan Hkeyed).
  - do 5 (split; [reflexivity|]). split; [|discriminate].
    intros _. split; [reflexivity|].
    cbn. apply in_or_app. left. apply in_or_app. right. now left.
Qed.

(** The database of a discovery over the three accounts holds A and B;
    a manager that cached a wallet W1 holds A and B after a load. *)
Lemma load_tracked_wallets_mirrors_active_wallets_witness :
  let w := with_manager (fun _ => ManagerExamples.tracks_W1)
             (snd (WalletDiscovery.discover_top_wallets
                     (Examples.accounts_reply Examples.three_accounts)
                     (Examples.mint_reply 1000 0) WalletDiscovery.no_faults 0 "M" 100
                     Examples.world0)) in
  let reads := {| ManagerLoop.tracked_read_ok := true;
                  ManagerLoop.natural_order := DbQueries.documents |} in
  let cache := tracked_wallets (manager (snd (ManagerLoop.load_tracked_wallets reads w))) in
  dict_get "A" cache = Some (WalletDiscovery.tracker_of 0 (Examples.holder "A" "a1" 150)) /\
  dict_get "W1" cache = None.
Proof.
  intros w reads cache.
  destruct (load_tracked_wallets_mirrors_active_wallets reads w)
    as (_ & _ & _ & _ & _ & _ & H).
  destruct H as (_ & Hsound & Hcomplete).
  - reflexivity.
  - intros m. reflexivity.
  - apply discover_keeps_keyed. intros a t Hlook. discriminate Hlook.
  - split.
    + apply Hcomplete; [vm_compute; discriminate|reflexivity|reflexivity].
    + destruct (dict_get "W1" cache) as [t|] eqn:E; [|reflexivity].
      destruct (Hsound _ _ E) as [Hlook _]. vm_compute in Hlook. discriminate Hlook.
Defined.

Section Loop.
Import WebsocketManager ManagerLoop LoopSpec ManagerSpec BroadcastSpec WorldOrder DashboardSpec.

Lemma keeps_cache_refl w : keeps_cache w w.
Proof. unfold keeps_cache. auto. Qed.

Lemma keeps_cache_trans w1 w2 w3 : keeps_cache w1 w2 -> keeps_cache w2 w3 -> keeps_cache w1 w3.
Proof. unfold keeps_cache. intuition congruence. Qed.

Lemma keeps_wallets_refl w : keeps_wallets w w.
Proof. unfold keeps_wallets. repeat split. Qed.

Lemma keeps_wallets_trans w1 w2 w3 :
  keeps_wallets w1 w2 -> keeps_wallets w2 w3 -> keeps_wallets w1 w3.
Proof. unfold keeps_wallets. intuition congruence. Qed.

Lemma keeps_cache_wallets w w' : keeps_cache w w' -> keeps_wallets w w'.
Proof. unfold keeps_cache, keeps_wallets. intuition congruence. Qed.

Lemma shrinks_refl w : shrinks w w.
Proof. unfold shrinks. lia. Qed.

Lemma shrinks_trans w1 w2 w3 : shrinks w1 w2 -> shrinks w2 w3 -> shrinks w1 w3.
Proof. unfold shrinks. lia. Qed.

Lemma dict_del_length {K V} `{EqDecision K} (k : K) (d : dict K V) :
  (List.length (dict_del k d) <= List.length d)%nat.
Proof.
  induction d as [|[k' v'] d IH]; cbn; [lia|].
  destruct (decide (k = k')); cbn; lia.
Qed.

Lemma disconnect_keeps_cache ws : preserves keeps_cache (disconnect ws).
Proof.
  intros w. unfold keeps_cache, disconnect, stop_monitoring, cancel_and_await. run_M.
  destruct w as [d [ac tw im mt ldr dis lps tc] lg tr rn sp ct]. cbn.
  destruct (find_client ws ac) as [cid|]; cbn.
  - destruct (dict_del cid ac); cbn; [|auto].
    destruct im; cbn; [|auto].
    destruct mt as [t|]; cbn; [|auto].
    destruct (bool_decide (ct = Some t)); cbn;
      [|destruct (bool_decide (t ∈ rn)); cbn]; auto.
  - destruct ac; cbn; [|auto].
    destruct im; cbn; [|auto].
    destruct mt as [t|]; cbn; [|auto].
    destruct (bool_decide (ct = Some t)); cbn;
      [|destruct (bool_decide (t ∈ rn)); cbn]; auto.
Qed.

Lemma disconnect_shrinks ws : preserves shrinks (disconnect ws).
Proof.
  intros w. destruct (disconnect_spec ws w) as (_ & Hc & _).
  unfold shrinks. rewrite Hc. unfold drop.
  destruct (find_client ws (active_connections (manager w))); [apply dict_del_length|lia].
Qed.

(** [broadcast] leaves the cache, the schedule and the database alone, and
    the registry does not grow. *)
Lemma broadcast_keeps_cache net msg : preserves keeps_cache (broadcast net msg).
Proof.
  intros w. unfold broadcast. rewrite bind_run. cbn [gets]. rewrite bind_run.
  destruct (send_all_run net msg (dict_values (active_connections (manager w))) w)
    as [entries ->].
  set (w1 := after_events _ entries w).
  assert (H1 : keeps_cache w w1) by (unfold keeps_cache; cbn; auto).
  destruct (send_all_result net (dict_values (active_connections (manager w))))
    as [e|gone]; cbn [snd]; [exact H1|].
  rewrite bind_run.
  pose proof (preserves_for_each keeps_cache keeps_cache_refl keeps_cache_trans disconnect gone
                disconnect_keeps_cache w1) as H2.
  destruct (for_each disconnect gone w1) as [[e|[]] w2]; cbn [snd] in *;
    [exact (keeps_cache_trans _ _ _ H1 H2)|].
  destruct gone; cbn [snd mret M_ret ret log modify];
    [exact (keeps_cache_trans _ _ _ H1 H2)|].
  apply (keeps_cache_trans _ _ _ H1). unfold keeps_cache in *. cbn. exact H2.
Qed.

Lemma broadcast_shrinks net msg : preserves shrinks (broadcast net msg).
Proof.
  intros w. unfold broadcast. rewrite bind_run. cbn [gets]. rewrite bind_run.
  destruct (send_all_run net msg (dict_values (active_connections (manager w))) w)
    as [entries ->].
  set (w1 := after_events _ entries w).
  assert (H1 : shrinks w w1) by (unfold shrinks; cbn; lia).
  destruct (send_all_result net (dict_values (active_connections (manager w))))
    as [e|gone]; cbn [snd]; [exact H1|].
  rewrite bind_run.
  pose proof (preserves_for_each shrinks shrinks_refl shrinks_trans disconnect gone
                disconnect_shrinks w1) as H2.
  destruct (for_each disconnect gone w1) as [[e|[]] w2]; cbn [snd] in *;
    [exact (shrinks_trans _ _ _ H1 H2)|].
  destruct gone; cbn [snd mret M_ret ret log modify];
    [exact (shrinks_trans _ _ _ H1 H2)|].
  apply (shrinks_trans _ _ _ H1). unfold shrinks in *. cbn. exact H2.
Qed.

Variable json_dumps : payload -> string.

(** The reads of the dashboard only log. *)
Lemma dashboard_of_run reads now w :
  exists entries,
    dashboard_of reads now w =
    (inr (dashboard_value reads now w), DiscoverySpec.writes_and_logs w (db w) entries).
Proof.
  unfold dashboard_of, dashboard_value, snapshot_of_reads, recent_of, or_nothing,
    DbQueries.get_token_holder_snapshot, DbService.get_token_holder_snapshot,
    DbQueries.get_recent_transactions, DbQueries.get_protocol_stats,
    DbQueries.get_active_wallets_stats, DbQueries.lift.
  run_M.
  destruct (holders_read_ok reads);
    destruct (recent_reply reads) as [e1|docs]; [| destruct (DbQueries.validate_all docs) | |
      destruct (DbQueries.validate_all docs)];
    destruct (protocol_reply reads), (active_reply reads); cbn;
    rewrite ?with_logs_writes, ?writes_and_logs_again, ?db_writes;
    try (eexists; reflexivity);
    exists []; now rewrite writes_and_logs_id.
Qed.

(** The run of [broadcast_dashboard_data]: one broadcast of the
    dictionary of the world, after the reads. *)
Lemma broadcast_dashboard_data_run reads now net w :
  exists entries w',
    let w1 := DiscoverySpec.writes_and_logs w (db w) entries in
    let frame := Text (json_dumps (DashboardUpdate (dashboard_value reads now w))) in
    broadcast_dashboard_data json_dumps reads now net w = (inr tt, w') /\
    keeps_cache (snd (broadcast net frame w1)) w' /\
    shrinks (snd (broadcast net frame w1)) w' /\
    settled (snd (broadcast net frame w1)) w' /\
    trace w' = trace (snd (broadcast net frame w1)).
Proof.
  unfold broadcast_dashboard_data.
  destruct (dashboard_of_run reads now w) as [entries Hrun].
  exists entries. unfold try_except. rewrite bind_run, Hrun. rewrite bind_run.
  destruct (broadcast net _ _) as [[e|[]] w2]; cbn [fst snd];
    eexists; (split; [reflexivity|]);
    unfold keeps_cache, shrinks, settled; cbn; repeat split; auto.
Qed.

(** The generator never raises and leaves the cache, the schedule, the
    wallets and the snapshots alone. *)
Lemma generate_keeps_wallets rnd insert_ok net w :
  let run := generate_and_broadcast_mock_transaction rnd insert_ok net w in
  fst run = inr tt /\ keeps_wallets w (snd run).
Proof.
  unfold generate_and_broadcast_mock_transaction, DbService.insert_realtime_transaction.
  rewrite bind_run. cbn [gets].
  destruct (tracked_wallets (manager w)) as [|entry rest] eqn:Etw.
  { split; [reflexivity|]. unfold keeps_wallets. cbn. repeat split. }
  destruct (mock_transaction_Some rnd (manager w)) as [tx Hmock]; [congruence|].
  rewrite Hmock.
  destruct insert_ok; run_M;
    match goal with |- context [broadcast net ?msg ?w1] =>
      pose proof (broadcast_keeps_cache net msg w1) as Hk;
      destruct (broadcast net msg w1) as [[e|[]] w2]
    end; cbn [fst snd] in *; (split; [reflexivity|]);
    unfold keeps_cache, keeps_wallets in *; cbn in *;
    destruct Hk as (H1 & H2 & H3 & H4 & H5); rewrite ?H1, ?H2, ?H3, ?H4, ?H5;
    repeat split.
Qed.
End Loop.

Section Iteration.
Import WebsocketManager ManagerLoop LoopSpec ManagerSpec BroadcastSpec WorldOrder DashboardSpec.
Variable json_dumps : payload -> string.

(** A run of the discovery changes the database and the log only, and in
    the database neither the transactions nor, when it does not reach its
    writes, anything else. *)
Lemma discover_world net_accounts net_mint faults now mint top_n w :
  exists d entries,
    WalletDiscovery.discover_top_wallets net_accounts net_mint faults now mint top_n w =
    (inr tt, DiscoverySpec.writes_and_logs w d entries) /\
    realtime_transactions d = realtime_transactions (db w).
Proof.
  destruct (discover_run net_accounts net_mint faults now mint top_n w)
    as (d & entries & Hrun & Hd).
  exists d, entries. split; [exact Hrun|].
  destruct (fst (SolanaRpc.call_solana_rpc net_accounts "getProgramAccounts" 3 5))
    as [e|[[|a accounts]|]]; try (destruct Hd as [-> _]; reflexivity).
  cbv zeta in Hd. destruct (WalletDiscovery.aggregate _ _ _) as [e|st].
  - destruct Hd as [-> _]. reflexivity.
  - subst d. reflexivity.
Qed.

(** The database that a run leaves depends on the database it finds. *)
Lemma discover_db_determined net_accounts net_mint faults now mint top_n w w0 :
  db w0 = db w ->
  db (snd (WalletDiscovery.discover_top_wallets net_accounts net_mint faults now mint top_n w0)) =
  db (snd (WalletDiscovery.discover_top_wallets net_accounts net_mint faults now mint top_n w)).
Proof.
  intros Hdb.
  destruct (discover_run net_accounts net_mint faults now mint top_n w0)
    as (d0 & e0 & -> & H0).
  destruct (discover_run net_accounts net_mint faults now mint top_n w)
    as (d & e & -> & H).
  cbn [snd]. rewrite !db_writes. rewrite Hdb in H0.
  destruct (fst (SolanaRpc.call_solana_rpc net_accounts "getProgramAccounts" 3 5))
    as [ex|[[|a accounts]|]];
    try (destruct H0 as [-> _]; destruct H as [-> _]; reflexivity).
  cbv zeta in H0, H. destruct (WalletDiscovery.aggregate _ _ _) as [ex|st].
  - destruct H0 as [-> _]; destruct H as [-> _]; reflexivity.
  - congruence.
Qed.

(** The wallets after a discovery that reaches its writes. *)
Lemma discover_wallets_after net_accounts net_mint faults now mint top_n w accounts st :
  fst (SolanaRpc.call_solana_rpc net_accounts "getProgramAccounts" 3 5) = inr (Some accounts) ->
  accounts <> [] ->
  WalletDiscovery.aggregate (DiscoverySpec.decimals_seen (DiscoverySpec.supply_seen net_mint))
    ([], []) accounts = inr st ->
  wallets (db (snd (WalletDiscovery.discover_top_wallets
                      net_accounts net_mint faults now mint top_n w))) =
  DiscoverySpec.upsert_trackers faults now
    (DiscoveryTotals.top_holders
       (DiscoverySpec.decimals_seen (DiscoverySpec.supply_seen net_mint)) top_n st)
    (wallets (db w)).
Proof.
  intros Hquery Hne Hagg.
  destruct (discover_run net_accounts net_mint faults now mint top_n w)
    as (d & entries & -> & Hd).
  rewrite Hquery in Hd. destruct accounts as [|a accounts]; [congruence|].
  cbv zeta in Hd. rewrite Hagg in Hd. subst d. reflexivity.
Qed.

(** One iteration of the loop, field by field. *)
Lemma monitor_iteration_run env w :
  let run := monitor_iteration json_dumps env w in
  let due := discovery_due (manager w) (current_time env) in
  let found := snd (WalletDiscovery.discover_top_wallets (tick_accounts env) (tick_mint env)
                      (tick_faults env) (tick_discovery_clock env)
                      (TOKEN_CONTRACT (manager w)) 100 w) in
  fst run = inr tt /\
  tracked_wallets (manager (snd run)) = tracked_wallets (manager w) /\
  discovery_interval_seconds (manager (snd run)) = discovery_interval_seconds (manager w) /\
  TOKEN_CONTRACT (manager (snd run)) = TOKEN_CONTRACT (manager w) /\
  last_discovery_run (manager (snd run)) =
    (if due then Some (current_time env) else last_discovery_run (manager w)) /\
  wallets (db (snd run)) = (if due then wallets (db found) else wallets (db w)) /\
  token_holders (db (snd run)) =
    (if due then token_holders (db found) else token_holders (db w)) /\
  (tracked_wallets (manager w) = [] ->
   realtime_transactions (db (snd run)) = realtime_transactions (db w)).
Proof.
  intros run due found. subst run due found.
  unfold monitor_iteration, monitor_body, try_except.
  rewrite bind_run. cbn [gets]. rewrite bind_run.
  set (discovery := if discovery_due (manager w) (current_time env) then _ else _).
  assert (Hdisc : exists w1,
            discovery w = (inr tt, w1) /\
            tracked_wallets (manager w1) = tracked_wallets (manager w) /\
            discovery_interval_seconds (manager w1) = discovery_interval_seconds (manager w) /\
            TOKEN_CONTRACT (manager w1) = TOKEN_CONTRACT (manager w) /\
            last_discovery_run (manager w1) =
              (if discovery_due (manager w) (current_time env)
               then Some (current_time env) else last_discovery_run (manager w)) /\
            wallets (db w1) =
              (if discovery_due (manager w) (current_time env)
               then wallets (db (snd (WalletDiscovery.discover_top_wallets
                                        (tick_accounts env) (tick_mint env) (tick_faults env)
                                        (tick_discovery_clock env)
                                        (TOKEN_CONTRACT (manager w)) 100 w)))
               else wallets (db w)) /\
            token_holders (db w1) =
              (if discovery_due (manager w) (current_time env)
               then token_holders (db (snd (WalletDiscovery.discover_top_wallets
                                              (tick_accounts env) (tick_mint env)
                                              (tick_faults env) (tick_discovery_clock env)
                                              (TOKEN_CONTRACT (manager w)) 100 w)))
               else token_holders (db w)) /\
            realtime_transactions (db w1) = realtime_transactions (db w)).
  { subst discovery. destruct (discovery_due (manager w) (current_time env)).
    - rewrite bind_run. cbn [log modify]. rewrite bind_run.
      set (w0 := with_logs _ w).
      destruct (discover_world (tick_accounts env) (tick_mint env) (tick_faults env)
                  (tick_discovery_clock env) (TOKEN_CONTRACT (manager w)) 100 w0)
        as (d & entries & Hrun & Htx).
      pose proof (discover_db_determined (tick_accounts env) (tick_mint env) (tick_faults env)
                    (tick_discovery_clock env) (TOKEN_CONTRACT (manager w)) 100 w w0 eq_refl)
        as Hsame.
      change (manager w0) with (manager w). rewrite Hrun in Hsame |- *.
      cbn [snd fst] in Hsame |- *. rewrite db_writes in Hsame. rewrite <- Hsame.
      eexists. split; [reflexivity|].
      cbn. repeat split. exact Htx.
    - exists w. cbn. repeat split. }
  destruct Hdisc as (w1 & -> & Htw & Hint & Htc & Hlast & Hwal & Hhold & Htx).
  rewrite bind_run. cbn [gets]. rewrite bind_run.
  set (generation := match tracked_wallets (manager w1) with [] => _ | _ :: _ => _ end).
  assert (Hgen : exists w2, generation w1 = (inr tt, w2) /\ keeps_wallets w1 w2 /\
                   (tracked_wallets (manager w1) = [] -> w2 = w1)).
  { subst generation. destruct (tracked_wallets (manager w1)) eqn:E.
    - exists w1. split; [reflexivity|]. split; [apply keeps_wallets_refl|reflexivity].
    - pose proof (generate_keeps_wallets (tick_draws env) (tick_insert_ok env)
                    (tick_sockets env) w1) as [Hret Hkeep].
      destruct (generate_and_broadcast_mock_transaction _ _ _ w1) as [r w2].
      cbn [fst snd] in *. subst r. exists w2. split; [reflexivity|].
      split; [exact Hkeep|discriminate]. }
  destruct Hgen as (w2 & -> & Hkeep & Hnone).
  destruct (broadcast_dashboard_data_run json_dumps (tick_reads env) (tick_dashboard_clock env)
              (tick_sockets env) w2) as (entries & w3 & Hrun & Hk3 & _).
  cbv zeta in Hrun, Hk3. rewrite Hrun. cbn [fst snd].
  match type of Hk3 with keeps_cache (snd (broadcast ?net ?msg ?wx)) _ =>
    pose proof (broadcast_keeps_cache net msg wx) as Hk2 end.
  pose proof (keeps_cache_trans _ _ _ Hk2 Hk3) as Hk.
  unfold keeps_cache, keeps_wallets in Hk, Hkeep. cbn in Hk.
  destruct Hk as (K1 & K2 & K3 & K4 & K5).
  destruct Hkeep as (G1 & G2 & G3 & G4 & G5 & G6).
  split; [reflexivity|].
  repeat split; try congruence.
  intros Hempty. rewrite K5, Hnone by congruence. exact Htx.
Qed.
End Iteration.

(** [WalletManager.discover_top_wallets] leaves in the cache what the
    discovery stored.  In a run that reaches its writes, followed by a
    reload that goes through on a collection keyed by address, the cache
    has one entry per address and each entry is an active wallet of the
    database; with at most 1000 active wallets, every holder of the run
    whose tracker was written is cached with that tracker, and the active
    wallets stored before that are not among the holders stay cached:
    the tracked set only grows. *)
Theorem manager_discovery_reloads_cache
    (net_accounts : nat -> SolanaRpc.response (option (list WalletDiscovery.raw_account)))
    (net_mint : nat -> SolanaRpc.response (option SolanaRpc.mint_info))
    (faults : WalletDiscovery.db_faults) (reads : ManagerLoop.wallet_reads)
    (now : Z) (mint : string) (top_n : Z) (w : world)
    (accounts : list WalletDiscovery.raw_account) (st : WalletDiscovery.aggregation) :
  fst (SolanaRpc.call_solana_rpc net_accounts "getProgramAccounts" 3 5) = inr (Some accounts) ->
  accounts <> [] ->
  WalletDiscovery.aggregate (DiscoverySpec.decimals_seen (DiscoverySpec.supply_seen net_mint))
    ([], []) accounts = inr st ->
  ManagerLoop.tracked_read_ok reads = true ->
  LoopSpec.scans_all (ManagerLoop.natural_order reads) ->
  LoopSpec.keyed_by_address (wallets (db w)) ->
  let run := ManagerLoop.discover_top_wallets net_accounts net_mint faults reads
               now mint top_n w in
  let cache := tracked_wallets (manager (snd run)) in
  let top := DiscoveryTotals.top_holders
               (DiscoverySpec.decimals_seen (DiscoverySpec.supply_seen net_mint)) top_n st in
  fst run = inr tt /\
  NoDup (dict_keys cache) /\
  (forall a t, dict_get a cache = Some t ->
     wallets (db (snd run)) !! a = Some t /\ active t = true) /\
  ((DbQueries.count_documents active (DbQueries.documents (wallets (db (snd run)))) <= 1000)%Z ->
   (forall h, In h top -> WalletDiscovery.wallet_write_ok faults (owner h) = true ->
      dict_get (owner h) cache = Some (WalletDiscovery.tracker_of now h)) /\
   (forall a t, wallets (db w) !! a = Some t -> active t = true ->
      (forall h, In h top -> owner h <> a) ->
      dict_get a cache = Some t)).
Proof.
  intros Hquery Hne Hagg Hok Hscan Hkeyed run cache top. subst run cache top.
  unfold ManagerLoop.discover_top_wallets. rewrite bind_run.
  pose proof (discover_keeps_keyed net_accounts net_mint faults now mint top_n w Hkeyed)
    as Hkeyed'.
  pose proof (discover_wallets_after net_accounts net_mint faults now mint top_n w
                accounts st Hquery Hne Hagg) as Hwallets.
  destruct (discover_world net_accounts net_mint faults now mint top_n w)
    as (d & entries & Hrun & _).
  rewrite Hrun in Hkeyed', Hwallets |- *. cbn [snd] in Hkeyed', Hwallets.
  rewrite db_writes in Hkeyed', Hwallets.
  rewrite load_tracked_wallets_run, Hok. cbn [fst snd].
  cbn [manager with_logs with_manager db DiscoverySpec.writes_and_logs
       ManagerLoop.set_tracked_wallets tracked_wallets].
  destruct (cache_after_load (ManagerLoop.natural_order reads) (wallets d) Hscan Hkeyed')
    as (Hnd & Hsound & Hcomplete).
  split; [reflexivity|]. split; [exact Hnd|]. split; [exact Hsound|].
  intros Hcount. specialize (Hcomplete Hcount). split.
  - intros h Hin Hwrite. apply Hcomplete; [|reflexivity].
    rewrite Hwallets, upsert_trackers_written, Hwrite; [reflexivity| |exact Hin].
    eapply top_holders_NoDup, Hagg.
  - intros a t Hlook Hactive Hother. apply Hcomplete; [|exact Hactive].
    rewrite Hwallets, upsert_trackers_other; assumption.
Qed.

(** The three accounts on an empty database: A and B are cached. *)
Lemma manager_discovery_reloads_cache_witness :
  let run := ManagerLoop.discover_top_wallets
               (Examples.accounts_reply Examples.three_accounts)
               (Examples.mint_reply 1000 0) WalletDiscovery.no_faults
               LoopExamples.reads_in_order 0 "M" 100 Examples.world0 in
  fst run = inr tt /\
  dict_get "B" (tracked_wallets (manager (snd run)))
    = Some (WalletDiscovery.tracker_of 0 (Examples.holder "B" "b1" 30)).
Proof.
  intros run.
  destruct (manager_discovery_reloads_cache
              (Examples.accounts_reply Examples.three_accounts)
              (Examples.mint_reply 1000 0) WalletDiscovery.no_faults
              LoopExamples.reads_in_order 0 "M" 100 Examples.world0
              Examples.three_accounts
              ([("A", 150%Q); ("B", 30%Q)], [("A", "a1"); ("B", "b1")])
              eq_refl ltac:(discriminate) eq_refl eq_refl)
    as (Hret & _ & _ & Hcached).
  - intros m. reflexivity.
  - intros a t Hlook. discriminate Hlook.
  - split; [exact Hret|].
    destruct Hcached as [Hholders _]; [vm_compute; discriminate|].
    apply (Hholders (Examples.holder "B" "b1" 30)); [right; now left|reflexivity].
Defined.

(** [broadcast_dashboard_data] never raises, whatever the database and the
    sockets do.  It changes neither the database nor the cache nor the
    schedule of the discovery, and does not switch monitoring on.  One
    frame, the dictionary built from the state before the sends, goes to
    the connections of the registry in order, up to the first socket that
    raises something else than [RuntimeError].  The count of connected
    clients in the frame is the size of the registry before the closed
    connections are pruned, so it is never below the size afterwards.  At
    most ten holders are listed; reads that fail give empty members, and
    the frame is sent all the same. *)
Theorem dashboard_broadcast_never_raises
    (json_dumps : ManagerLoop.payload -> string) (reads : ManagerLoop.dashboard_reads)
    (now : Z) (net : WebsocketManager.sockets) (w : world) :
  let run := ManagerLoop.broadcast_dashboard_data json_dumps reads now net w in
  let data := DashboardSpec.dashboard_value reads now w in
  let frame := Text (json_dumps (ManagerLoop.DashboardUpdate data)) in
  let snapshot := dict_values (active_connections (manager w)) in
  fst run = inr tt /\
  LoopSpec.keeps_cache w (snd run) /\
  ManagerSpec.settled w (snd run) /\
  (exists evs,
     trace (snd run) =
       trace w ++ map (ManagerSpec.send_event net frame) (ManagerSpec.attempted net snapshot)
               ++ evs /\
     ManagerSpec.targets evs = []) /\
  ManagerLoop.connected_clients data = Z.of_nat (List.length snapshot) /\
  (Z.of_nat (List.length (active_connections (manager (snd run))))
   <= ManagerLoop.connected_clients data)%Z /\
  (List.length (ManagerLoop.top_holders data) <= 10)%nat /\
  (reads = LoopSpec.reads_down ->
   ManagerLoop.top_holders data = [] /\ ManagerLoop.dash_holder_count data = 0%Z /\
   ManagerLoop.recent_transactions data = [] /\ ManagerLoop.protocol_usage data = [] /\
   ManagerLoop.most_active_wallets data = []).
Proof.
  intros run data frame snapshot. subst run data frame snapshot.
  destruct (broadcast_dashboard_data_run json_dumps reads now net w)
    as (entries & w' & Hrun & Hk & Hsh & Hse & Htr).
  cbv zeta in Hrun, Hk, Hsh, Hse, Htr. rewrite Hrun. cbn [fst snd].
  set (w1 := DiscoverySpec.writes_and_logs w (db w) entries) in *.
  set (frame := Text (json_dumps (ManagerLoop.DashboardUpdate
                                    (DashboardSpec.dashboard_value reads now w)))) in *.
  pose proof (broadcast_general net frame w1) as (Hev & Hs1 & _).
  pose proof (broadcast_keeps_cache net frame w1) as Hk1.
  pose proof (broadcast_shrinks net frame w1) as Hsh1.
  split; [reflexivity|]. split; [|split; [|split; [|split; [|split; [|split]]]]].
  - apply (keeps_cache_trans w w1); [unfold LoopSpec.keeps_cache; cbn; auto|].
    exact (keeps_cache_trans _ _ _ Hk1 Hk).
  - apply (settled_trans w w1); [unfold ManagerSpec.settled; cbn; auto|].
    exact (settled_trans _ _ _ Hs1 Hse).
  - rewrite Htr. exact Hev.
  - cbn. unfold dict_values. now rewrite length_map.
  - pose proof (shrinks_trans _ _ _ Hsh1 Hsh) as H. unfold DashboardSpec.shrinks in H.
    cbn in H |- *. lia.
  - unfold DashboardSpec.dashboard_value. cbn [ManagerLoop.top_holders].
    destruct (DashboardSpec.snapshot_of_reads reads w) as [snapshot|]; [|cbn; lia].
    pose proof (py_slice_to_length 10 (holders snapshot)). lia.
  - intros ->. cbn. repeat split.
Qed.

(** Three clients of which the second is closed: the frame says three. *)
Lemma dashboard_broadcast_never_raises_witness :
  let w := ManagerExamples.three_clients_monitored in
  let run := ManagerLoop.broadcast_dashboard_data LoopExamples.type_of LoopSpec.reads_down
               0 ManagerExamples.socket_11_closed w in
  ManagerLoop.top_holders (DashboardSpec.dashboard_value LoopSpec.reads_down 0 w) = [] /\
  ManagerLoop.connected_clients (DashboardSpec.dashboard_value LoopSpec.reads_down 0 w) = 3%Z /\
  List.length (active_connections (manager (snd run))) = 2%nat.
Proof.
  intros w run.
  destruct (dashboard_broadcast_never_raises LoopExamples.type_of LoopSpec.reads_down
              0 ManagerExamples.socket_11_closed w) as (_ & _ & _ & _ & Hn & _ & _ & Hdown).
  destruct (Hdown eq_refl) as (Hnone & _).
  split; [exact Hnone|]. split; [exact Hn|reflexivity].
Defined.

(** The monitoring loop never reloads the cache of tracked wallets.
    However many iterations run and whatever they find, the loop returns
    without an exception and the cache is the one it started with; a loop
    that starts with an empty cache therefore generates no transaction,
    even in iterations whose discovery stores wallets. *)
Theorem monitor_loop_never_reloads_cache
    (json_dumps : ManagerLoop.payload -> string) (envs : list ManagerLoop.tick) (w : world) :
  let run := ManagerLoop.monitor_wallets_periodically json_dumps envs w in
  fst run = inr tt /\
  tracked_wallets (manager (snd run)) = tracked_wallets (manager w) /\
  (tracked_wallets (manager w) = [] ->
   realtime_transactions (db (snd run)) = realtime_transactions (db w)).
Proof.
  revert w. induction envs as [|env envs IH]; intros w; [cbn; auto|].
  cbn [ManagerLoop.monitor_wallets_periodically]. rewrite bind_run. cbn [gets].
  destruct (is_monitoring (manager w)); [|cbn; auto].
  rewrite bind_run.
  destruct (monitor_iteration_run json_dumps env w) as (Hret & Htw & _ & _ & _ & _ & _ & Htx).
  destruct (ManagerLoop.monitor_iteration json_dumps env w) as [r w1].
  cbn [fst snd] in *. subst r.
  destruct (IH w1) as (Hret' & Htw' & Htx').
  split; [exact Hret'|]. split; [congruence|].
  intros Hempty. rewrite Htx' by congruence. now apply Htx.
Qed.

(** Two iterations on a monitoring manager with an empty cache: the
    discovery stores A and B, and nothing is tracked or generated. *)
Lemma monitor_loop_never_reloads_cache_witness :
  let w := WebsocketManager.run [WebsocketManager.StartMonitoring]
             (WebsocketManager.initial_world "M") in
  let run := ManagerLoop.monitor_wallets_periodically LoopExamples.type_of
               [LoopExamples.tick_three_accounts 0; LoopExamples.tick_three_accounts 5] w in
  size (wallets (db (snd run))) = 2%nat /\
  tracked_wallets (manager (snd run)) = [] /\
  realtime_transactions (db (snd run)) = [].
Proof.
  intros w run.
  destruct (monitor_loop_never_reloads_cache LoopExamples.type_of
              [LoopExamples.tick_three_accounts 0; LoopExamples.tick_three_accounts 5] w)
    as (_ & Htw & Htx).
  split; [vm_compute; reflexivity|]. split; [exact Htw|].
  apply Htx. reflexivity.
Defined.

(** The schedule of the discovery in the loop.  An iteration runs the
    discovery exactly when none has run or when the interval has elapsed
    since the last one.  If it does not, the run time, the wallets and the
    snapshots are left alone.  If it does, the run time becomes the time
    of the iteration, whether the discovery stored anything or failed:
    after a discovery that could not reach the node, the database is as
    before and the next discovery is due only once the interval has
    elapsed again. *)
Theorem monitor_iteration_discovery_schedule
    (json_dumps : ManagerLoop.payload -> string) (env : ManagerLoop.tick) (w : world) :
  let run := ManagerLoop.monitor_iteration json_dumps env w in
  let m := manager w in
  let m' := manager (snd run) in
  let T := ManagerLoop.current_time env in
  (ManagerLoop.discovery_due m T = true <->
   last_discovery_run m = None \/
   exists last, last_discovery_run m = Some last /\
                (discovery_interval_seconds m <= T - last)%Z) /\
  (ManagerLoop.discovery_due m T = false ->
   last_discovery_run m' = last_discovery_run m /\
   wallets (db (snd run)) = wallets (db w) /\
   token_holders (db (snd run)) = token_holders (db w)) /\
  (ManagerLoop.discovery_due m T = true ->
   last_discovery_run m' = Some T /\
   (forall t, ManagerLoop.discovery_due m' t = true <->
              (discovery_interval_seconds m <= t - T)%Z) /\
   ((exists e, fst (SolanaRpc.call_solana_rpc (ManagerLoop.tick_accounts env)
                      "getProgramAccounts" 3 5) = inl e) ->
    wallets (db (snd run)) = wallets (db w) /\
    token_holders (db (snd run)) = token_holders (db w))).
Proof.
  intros run m m' T. subst run m m' T.
  destruct (monitor_iteration_run json_dumps env w)
    as (_ & _ & Hint & _ & Hlast & Hwal & Hhold & _).
  cbv zeta in Hlast, Hwal, Hhold.
  split; [|split].
  - unfold ManagerLoop.discovery_due.
    destruct (last_discovery_run (manager w)) as [last|].
    + rewrite Z.leb_le. split.
      * intros H. right. exists last. auto.
      * intros [H|(l & Hl & H)]; [discriminate|]. now injection Hl as ->.
    + split; auto.
  - intros Hdue. rewrite Hdue in Hlast, Hwal, Hhold. auto.
  - intros Hdue. rewrite Hdue in Hlast, Hwal, Hhold.
    split; [exact Hlast|]. split.
    + intros t. unfold ManagerLoop.discovery_due at 1. rewrite Hlast, Hint.
      apply Z.leb_le.
    + intros [e He]. rewrite Hwal, Hhold.
      destruct (discover_run (ManagerLoop.tick_accounts env) (ManagerLoop.tick_mint env)
                  (ManagerLoop.tick_faults env) (ManagerLoop.tick_discovery_clock env)
                  (TOKEN_CONTRACT (manager w)) 100 w) as (d & entries & -> & Hd).
      rewrite He in Hd. destruct Hd as [-> _]. split; reflexivity.
Qed.

(** A fresh manager whose first iteration, at time 1000, cannot reach the
    node: the next discovery is due at 22600, not before. *)
Lemma monitor_iteration_discovery_schedule_witness :
  let w := WebsocketManager.initial_world "M" in
  let m' := manager (snd (ManagerLoop.monitor_iteration LoopExamples.type_of
                            (LoopExamples.tick_offline 1000) w)) in
  last_discovery_run m' = Some 1000%Z /\
  ManagerLoop.discovery_due m' 22599 = false /\
  ManagerLoop.discovery_due m' 22600 = true.
Proof.
  intros w m'.
  destruct (monitor_iteration_discovery_schedule LoopExamples.type_of
              (LoopExamples.tick_offline 1000) w) as (_ & _ & H).
  destruct (H eq_refl) as (Hlast & Hdue & _).
  split; [exact Hlast|]. split.
  - destruct (ManagerLoop.discovery_due m' 22599) eqn:E; [|reflexivity].
    apply Hdue in E. cbn in E. lia.
  - apply Hdue. cbn. lia.
Defined.

(** The hooks of the application.  [startup_event] never raises and ends
    with monitoring on and one new task, whether or not the database can
    be read: the cache then holds the active wallets it found, or nothing.
    [shutdown_event] that follows it ends that task, and leaves the
    database as the start-up found it. *)
Theorem startup_then_shutdown (reads : ManagerLoop.wallet_reads) (w : world) :
  is_monitoring (manager w) = false ->
  current_task w = None ->
  ~ In (spawned w) (running w) ->
  let up := Main.startup_event reads w in
  let down := Main.shutdown_event (snd up) in
  fst up = inr tt /\
  is_monitoring (manager (snd up)) = true /\
  monitor_task (manager (snd up)) = Some (spawned w) /\
  running (snd up) = running w ++ [spawned w] /\
  tracked_wallets (manager (snd up)) =
    (if ManagerLoop.tracked_read_ok reads
     then ManagerLoop.cache_of
            (LoopSpec.loaded (ManagerLoop.natural_order reads) (wallets (db w)))
     else []) /\
  fst down = inr tt /\
  is_monitoring (manager (snd down)) = false /\
  monitor_task (manager (snd down)) = None /\
  running (snd down) = running w /\
  db (snd down) = db w.
Proof.
  intros Hoff Hct Hfresh up down. subst up down.
  unfold Main.startup_event, Main.shutdown_event, ManagerLoop.load_tracked_wallets,
    DbQueries.get_tracked_wallets_from_db, LoopSpec.loaded,
    WebsocketManager.start_monitoring, WebsocketManager.stop_monitoring,
    WebsocketManager.create_task, WebsocketManager.cancel_and_await.
  destruct w as [d [ac tw im mt ldr dis lps tc] lg tr rn sp ct].
  cbn in Hoff, Hct, Hfresh. subst im ct.
  assert (Hfilter : List.filter (fun t' => negb (Nat.eqb sp t')) rn = rn).
  { clear -Hfresh. induction rn as [|t rn IH]; [reflexivity|]. cbn.
    destruct (Nat.eqb sp t) eqn:E.
    - apply Nat.eqb_eq in E. subst. exfalso. apply Hfresh. now left.
    - cbn. f_equal. apply IH. intros H. apply Hfresh. now right. }
  destruct (ManagerLoop.tracked_read_ok reads); run_M; cbn;
    rewrite bool_decide_eq_false_2 by discriminate;
    rewrite bool_decide_eq_true_2
      by (apply elem_of_app; right; apply list_elem_of_singleton; reflexivity);
    cbn; rewrite List.filter_app; cbn; rewrite Nat.eqb_refl; cbn;
    repeat split; rewrite app_nil_r; exact Hfilter.
Qed.

(** A fresh process whose database cannot be read. *)
Lemma startup_then_shutdown_witness :
  let reads := {| ManagerLoop.tracked_read_ok := false;
                  ManagerLoop.natural_order := DbQueries.documents |} in
  let up := Main.startup_event reads (WebsocketManager.initial_world "M") in
  is_monitoring (manager (snd up)) = true /\
  tracked_wallets (manager (snd up)) = [] /\
  running (snd (Main.shutdown_event (snd up))) = [].
Proof.
  intros reads up.
  destruct (startup_then_shutdown reads (WebsocketManager.initial_world "M") eq_refl eq_refl)
    as (_ & Hon & _ & _ & Hcache & _ & _ & _ & Hrun & _).
  - cbn. tauto.
  - split; [exact Hon|]. split; [exact Hcache|exact Hrun].
Defined.
(** * The endpoint of a connection *)

Section Registrations.
Import WebsocketManager ManagerSpec BroadcastSpec WorldOrder EndpointSpec EndpointOrder.
Implicit Types (conns : dict client_id WebSocket) (ws : WebSocket).















End Registrations.

Section Endpoint.
Import WebsocketManager ManagerSpec BroadcastSpec WorldOrder ManagerLoop.
Import ManagerEndpoint EndpointSpec EndpointOrder.
Variable json_dumps : payload -> string.

Lemma get_recent_transactions_run reply limit w :
  exists entries,
    DbQueries.get_recent_transactions reply limit w =
    (inr (DashboardSpec.recent_of
            {| holders_read_ok := true; recent_reply := reply;
               protocol_reply := inr []; active_reply := inr [] |}),
     DiscoverySpec.writes_and_logs w (db w) entries).
Proof.
  unfold DbQueries.get_recent_transactions, DashboardSpec.recent_of, DbQueries.lift. run_M.
  destruct reply as [e|docs]; cbn [recent_reply];
    [|destruct (DbQueries.validate_all docs)]; cbn;
    rewrite ?with_logs_writes; try (eexists; reflexivity).
  exists []. now rewrite writes_and_logs_id.
Qed.





(** A frame that raises anything but a timeout leaves the loop at once. *)
Lemma serve_frame_fatal websocket f w :
  fatal f = true ->
  exists e, frame_in f = Raised e /\ serve_frame json_dumps websocket f w = (inl e, w).
Proof.
  unfold fatal, serve_frame, handle, try_except.
  destruct (frame_in f) as [e| |cmd]; try discriminate.
  destruct e; try discriminate; intros _; eexists; split; reflexivity.
Qed.

Lemma serve_after_fatal websocket before f : forall rest rest' w,
  fatal f = true ->
  serve json_dumps websocket (before ++ f :: rest) w =
  serve json_dumps websocket (before ++ f :: rest') w.
Proof.
  induction before as [|g before IH]; intros rest rest' w Hfatal; cbn [app serve].
  - rewrite !bind_run. cbn [modify]. rewrite !bind_run.
    destruct (serve_frame_fatal websocket f (run (frame_meanwhile f) w) Hfatal) as (e & _ & ->).
    reflexivity.
  - rewrite !bind_run. cbn [modify]. rewrite !bind_run.
    destruct (serve_frame json_dumps websocket g (run (frame_meanwhile g) w)) as [[e|[]] w1];
      [reflexivity|]. now apply IH.
Qed.
End Endpoint.



(** A frame that raises ends the session, unless it is a timeout.  When
    [receive_text], [json.loads] or [data.get] raise on a frame (a text
    that is not a JSON object, a peer that has gone), the loop is left
    with that exception and the world as it was: what the endpoint does
    afterwards does not depend on the frames that follow, which are never
    read. *)
Theorem endpoint_session_ends_on_bad_frame
    (json_dumps : ManagerLoop.payload -> string) (uuid4 : client_id)
    (greeting : WebsocketManager.sockets) (now : Z) (ws : WebSocket)
    (before : list ManagerEndpoint.frame) (f : ManagerEndpoint.frame)
    (rest rest' : list ManagerEndpoint.frame) (w : world) :
  EndpointSpec.fatal f = true ->
  (exists e, ManagerEndpoint.frame_in f = ManagerEndpoint.Raised e /\
             ManagerEndpoint.serve_frame json_dumps ws f w = (inl e, w)) /\
  ManagerEndpoint.websocket_endpoint json_dumps uuid4 greeting now ws (before ++ f :: rest) w =
  ManagerEndpoint.websocket_endpoint json_dumps uuid4 greeting now ws (before ++ f :: rest') w.
Proof.
  intros Hfatal. split; [now apply serve_frame_fatal|].
  unfold ManagerEndpoint.websocket_endpoint, try_except.
  rewrite !bind_run.
  destruct (WebsocketManager.connect uuid4 ws w) as [[e|c] w1]; [reflexivity|].
  rewrite !bind_run. cbn [gets]. rewrite !bind_run.
  destruct (WebsocketManager.send_personal_message greeting _ ws w1) as [[e|[]] w2];
    [reflexivity|].
  now rewrite (serve_after_fatal json_dumps ws before f rest rest' w2 Hfatal).
Qed.

(** Text that is not JSON, followed or not by a ping. *)
Lemma endpoint_session_ends_on_bad_frame_witness :
  let bad := EndpointSpec.quiet (ManagerEndpoint.Raised (OtherException "JSONDecodeError"))
               1 LoopExamples.open_sockets in
  let ping := EndpointSpec.quiet (ManagerEndpoint.Parsed ManagerEndpoint.Ping)
                2 LoopExamples.open_sockets in
  ManagerEndpoint.websocket_endpoint LoopExamples.type_of 1 LoopExamples.open_sockets 0 10
    [bad; ping] (WebsocketManager.initial_world "M") =
  ManagerEndpoint.websocket_endpoint LoopExamples.type_of 1 LoopExamples.open_sockets 0 10
    [bad] (WebsocketManager.initial_world "M").
Proof.
  intros bad ping.
  apply (endpoint_session_ends_on_bad_frame LoopExamples.type_of 1%nat
           LoopExamples.open_sockets 0 10%nat [] bad [ping] []
           (WebsocketManager.initial_world "M")).
  reflexivity.
Defined.

(** What the endpoint answers to a frame, for a socket that takes what is
    sent to it.  A ping is answered by one pong and nothing else changes;
    a status request by the monitoring flag and the sizes of the registry
    and of the cache at that moment; thirty seconds of silence by a
    keepalive; an unknown command and an empty text by nothing at all.  A
    request for the recent transactions is answered by what the gateway
    returns: the empty list when the read fails or a document does not
    validate, never an error. *)
Theorem endpoint_replies
    (json_dumps : ManagerLoop.payload -> string) (ws : WebSocket)
    (f : ManagerEndpoint.frame) (w : world) :
  ManagerSpec.delivers (ManagerEndpoint.frame_sockets f) ws = true ->
  let run := ManagerEndpoint.serve_frame json_dumps ws f w in
  let now := ManagerEndpoint.frame_clock f in
  let sent p := (@inr exn unit tt,
                 BroadcastSpec.after_events [Delivered ws (Text (json_dumps p))] [] w) in
  (ManagerEndpoint.frame_in f = ManagerEndpoint.Parsed ManagerEndpoint.Ping ->
   run = sent (ManagerLoop.Pong now)) /\
  (ManagerEndpoint.frame_in f = ManagerEndpoint.Parsed ManagerEndpoint.GetStatus ->
   run = sent (ManagerLoop.Status (is_monitoring (manager w))
                 (Z.of_nat (List.length (active_connections (manager w))))
                 (Z.of_nat (List.length (tracked_wallets (manager w)))) now)) /\
  (ManagerEndpoint.frame_in f = ManagerEndpoint.Raised TimeoutError ->
   run = sent (ManagerLoop.Keepalive now)) /\
  (ManagerEndpoint.frame_in f = ManagerEndpoint.Parsed ManagerEndpoint.Unknown \/
   ManagerEndpoint.frame_in f = ManagerEndpoint.Empty ->
   run = (inr tt, w)) /\
  (forall limit,
     ManagerEndpoint.frame_in f =
       ManagerEndpoint.Parsed (ManagerEndpoint.GetRecentTransactions limit) ->
     fst run = inr tt /\
     db (snd run) = db w /\
     manager (snd run) = manager w /\
     (forall txs, ManagerEndpoint.frame_recent f = inr (map Some txs) ->
        trace (snd run) =
        trace w ++ [Delivered ws (Text (json_dumps (ManagerLoop.RecentTransactions txs now)))]) /\
     ((exists e, ManagerEndpoint.frame_recent f = inl e) \/
      (exists docs, ManagerEndpoint.frame_recent f = inr docs /\ In None docs) ->
        trace (snd run) =
        trace w ++ [Delivered ws (Text (json_dumps (ManagerLoop.RecentTransactions [] now)))])).
Proof.
  intros Hopen run now sent. subst run now sent.
  unfold ManagerSpec.delivers in Hopen.
  unfold ManagerEndpoint.serve_frame, ManagerEndpoint.handle, ManagerEndpoint.reply,
    WebsocketManager.send_personal_message, try_except.
  split; [|split; [|split; [|split]]].
  - intros ->. rewrite bind_run, guarded_send_run.
    destruct (ManagerEndpoint.frame_sockets f ws); [discriminate|reflexivity].
  - intros ->. rewrite bind_run. cbn [gets]. rewrite bind_run, guarded_send_run.
    destruct (ManagerEndpoint.frame_sockets f ws); [discriminate|reflexivity].
  - intros ->. cbn [raise]. rewrite bind_run, guarded_send_run.
    destruct (ManagerEndpoint.frame_sockets f ws); [discriminate|reflexivity].
  - intros [-> | ->]; reflexivity.
  - intros limit ->. rewrite bind_run.
    assert (Hvalid : forall txs : list RealtimeTransaction,
              DbQueries.validate_all (map Some txs) = inr txs).
    { induction txs as [|tx txs IH]; cbn; [reflexivity|]. now rewrite IH. }
    assert (Hinvalid : forall docs : list (option RealtimeTransaction),
              In None docs -> exists e, DbQueries.validate_all docs = inl e).
    { induction docs as [|[tx|] docs IH]; cbn; [tauto| |eauto].
      intros [H|H]; [discriminate|]. destruct (IH H) as [e ->]. eauto. }
    destruct (get_recent_transactions_run (ManagerEndpoint.frame_recent f)
                (default 10%Z limit) w) as [entries ->].
    rewrite bind_run, guarded_send_run. cbn [manager DiscoverySpec.writes_and_logs].
    destruct (ManagerEndpoint.frame_sockets f ws); [discriminate|].
    cbn [fst snd when mret M_ret ret db manager trace BroadcastSpec.after_events
         DiscoverySpec.writes_and_logs].
    split; [reflexivity|]. split; [reflexivity|]. split; [reflexivity|]. split.
    + intros txs ->. unfold DashboardSpec.recent_of. cbn [ManagerLoop.recent_reply].
      now rewrite Hvalid.
    + intros [[e ->]|(docs & -> & Hin)]; unfold DashboardSpec.recent_of;
        cbn [ManagerLoop.recent_reply]; [reflexivity|].
      destruct (Hinvalid docs Hin) as [e ->]. reflexivity.
Qed.

(** A ping on an open socket. *)
Lemma endpoint_replies_witness :
  ManagerEndpoint.serve_frame LoopExamples.type_of 10
    (EndpointSpec.quiet (ManagerEndpoint.Parsed ManagerEndpoint.Ping) 7 LoopExamples.open_sockets)
    ManagerExamples.two_clients
  = (inr tt, BroadcastSpec.after_events [Delivered 10 (Text "pong")] []
               ManagerExamples.two_clients).
Proof.
  apply (endpoint_replies LoopExamples.type_of 10%nat
           (EndpointSpec.quiet (ManagerEndpoint.Parsed ManagerEndpoint.Ping) 7
              LoopExamples.open_sockets) ManagerExamples.two_clients eq_refl).
  reflexivity.
Defined.
(** * The HTTP handlers *)

Section Rounding.



End Rounding.

Section Counts.
Import WebsocketManager DbQueries RoutersSpec.


Lemma count_documents_app {A} (P : A -> bool) (l1 l2 : list A) :
  count_documents P (l1 ++ l2) = (count_documents P l1 + count_documents P l2)%Z.
Proof. unfold count_documents. rewrite List.filter_app, List.length_app. lia. Qed.

(** Buys and sells are counted apart; together they are all the
    transactions when there is nothing else. *)
Lemma count_buy_sell (l : list RealtimeTransaction) :
  (count_documents (fun tx => String.eqb (action_type tx) "buy") l +
   count_documents (fun tx => String.eqb (action_type tx) "sell") l
   <= count_documents (fun _ => true) l)%Z /\
  (List.Forall buy_or_sell l ->
   (count_documents (fun tx => String.eqb (action_type tx) "buy") l +
    count_documents (fun tx => String.eqb (action_type tx) "sell") l
    = count_documents (fun _ => true) l)%Z).
Proof.
  unfold count_documents. induction l as [|tx l [IH1 IH2]]; cbn [List.filter].
  - split; [cbn; lia|reflexivity].
  - destruct (String.eqb (action_type tx) "buy") eqn:Eb;
      destruct (String.eqb (action_type tx) "sell") eqn:Es; cbn [List.length].
    + apply String.eqb_eq in Eb, Es. congruence.
    + split; [lia|]. intros H. apply List.Forall_cons_iff in H as [_ H].
      specialize (IH2 H). lia.
    + split; [lia|]. intros H. apply List.Forall_cons_iff in H as [_ H].
      specialize (IH2 H). lia.
    + split; [lia|]. intros H. apply List.Forall_cons_iff in H as [[Hb|Hs] _].
      * rewrite Hb in Eb. discriminate.
      * rewrite Hs in Es. discriminate.
Qed.

(** The record of the generator is a buy or a sell. *)
Lemma mock_transaction_action rnd m tx :
  mock_transaction rnd m = Some tx -> buy_or_sell tx.
Proof.
  unfold mock_transaction, buy_or_sell. intros H.
  destruct (random_choice (wallet_draw rnd) (dict_keys (tracked_wallets m)));
    cbn [mbind option_bind] in H; [|discriminate].
  destruct (random_choice (action_draw rnd) ["buy"; "sell"]) as [action|] eqn:Ea;
    cbn [mbind option_bind] in H; [|discriminate].
  destruct (random_choice (protocol_draw rnd) (dict_values PROTOCOL_PROGRAM_IDS));
    cbn [mbind option_bind] in H; [|discriminate].
  injection H as <-. cbn [action_type].
  unfold random_choice in Ea. apply nth_error_In in Ea.
  destruct Ea as [<-|[<-|[]]]; auto.
Qed.
End Counts.

Section Stored.
Import WebsocketManager.

(** The snapshot after a discovery that reaches its writes. *)
Lemma discover_snapshot_after net_accounts net_mint faults now mint top_n w accounts st :
  fst (SolanaRpc.call_solana_rpc net_accounts "getProgramAccounts" 3 5) = inr (Some accounts) ->
  accounts <> [] ->
  WalletDiscovery.aggregate (DiscoverySpec.decimals_seen (DiscoverySpec.supply_seen net_mint))
    ([], []) accounts = inr st ->
  WalletDiscovery.snapshot_write_ok faults = true ->
  token_holders (db (snd (WalletDiscovery.discover_top_wallets
                            net_accounts net_mint faults now mint top_n w))) !! mint =
  Some (WalletDiscovery.snapshot_of now mint (DiscoverySpec.supply_seen net_mint)
          (DiscoveryTotals.top_holders
             (DiscoverySpec.decimals_seen (DiscoverySpec.supply_seen net_mint)) top_n st)).
Proof.
  intros Hquery Hne Hagg Hok.
  destruct (discover_run net_accounts net_mint faults now mint top_n w)
    as (d & entries & -> & Hd).
  rewrite Hquery in Hd. destruct accounts as [|a accounts]; [congruence|].
  cbv zeta in Hd. rewrite Hagg in Hd. subst d. cbn [snd]. rewrite db_writes.
  unfold DiscoverySpec.persisted. cbn [token_holders]. rewrite Hok.
  apply lookup_insert_eq.
Qed.

(** The transactions after a call of the generator. *)
Lemma generate_transactions rnd insert_ok net w tx :
  tracked_wallets (manager w) <> [] ->
  mock_transaction rnd (manager w) = Some tx ->
  realtime_transactions
    (db (snd (generate_and_broadcast_mock_transaction rnd insert_ok net w))) =
  realtime_transactions (db w) ++ (if insert_ok then [tx] else []).
Proof.
  intros Hne Hmock. unfold generate_and_broadcast_mock_transaction,
    DbService.insert_realtime_transaction.
  rewrite bind_run. cbn [gets].
  destruct (tracked_wallets (manager w)) eqn:Etw; [congruence|].
  rewrite Hmock.
  destruct insert_ok; run_M;
    match goal with |- context [broadcast net ?msg ?w1] =>
      pose proof (broadcast_general net msg w1) as (_ & (_ & _ & Hdb) & _);
      destruct (broadcast net msg w1) as [[e|[]] w2] end;
    cbn [fst snd] in *; cbn; rewrite Hdb; cbn; now rewrite ?app_nil_r.
Qed.
End Stored.

(** [GET /token-holders/{mint}] answers with the stored holders or with a
    404, never with a 500.  It returns all the holders of the snapshot
    stored for the mint, and a 404 when there is none; a failed read is
    swallowed by the gateway, so that it is reported as a 404 as well, even
    when a snapshot is stored.  After a discovery that stored its snapshot,
    the answer is the list of the ranked holders of that run, cut at
    [top_n] and not at ten.  The handler writes nothing. *)
Theorem token_holders_endpoint (read_ok : bool) (mint : string) (w : world) :
  let run := Routers.get_token_holders read_ok mint w in
  let not_found :=
    Routers.HttpError 404 "Token holders snapshot not found for this mint." in
  (fst run = inr (match (if read_ok then token_holders (db w) !! mint else None) with
                  | Some snapshot => inr (holders snapshot)
                  | None => inl not_found
                  end)) /\
  (forall detail, fst run <> inr (inl (Routers.HttpError 500 detail))) /\
  (read_ok = false -> fst run = inr (inl not_found)) /\
  db (snd run) = db w /\ manager (snd run) = manager w /\ trace (snd run) = trace w /\
  (forall net_accounts net_mint faults now top_n w0 accounts st,
     fst (SolanaRpc.call_solana_rpc net_accounts "getProgramAccounts" 3 5)
       = inr (Some accounts) ->
     accounts <> [] ->
     WalletDiscovery.aggregate (DiscoverySpec.decimals_seen (DiscoverySpec.supply_seen net_mint))
       ([], []) accounts = inr st ->
     WalletDiscovery.snapshot_write_ok faults = true ->
     w = snd (WalletDiscovery.discover_top_wallets net_accounts net_mint faults now mint top_n w0) ->
     read_ok = true ->
     fst run = inr (inr (DiscoveryTotals.top_holders
                           (DiscoverySpec.decimals_seen (DiscoverySpec.supply_seen net_mint))
                           top_n st))).
Proof.
  intros run not_found. subst run not_found.
  assert (Hrun : exists entries,
            Routers.get_token_holders read_ok mint w =
            (inr (match (if read_ok then token_holders (db w) !! mint else None) with
                  | Some snapshot => inr (holders snapshot)
                  | None => inl (Routers.HttpError 404
                                   "Token holders snapshot not found for this mint.")
                  end),
             DiscoverySpec.writes_and_logs w (db w) entries)).
  { unfold Routers.get_token_holders, DbQueries.get_token_holder_snapshot,
      DbService.get_token_holder_snapshot. run_M.
    destruct read_ok; cbn; [destruct (token_holders (db w) !! mint); cbn|];
      rewrite ?with_logs_writes, ?writes_and_logs_again; eexists; reflexivity. }
  destruct Hrun as [entries Hrun]. rewrite Hrun. cbn [fst snd].
  split; [reflexivity|]. split; [|split; [|split; [|split; [|split]]]]; try reflexivity.
  - intros detail. destruct (if read_ok then _ else _); intros H; discriminate H.
  - intros ->. reflexivity.
  - intros net_accounts net_mint faults now top_n w0 accounts st Hquery Hne Hagg Hok -> ->.
    rewrite (discover_snapshot_after _ _ _ _ _ _ _ _ _ Hquery Hne Hagg Hok). reflexivity.
Qed.

(** After the discovery over the three accounts: A then B; with a
    database that cannot be read: not found. *)
Lemma token_holders_endpoint_witness :
  let w := snd (WalletDiscovery.discover_top_wallets
                  (Examples.accounts_reply Examples.three_accounts)
                  (Examples.mint_reply 1000 0) WalletDiscovery.no_faults 0 "M" 100
                  Examples.world0) in
  fst (Routers.get_token_holders true "M" w)
    = inr (inr [Examples.holder "A" "a1" 150; Examples.holder "B" "b1" 30]) /\
  fst (Routers.get_token_holders false "M" w)
    = inr (inl (Routers.HttpError 404 "Token holders snapshot not found for this mint.")).
Proof.
  intros w. split.
  - destruct (token_holders_endpoint true "M" w) as (_ & _ & _ & _ & _ & _ & H).
    apply (H (Examples.accounts_reply Examples.three_accounts) (Examples.mint_reply 1000 0)
             WalletDiscovery.no_faults 0%Z 100%Z Examples.world0 Examples.three_accounts
             ([("A", 150%Q); ("B", 30%Q)], [("A", "a1"); ("B", "b1")]));
      (reflexivity || discriminate).
  - destruct (token_holders_endpoint false "M" w) as (_ & _ & H & _).
    apply H. reflexivity.
Defined.

(** [GET /wallets/{address}/transactions] never returns a transaction.
    The documents of the cursor are dictionaries, on which [model_dump] does
    not exist: as soon as the query finds one document the handler answers
    500.  It answers with a body only when the query finds nothing, and the
    body then lists no transaction.  The handler never raises anything
    else and writes nothing. *)
Theorem wallet_transactions_endpoint
    (find_reply : exn + list RealtimeTransaction) (aggregate_reply : exn + list (string * Z))
    (wallet : string) (limit : Z) (w : world) :
  let run := Routers.get_wallet_transactions find_reply aggregate_reply wallet limit w in
  let failed := Routers.HttpError 500 "Failed to retrieve wallet transactions." in
  (exists answer, fst run = inr answer) /\
  (forall body, fst run = inr (inr body) ->
     find_reply = inr [] /\
     Routers.transactions body = [] /\
     Routers.wallet_address body = wallet /\
     exists stats, aggregate_reply = inr stats /\
                   Routers.wallet_protocol_usage body = Routers.usage_of stats) /\
  (forall tx rest, find_reply = inr (tx :: rest) -> fst run = inr (inl failed)) /\
  (forall error, fst run = inr (inl error) -> error = failed) /\
  db (snd run) = db w /\ manager (snd run) = manager w /\ trace (snd run) = trace w.
Proof.
  intros run failed. subst run failed.
  unfold Routers.get_wallet_transactions, Routers.model_dump_all, DbQueries.lift. run_M.
  destruct find_reply as [e|[|tx rest]]; [|destruct aggregate_reply as [e|stats]|
                                          destruct aggregate_reply as [e|stats]];
    cbn [fst snd db manager trace with_logs];
    (split; [eexists; reflexivity|]);
    (split; [intros body H; try discriminate H|]);
    try (split; [intros tx' rest' H; try discriminate H; reflexivity|]);
    try (split; [intros error H; injection H as <-; reflexivity|]);
    try (repeat split; fail).
  - injection H as <-. cbn. repeat split. eexists. split; reflexivity.
  - split; [intros error H; discriminate H|]. repeat split.
Qed.

(** A wallet with one transaction: the answer is the 500. *)
Lemma wallet_transactions_endpoint_witness :
  fst (Routers.get_wallet_transactions
         (inr [RoutersSpec.buy_of_W1]) (inr [("Jupiter", 1%Z)]) "W1" 20 Examples.world0)
  = inr (inl (Routers.HttpError 500 "Failed to retrieve wallet transactions.")).
Proof.
  destruct (wallet_transactions_endpoint
              (inr [RoutersSpec.buy_of_W1]) (inr [("Jupiter", 1%Z)]) "W1" 20
              Examples.world0) as (_ & _ & H & _).
  apply (H RoutersSpec.buy_of_W1 []). reflexivity.
Defined.

Section Analytics.
Import WebsocketManager ManagerLoop DashboardSpec Routers RoutersSpec.

End Analytics.



(** [POST /realtime/start-monitoring] and [POST /realtime/stop-monitoring]
    always answer with their success message; neither can send its 500.
    After a start the manager is monitoring and after a stop it is not.
    The answer does not tell whether anything was done: a start on a
    manager that is monitoring creates no task and changes nothing of the
    manager, so that two starts in a row leave one task, and a stop on a
    manager that is not monitoring changes neither the manager nor the
    tasks.  Neither handler touches the database or the registry. *)
Theorem monitoring_endpoints_always_succeed (w : world) :
  let started := Routers.start_realtime_monitoring w in
  let again := Routers.start_realtime_monitoring (snd started) in
  let stopped := Routers.stop_realtime_monitoring w in
  fst started = inr (inr "Real-time monitoring started.") /\
  fst again = inr (inr "Real-time monitoring started.") /\
  fst stopped = inr (inr "Real-time monitoring stopped.") /\
  is_monitoring (manager (snd started)) = true /\
  is_monitoring (manager (snd stopped)) = false /\
  (manager (snd again) = manager (snd started) /\
   running (snd again) = running (snd started) /\
   spawned (snd again) = spawned (snd started)) /\
  (is_monitoring (manager w) = true ->
   manager (snd started) = manager w /\ running (snd started) = running w) /\
  (is_monitoring (manager w) = false ->
   manager (snd stopped) = manager w /\ running (snd stopped) = running w /\
   monitor_task (manager (snd started)) = Some (spawned w) /\
   running (snd started) = running w ++ [spawned w]) /\
  (db (snd started) = db w /\ db (snd stopped) = db w /\
   active_connections (manager (snd started)) = active_connections (manager w) /\
   active_connections (manager (snd stopped)) = active_connections (manager w) /\
   trace (snd started) = trace w /\ trace (snd stopped) = trace w).
Proof.
  intros started again stopped. subst started again stopped.
  unfold Routers.start_realtime_monitoring, Routers.stop_realtime_monitoring,
    WebsocketManager.start_monitoring, WebsocketManager.stop_monitoring,
    WebsocketManager.create_task, WebsocketManager.cancel_and_await. run_M.
  destruct w as [d [ac tw im mt ldr dis lps tc] lg tr rn sp ct]. cbn.
  destruct im; cbn.
  - destruct mt as [t|]; cbn.
    + destruct (bool_decide (ct = Some t)); cbn;
        [|destruct (bool_decide (t ∈ rn)); cbn];
        repeat split; try reflexivity; discriminate.
    + repeat split; try reflexivity; discriminate.
  - repeat split; try reflexivity; discriminate.
Qed.

(** On the initial manager: the first start creates task 0, the second
    nothing. *)
Lemma monitoring_endpoints_always_succeed_witness :
  let started := Routers.start_realtime_monitoring Examples.world0 in
  running (snd started) = [0%nat] /\
  running (snd (Routers.start_realtime_monitoring (snd started))) = [0%nat] /\
  running (snd (Routers.stop_realtime_monitoring Examples.world0)) = [].
Proof.
  destruct (monitoring_endpoints_always_succeed Examples.world0)
    as (_ & _ & _ & _ & _ & (_ & Hagain & _) & _ & Hoff & _).
  destruct (Hoff eq_refl) as (_ & Hstop & _ & Hstart).
  intros started. subst started. rewrite Hagain, Hstart, Hstop. repeat split.
Defined.

(** The feed keeps the counts of the analytics page consistent.  The
    generator stores buys and sells only: when every stored transaction is
    a buy or a sell, this is still so after a call of the generator,
    whatever it draws and whether or not the insert and the sends go
    through, and the count of the buys and the count of the sells add up
    to the count of all the transactions.  A call adds one to the total
    when the cache holds a wallet and the insert goes through, and nothing
    otherwise. *)
Theorem feed_keeps_buy_sell_partition
    (rnd : WebsocketManager.draws) (insert_ok : bool) (net : WebsocketManager.sockets)
    (w : world) :
  List.Forall RoutersSpec.buy_or_sell (realtime_transactions (db w)) ->
  let w' := snd (WebsocketManager.generate_and_broadcast_mock_transaction rnd insert_ok net w) in
  List.Forall RoutersSpec.buy_or_sell (realtime_transactions (db w')) /\
  exists total buy sell before,
    fst (DbQueries.count_total_transactions true w') = inr total /\
    fst (DbQueries.count_buy_transactions true w') = inr buy /\
    fst (DbQueries.count_sell_transactions true w') = inr sell /\
    fst (DbQueries.count_total_transactions true w) = inr before /\
    (buy + sell = total)%Z /\
    total = (before + if insert_ok && negb (bool_decide (tracked_wallets (manager w) = []))
                      then 1 else 0)%Z.
Proof.
  intros Hall w'. subst w'.
  assert (Hcounts : forall w1 : world,
            List.Forall RoutersSpec.buy_or_sell (realtime_transactions (db w1)) ->
            forall extra : Z,
            DbQueries.count_documents (fun _ => true) (realtime_transactions (db w1))
              = (DbQueries.count_documents (fun _ => true) (realtime_transactions (db w))
                 + extra)%Z ->
            List.Forall RoutersSpec.buy_or_sell (realtime_transactions (db w1)) /\
            exists total buy sell before,
              fst (DbQueries.count_total_transactions true w1) = inr total /\
              fst (DbQueries.count_buy_transactions true w1) = inr buy /\
              fst (DbQueries.count_sell_transactions true w1) = inr sell /\
              fst (DbQueries.count_total_transactions true w) = inr before /\
              (buy + sell = total)%Z /\ total = (before + extra)%Z).
  { intros w1 H1 extra Hextra. split; [exact H1|].
    do 4 eexists. do 4 (split; [reflexivity|]).
    split; [apply count_buy_sell; exact H1|exact Hextra]. }
  destruct (tracked_wallets (manager w)) as [|entry cache] eqn:Ecache.
  - rewrite bool_decide_eq_true_2 by reflexivity. rewrite andb_false_r.
    apply Hcounts.
    + unfold WebsocketManager.generate_and_broadcast_mock_transaction.
      rewrite bind_run. run_M. rewrite Ecache. exact Hall.
    + unfold WebsocketManager.generate_and_broadcast_mock_transaction.
      rewrite bind_run. run_M. rewrite Ecache. cbn. lia.
  - rewrite bool_decide_eq_false_2 by discriminate. rewrite andb_true_r.
    assert (Hne : tracked_wallets (manager w) <> []) by (rewrite Ecache; discriminate).
    destruct (mock_transaction_Some rnd (manager w) Hne) as [tx Hmock].
    pose proof (generate_transactions rnd insert_ok net w tx Hne Hmock) as Htxs.
    apply Hcounts.
    + rewrite Htxs. apply List.Forall_app. split; [exact Hall|].
      destruct insert_ok; constructor; [|constructor].
      exact (mock_transaction_action _ _ _ Hmock).
    + rewrite Htxs, count_documents_app. destruct insert_ok; reflexivity.
Qed.

(** One call on a cache with one wallet and an empty collection: what is
    stored is a buy or a sell. *)
Lemma feed_keeps_buy_sell_partition_witness :
  let w := with_manager
             (fun m => WebsocketManager.set_active_connections (active_connections m)
                         ManagerExamples.tracks_W1)
             ManagerExamples.three_clients_monitored in
  List.Forall RoutersSpec.buy_or_sell
    (realtime_transactions
       (db (snd (WebsocketManager.generate_and_broadcast_mock_transaction
                   ManagerExamples.draws_half true ManagerExamples.socket_11_closed w)))).
Proof.
  intros w.
  apply (feed_keeps_buy_sell_partition ManagerExamples.draws_half true
           ManagerExamples.socket_11_closed w).
  constructor.
Defined.
